(** * openapp: validators, configuration store, shortcut table and launch

    A shallow embedding of [src/index.js] (the [openapp] command line tool)
    and the properties of its validation and configuration-merge layer.

    Conventions of the embedding.

    - A JavaScript string is a [string]: a sequence of UTF-16 code units, here
      the code units U+0000..U+00FF (one [ascii] each).  [trim], [toLowerCase]
      and the regular expressions are written out for that range as ECMAScript
      defines them.
    - [throw], [process.exit] and normal return are the three ways a piece of
      code ends ([Outcome]); commands thread a [World] holding the
      configuration file, the console and the calls made to [open].
    - Built-ins of the platform that the program calls but does not define
      (the WHATWG [URL] parser, [String.prototype.localeCompare], string to
      number conversion) are fields of a [Host] record, a parameter of the
      development. *)

From Stdlib Require Import List String Ascii Bool ZArith NArith Lia.
From Stdlib Require Import Sorted Permutation DecimalString.
Import ListNotations.
Local Open Scope string_scope.

Set Implicit Arguments.

(* ================================================================== *)
(** * JavaScript strings *)

Module Str.

(** The double quote, which template strings of the source embed. *)
Definition dq : string := String (ascii_of_nat 34) EmptyString.

Definition code (c : ascii) : N := N_of_ascii c.

Definition between (lo hi n : N) : bool := (lo <=? n)%N && (n <=? hi)%N.

(** WhiteSpace and LineTerminator code units below U+0100: TAB, LF, VT, FF,
    CR, SP and NBSP. *)
Definition isWhiteSpace (c : ascii) : bool :=
  let n := code c in between 9 13 n || (n =? 32)%N || (n =? 160)%N.

Fixpoint trimStart (s : string) : string :=
  match s with
  | EmptyString => EmptyString
  | String c r => if isWhiteSpace c then trimStart r else s
  end.

Fixpoint trimEnd (s : string) : string :=
  match s with
  | EmptyString => EmptyString
  | String c r =>
      match trimEnd r with
      | EmptyString => if isWhiteSpace c then EmptyString else String c EmptyString
      | r' => String c r'
      end
  end.

(** No character of the string is white space. *)
Fixpoint noWhiteSpace (s : string) : bool :=
  match s with
  | EmptyString => true
  | String c r => negb (isWhiteSpace c) && noWhiteSpace r
  end.

(** [String.prototype.trim]. *)
Definition trim (s : string) : string := trimEnd (trimStart s).

(** Lower-case mapping of one code unit: A-Z, and the Latin-1 capitals
    U+00C0..U+00DE except the multiplication sign U+00D7. *)
Definition lowerChar (c : ascii) : ascii :=
  let n := code c in
  if between 65 90 n || (between 192 222 n && negb (n =? 215)%N)
  then ascii_of_N (n + 32) else c.

(** [String.prototype.toLowerCase]. *)
Fixpoint toLowerCase (s : string) : string :=
  match s with
  | EmptyString => EmptyString
  | String c r => String (lowerChar c) (toLowerCase r)
  end.

(** Canonicalize of a case-insensitive regular expression without the
    [u] flag: the upper-case mapping when it is one code unit, except that
    a code unit of 128 or more never maps below 128.  The result is a code
    point: U+00FF maps to U+0178 and U+00B5 to U+039C. *)
Definition canonicalize (c : ascii) : N :=
  let n := code c in
  if between 97 122 n || (between 224 254 n && negb (n =? 247)%N) then (n - 32)%N
  else if (n =? 255)%N then 376%N
  else if (n =? 181)%N then 924%N
  else n.

(** A literal pattern matches at the start of [s], ignoring case. *)
Fixpoint matchHere_i (p s : string) : bool :=
  match p, s with
  | EmptyString, _ => true
  | String a p', String b s' => (canonicalize a =? canonicalize b)%N && matchHere_i p' s'
  | String _ _, EmptyString => false
  end.

(** [/p/i.test(s)] for a pattern [p] of literal characters: a match at
    some offset. *)
Fixpoint test_i (p s : string) : bool :=
  matchHere_i p s ||
  match s with
  | EmptyString => false
  | String _ s' => test_i p s'
  end.

(** The character class [[a-z0-9_-]]. *)
Definition isNameChar (c : ascii) : bool :=
  let n := code c in
  between 97 122 n || between 48 57 n || (n =? 95)%N || (n =? 45)%N.

Fixpoint allNameChars (s : string) : bool :=
  match s with
  | EmptyString => true
  | String c r => isNameChar c && allNameChars r
  end.

(** [/^[a-z0-9_-]+$/.test(s)]: one or more characters of the class and
    nothing else. *)
Definition test_name (s : string) : bool :=
  match s with
  | EmptyString => false
  | String _ _ => allNameChars s
  end.

(** [Array.prototype.includes] on an array of strings. *)
Fixpoint includes (l : list string) (s : string) : bool :=
  match l with
  | [] => false
  | x :: r => String.eqb x s || includes r s
  end.

(** [Array.prototype.join]. *)
Fixpoint join (sep : string) (l : list string) : string :=
  match l with
  | [] => EmptyString
  | [x] => x
  | x :: r => x ++ sep ++ join sep r
  end.

(** [String.prototype.repeat]. *)
Fixpoint repeat (s : string) (n : nat) : string :=
  match n with
  | O => EmptyString
  | S k => s ++ repeat s k
  end.

(** [String.prototype.padEnd] with the default filler, a space. *)
Definition padEnd (s : string) (width : nat) : string :=
  s ++ repeat " " (width - String.length s).

(** Decimal rendering of a non-negative integer. *)
Definition ofN (n : N) : string := NilEmpty.string_of_uint (N.to_uint n).

Definition ofNat (n : nat) : string := NilEmpty.string_of_uint (Nat.to_uint n).

End Str.

(* ================================================================== *)
(** * Exceptions and results *)

(** The constructor that made a thrown value.  [Error] is what the program
    throws itself; the others come from the engine and the file system. *)
Inductive ErrorClass : Type :=
| Error | TypeError | RangeError | SyntaxError | SystemError.

Record Thrown : Type := mkThrown { errorClass : ErrorClass; message : string }.

(** [throw new Error(msg)]. *)
Definition newError (msg : string) : Thrown := mkThrown Error msg.

(** The result of a function that returns or throws and does nothing else. *)
Inductive Result (A : Type) : Type :=
| Ok (a : A)
| Raise (e : Thrown).
Arguments Ok {A} a.
Arguments Raise {A} e.

(* ================================================================== *)
(** * The host: platform built-ins the program calls *)

(** What [new URL(s)] exposes to the program: [url.protocol] and
    [url.href]. *)
Record URL : Type := mkURL { protocol : string; href : string }.

Record Host : Type := mkHost {
  (** [new URL(s)]: [None] when the constructor throws. *)
  parseURL : string -> option URL;
  (** [a.localeCompare(b)]: negative, zero or positive. *)
  localeCompare : string -> string -> Z;
  (** [Number(s)] as far as array lengths need it: the length [s] denotes,
      [None] when [s] is not an integer in [0, 2^32 - 1]. *)
  toArrayLength : string -> option N
}.

(* ================================================================== *)
(** * Constants of the program *)

Definition VERSION : string := "1.0.0".

(** Built-in shortcuts, in the order of the object literal. *)
Definition BUILT_IN_SHORTCUTS : list (string * string) :=
  [ ("youtube", "https://www.youtube.com");
    ("facebook", "https://www.facebook.com");
    ("twitter", "https://www.twitter.com");
    ("x", "https://www.x.com");
    ("instagram", "https://www.instagram.com");
    ("linkedin", "https://www.linkedin.com");
    ("reddit", "https://www.reddit.com");
    ("pinterest", "https://www.pinterest.com");
    ("tiktok", "https://www.tiktok.com");
    ("snapchat", "https://www.snapchat.com");
    ("gmail", "https://mail.google.com");
    ("outlook", "https://outlook.live.com");
    ("drive", "https://drive.google.com");
    ("docs", "https://docs.google.com");
    ("sheets", "https://sheets.google.com");
    ("slides", "https://slides.google.com");
    ("calendar", "https://calendar.google.com");
    ("notion", "https://www.notion.so");
    ("trello", "https://trello.com");
    ("slack", "https://slack.com");
    ("discord", "https://discord.com");
    ("zoom", "https://zoom.us");
    ("meet", "https://meet.google.com");
    ("teams", "https://teams.microsoft.com");
    ("github", "https://github.com");
    ("gitlab", "https://gitlab.com");
    ("bitbucket", "https://bitbucket.org");
    ("stackoverflow", "https://stackoverflow.com");
    ("npm", "https://www.npmjs.com");
    ("codepen", "https://codepen.io");
    ("codesandbox", "https://codesandbox.io");
    ("vercel", "https://vercel.com");
    ("netlify", "https://www.netlify.com");
    ("netflix", "https://www.netflix.com");
    ("prime", "https://www.primevideo.com");
    ("hotstar", "https://www.hotstar.com");
    ("spotify", "https://open.spotify.com");
    ("twitch", "https://www.twitch.tv");
    ("amazon", "https://www.amazon.com");
    ("flipkart", "https://www.flipkart.com");
    ("ebay", "https://www.ebay.com");
    ("google", "https://www.google.com");
    ("bing", "https://www.bing.com");
    ("duckduckgo", "https://duckduckgo.com");
    ("wikipedia", "https://www.wikipedia.org");
    ("chatgpt", "https://chat.openai.com");
    ("claude", "https://claude.ai");
    ("gemini", "https://gemini.google.com");
    ("perplexity", "https://www.perplexity.ai");
    ("hackernews", "https://news.ycombinator.com");
    ("medium", "https://medium.com");
    ("devto", "https://dev.to") ].

(** Supported browsers with their app identifiers; [default] is a key whose
    value is [undefined] ([None]). *)
Definition BROWSERS : list (string * option string) :=
  [ ("chrome", Some "chrome");
    ("firefox", Some "firefox");
    ("safari", Some "safari");
    ("edge", Some "msedge");
    ("brave", Some "brave");
    ("opera", Some "opera");
    ("default", None) ].

(** Own-property lookup in a table in source order. *)
Fixpoint assoc {A : Type} (k : string) (l : list (string * A)) : option A :=
  match l with
  | [] => None
  | (k', v) :: r => if String.eqb k' k then Some v else assoc k r
  end.

(** [Object.prototype.hasOwnProperty.call(table, k)]. *)
Definition hasOwn {A : Type} (l : list (string * A)) (k : string) : bool :=
  match assoc k l with Some _ => true | None => false end.

(* ================================================================== *)
(** * Validators *)

Definition dangerousPatterns : list string :=
  [ "javascript:"; "data:"; "vbscript:"; "file:"; "about:"; "blob:" ].

Definition msg_url_empty : string := "URL must be a non-empty string".
Definition msg_url_disallowed : string := "URL contains disallowed protocol".
Definition msg_url_malformed : string :=
  "Invalid URL format. Please provide a valid URL (e.g., https://example.com)".
Definition msg_url_scheme : string :=
  "Only http and https URLs are allowed for security reasons".

Section Validators.

Variable host : Host.

(** [validateUrl(urlString)]. *)
Definition validateUrl (urlString : string) : Result string :=
  if String.eqb urlString EmptyString then Raise (newError msg_url_empty)
  else
    let trimmedUrl := Str.trim urlString in
    if existsb (fun pattern => Str.test_i pattern trimmedUrl) dangerousPatterns
    then Raise (newError msg_url_disallowed)
    else
      match parseURL host trimmedUrl with
      | None => Raise (newError msg_url_malformed)
      | Some url =>
          if negb (String.eqb (protocol url) "http:") && negb (String.eqb (protocol url) "https:")
          then Raise (newError msg_url_scheme)
          else Ok (href url)
      end.

End Validators.

Definition reservedNames : list string :=
  [ "add"; "remove"; "list"; "search"; "config"; "help"; "version" ].

Definition msg_name_empty : string := "Shortcut name must be a non-empty string".
Definition msg_name_length : string := "Shortcut name must be between 1 and 50 characters".
Definition msg_name_chars : string :=
  "Shortcut name can only contain letters, numbers, hyphens, and underscores".
Definition msg_name_reserved (trimmedName : string) : string :=
  Str.dq ++ trimmedName ++ Str.dq ++ " is a reserved command and cannot be used as a shortcut name".

(** [validateShortcutName(name)]. *)
Definition validateShortcutName (name : string) : Result string :=
  if String.eqb name EmptyString then Raise (newError msg_name_empty)
  else
    let trimmedName := Str.toLowerCase (Str.trim name) in
    if (String.length trimmedName =? 0)%nat || (50 <? String.length trimmedName)%nat
    then Raise (newError msg_name_length)
    else if negb (Str.test_name trimmedName)
    then Raise (newError msg_name_chars)
    else if Str.includes reservedNames trimmedName
    then Raise (newError (msg_name_reserved trimmedName))
    else Ok trimmedName.

Definition msg_browser_empty : string := "Browser name must be a non-empty string".
Definition msg_browser_unsupported (browser : string) : string :=
  "Unsupported browser: " ++ Str.dq ++ browser ++ Str.dq ++ ". Supported browsers: "
  ++ Str.join ", " (map fst BROWSERS).

(** [validateBrowser(browser)]. *)
Definition validateBrowser (browser : string) : Result string :=
  if String.eqb browser EmptyString then Raise (newError msg_browser_empty)
  else
    let normalizedBrowser := Str.toLowerCase (Str.trim browser) in
    if negb (hasOwn BROWSERS normalizedBrowser)
    then Raise (newError (msg_browser_unsupported browser))
    else Ok normalizedBrowser.

(* ================================================================== *)
(** * JavaScript values read from and written to the configuration file *)

(** The values [JSON.parse] produces, and what the program's assignments
    and [delete]s make of them before they are serialized again.

    - A number is held by its decimal rendering ([Number::toString]), which
      is all the program observes of it: its truthiness, its text and what
      [JSON.stringify] writes.
    - An array holds its elements, [None] for a hole, and the properties
      that are not indices.
    - An object holds its own properties in property order. *)
#[warnings="-register-all"]
Inductive Value : Type :=
| VNull
| VBool (b : bool)
| VNum (rendering : string)
| VStr (s : string)
| VArr (elements : list (option Value)) (extra : list (string * Value))
| VObj (props : list (string * Value)).

Module Js.

(** ToBoolean. *)
Definition truthy (v : Value) : bool :=
  match v with
  | VNull => false
  | VBool b => b
  | VNum r => negb (String.eqb r "0") && negb (String.eqb r "NaN")
  | VStr s => negb (String.eqb s EmptyString)
  | VArr _ _ | VObj _ => true
  end.

(** [a || b] where [a] may be [undefined]. *)
Definition orElse (a : option Value) (b : Value) : Value :=
  match a with
  | Some v => if truthy v then v else b
  | None => b
  end.

(** [typeof v === 'object' && v !== null]. *)
Definition isObject (v : Value) : bool :=
  match v with
  | VArr _ _ | VObj _ => true
  | _ => false
  end.

Definition isDigit (c : ascii) : bool := Str.between 48 57 (Str.code c).

Fixpoint digitsValue (acc : N) (s : string) : option N :=
  match s with
  | EmptyString => Some acc
  | String c r =>
      if isDigit c then digitsValue (acc * 10 + (Str.code c - 48))%N r else None
  end.

(** The array index a property key denotes: a canonical numeric string
    below 2^32 - 1. *)
Definition arrayIndex (k : string) : option nat :=
  match k with
  | EmptyString => None
  | String _ _ =>
      match digitsValue 0 k with
      | Some n =>
          if String.eqb (Str.ofN n) k && (n <? 4294967295)%N
          then Some (N.to_nat n) else None
      | None => None
      end
  end.

(** One-character strings of a string, by index. *)
Fixpoint charEntries (i : nat) (s : string) : list (string * Value) :=
  match s with
  | EmptyString => []
  | String c r => (Str.ofNat i, VStr (String c EmptyString)) :: charEntries (S i) r
  end.

Fixpoint elementEntries (i : nat) (l : list (option Value)) : list (string * Value) :=
  match l with
  | [] => []
  | Some v :: r => (Str.ofNat i, v) :: elementEntries (S i) r
  | None :: r => elementEntries (S i) r
  end.

(** Own enumerable string-keyed properties, in property order: what
    object spread copies and [Object.entries] lists. *)
Definition ownEntries (v : Value) : list (string * Value) :=
  match v with
  | VObj ps => ps
  | VArr els ex => elementEntries 0 els ++ ex
  | VStr s => charEntries 0 s
  | VNull | VBool _ | VNum _ => []
  end.

Definition msg_null_to_object : string := "Cannot convert undefined or null to object".

(** [Object.entries(v)]. *)
Definition Object_entries (v : Value) : Result (list (string * Value)) :=
  match v with
  | VNull => Raise (mkThrown TypeError msg_null_to_object)
  | _ => Ok (ownEntries v)
  end.

(** [Object.prototype.hasOwnProperty.call(v, k)]. *)
Definition hasOwnProperty (v : Value) (k : string) : Result bool :=
  match v with
  | VNull => Raise (mkThrown TypeError msg_null_to_object)
  | VObj ps => Ok (hasOwn ps k)
  | VArr els ex =>
      Ok match arrayIndex k with
         | Some i => match nth_error els i with Some (Some _) => true | _ => false end
         | None => String.eqb k "length" || hasOwn ex k
         end
  | VStr s =>
      Ok match arrayIndex k with
         | Some i => (i <? String.length s)%nat
         | None => String.eqb k "length"
         end
  | VBool _ | VNum _ => Ok false
  end.

(** Replace the value of an own property, keeping its place. *)
Fixpoint replaceProp (ps : list (string * Value)) (k : string) (x : Value)
  : list (string * Value) :=
  match ps with
  | [] => []
  | (k', v) :: r =>
      if String.eqb k' k then (k', x) :: r else (k', v) :: replaceProp r k x
  end.

(** The place of a new index key: before the first key that is not an
    index or is a larger index. *)
Fixpoint insertIndexProp (ps : list (string * Value)) (i : nat) (k : string) (x : Value)
  : list (string * Value) :=
  match ps with
  | [] => [(k, x)]
  | (k', v) :: r =>
      match arrayIndex k' with
      | Some j => if (i <? j)%nat then (k, x) :: ps else (k', v) :: insertIndexProp r i k x
      | None => (k, x) :: ps
      end
  end.

(** Create a new own property: index keys come first in ascending order,
    other keys follow in creation order. *)
Definition createProp (ps : list (string * Value)) (k : string) (x : Value)
  : list (string * Value) :=
  match arrayIndex k with
  | Some i => insertIndexProp ps i k x
  | None => ps ++ [(k, x)]
  end.

(** CreateDataProperty: define or overwrite an own property. *)
Definition defineProp (ps : list (string * Value)) (k : string) (x : Value)
  : list (string * Value) :=
  if hasOwn ps k then replaceProp ps k x else createProp ps k x.

(** [target[k] = x] on an ordinary object whose prototype is
    [Object.prototype]: an own property is overwritten; the key
    [__proto__], when not own, reaches the accessor of [Object.prototype],
    whose setter ignores a value that is not an object; any other key
    creates an own property. *)
Definition assignProp (ps : list (string * Value)) (k : string) (x : Value)
  : list (string * Value) :=
  if hasOwn ps k then replaceProp ps k x
  else if String.eqb k "__proto__" then ps
  else createProp ps k x.

Fixpoint removeProp (ps : list (string * Value)) (k : string) : list (string * Value) :=
  match ps with
  | [] => []
  | (k', v) :: r => if String.eqb k' k then r else (k', v) :: removeProp r k
  end.

(** Write element [i] of an array, growing it with holes when needed. *)
Fixpoint setElement (els : list (option Value)) (i : nat) (x : Value)
  : list (option Value) :=
  match i, els with
  | O, [] => [Some x]
  | O, _ :: r => Some x :: r
  | S j, [] => None :: setElement [] j x
  | S j, e :: r => e :: setElement r j x
  end.

(** [arr.length = n]: truncate, or grow with holes. *)
Definition setLength (els : list (option Value)) (n : nat) : list (option Value) :=
  firstn n els ++ List.repeat None (n - List.length els).

(** The messages of the errors the engine throws, in the words of V8. *)
Definition msg_invalid_length : string := "Invalid array length".

(** [typeof] and the text of a primitive value, as the messages show
    them. *)
Definition primitiveType (v : Value) : string :=
  match v with
  | VStr _ => "string"
  | VNum _ => "number"
  | VBool _ => "boolean"
  | _ => "object"
  end.

Definition primitiveText (v : Value) : string :=
  match v with
  | VStr s => s
  | VNum r => r
  | VBool true => "true"
  | VBool false => "false"
  | _ => "null"
  end.

Definition msg_cannot_assign (k : string) (target : Value) : string :=
  "Cannot create property '" ++ k ++ "' on " ++ primitiveType target
  ++ " '" ++ primitiveText target ++ "'".

Definition msg_read_only (k : string) (target : Value) : string :=
  "Cannot assign to read only property '" ++ k ++ "' of " ++ primitiveType target
  ++ " '" ++ primitiveText target ++ "'".

Definition msg_cannot_set_null (k : string) : string :=
  "Cannot set properties of null (setting '" ++ k ++ "')".

Definition msg_cannot_delete (k : string) (class : string) : string :=
  "Cannot delete property '" ++ k ++ "' of [object " ++ class ++ "]".

Section Assign.

Variable host : Host.

(** [target[k] = x] in strict mode code, for a string [x]. *)
Definition setProperty (target : Value) (k : string) (x : string) : Result Value :=
  match target with
  | VObj ps => Ok (VObj (assignProp ps k (VStr x)))
  | VArr els ex =>
      match arrayIndex k with
      | Some i => Ok (VArr (setElement els i (VStr x)) ex)
      | None =>
          if String.eqb k "length" then
            match toArrayLength host x with
            | Some n => Ok (VArr (setLength els (N.to_nat n)) ex)
            | None => Raise (mkThrown RangeError msg_invalid_length)
            end
          else Ok (VArr els (assignProp ex k (VStr x)))
      end
  | VStr s =>
      if String.eqb k "__proto__" then Ok target
      else if match arrayIndex k with
              | Some i => (i <? String.length s)%nat
              | None => String.eqb k "length"
              end
      then Raise (mkThrown TypeError (msg_read_only k target))
      else Raise (mkThrown TypeError (msg_cannot_assign k target))
  | VNum _ | VBool _ =>
      if String.eqb k "__proto__" then Ok target
      else Raise (mkThrown TypeError (msg_cannot_assign k target))
  | VNull => Raise (mkThrown TypeError (msg_cannot_set_null k))
  end.

End Assign.

Fixpoint holeAt (els : list (option Value)) (i : nat) : list (option Value) :=
  match i, els with
  | _, [] => []
  | O, _ :: r => None :: r
  | S j, e :: r => e :: holeAt r j
  end.

(** [delete target[k]] in strict mode code. *)
Definition deleteProperty (target : Value) (k : string) : Result Value :=
  match target with
  | VObj ps => Ok (VObj (removeProp ps k))
  | VArr els ex =>
      match arrayIndex k with
      | Some i => Ok (VArr (holeAt els i) ex)
      | None =>
          if String.eqb k "length"
          then Raise (mkThrown TypeError (msg_cannot_delete k "Array"))
          else Ok (VArr els (removeProp ex k))
      end
  | VStr s =>
      match arrayIndex k with
      | Some i =>
          if (i <? String.length s)%nat
          then Raise (mkThrown TypeError (msg_cannot_delete k "String"))
          else Ok target
      | None =>
          if String.eqb k "length"
          then Raise (mkThrown TypeError (msg_cannot_delete k "String"))
          else Ok target
      end
  | VNum _ | VBool _ => Ok target
  | VNull => Raise (mkThrown TypeError msg_null_to_object)
  end.

Definition msg_to_primitive : string := "Cannot convert object to primitive value".

(** ToString, as string concatenation and property keys apply it.  An
    object or array is converted by the [toString] it inherits; an own
    property of that name, which in a parsed document is never a function,
    hides it, and the conversion throws.  [Array.prototype.toString]
    joins the elements, [null] and holes as empty strings, unless an own
    property hides [join]. *)
Fixpoint toString (v : Value) : Result string :=
  match v with
  | VNull => Ok "null"
  | VBool true => Ok "true"
  | VBool false => Ok "false"
  | VNum r => Ok r
  | VStr s => Ok s
  | VObj ps =>
      if hasOwn ps "toString" then Raise (mkThrown TypeError msg_to_primitive)
      else Ok "[object Object]"
  | VArr els ex =>
      if hasOwn ex "toString" then Raise (mkThrown TypeError msg_to_primitive)
      else if hasOwn ex "join" then Ok "[object Array]"
      else
        match
          (fix each (l : list (option Value)) : Result (list string) :=
             match l with
             | [] => Ok []
             | o :: r =>
                 match match o with
                       | None | Some VNull => Ok EmptyString
                       | Some x => toString x
                       end with
                 | Raise e => Raise e
                 | Ok s =>
                     match each r with
                     | Ok ss => Ok (s :: ss)
                     | Raise e => Raise e
                     end
                 end
             end) els
        with
        | Ok parts => Ok (Str.join "," parts)
        | Raise e => Raise e
        end
  end.

(** A number [JSON.stringify] writes as [null]. *)
Definition notFinite (r : string) : bool :=
  String.eqb r "Infinity" || String.eqb r "-Infinity" || String.eqb r "NaN".

(** [JSON.parse(JSON.stringify(v))]: a number that is not finite and a
    hole become [null], and an array loses the properties that are not
    indices. *)
Fixpoint reparse (v : Value) : Value :=
  match v with
  | VNull | VBool _ | VStr _ => v
  | VNum r => if notFinite r then VNull else v
  | VArr els _ =>
      VArr (map (fun o => match o with
                          | None => Some VNull
                          | Some x => Some (reparse x)
                          end) els) []
  | VObj ps =>
      VObj ((fix props (l : list (string * Value)) : list (string * Value) :=
               match l with
               | [] => []
               | (k, x) :: r => (k, reparse x) :: props r
               end) ps)
  end.

End Js.

(* ================================================================== *)
(** * The world a command runs in *)

(** The text of the configuration file, by what [JSON.parse] makes of
    it. *)
Inductive Content : Type :=
| NotJson
| Json (v : Value).

(** [~/.openapprc.json]: missing, present but not readable (with the
    message of the error reading it raises), or holding text. *)
Inductive FileState : Type :=
| Absent
| Unreadable (reason : string)
| Holds (c : Content).

Inductive Line : Type :=
| Out (text : string)   (* console.log *)
| Err (text : string).  (* console.error *)

(** The value [BROWSERS[key]] evaluates to when it is not [undefined]: a
    string of the table, or the member of [Object.prototype] the key
    names. *)
Inductive AppName : Type :=
| NameString (s : string)
| NameInherited (member : string).

Record App : Type := mkApp { app_name : AppName; app_arguments : option (list string) }.

(** The options object handed to [open]. *)
Record OpenOptions : Type := mkOpenOptions { app : option App }.

(** How writing the configuration file fails.  [writeFileSync] opens the
    file with flag [w], which empties it, then writes the text and closes
    the file.  When the file cannot be opened (no permission, a directory
    in its place) it stays as it was; a failure after that (a full disk,
    an I/O error) leaves in the file what had reached it by then. *)
Inductive WriteFailure : Type :=
| CannotOpen (reason : string)
| FailsAfterOpen (reason : string) (remains : Content).

Definition failureReason (f : WriteFailure) : string :=
  match f with
  | CannotOpen reason | FailsAfterOpen reason _ => reason
  end.

Record World : Type := mkWorld {
  configFile : FileState;
  (** How writing the configuration file fails, if it fails. *)
  writeFailure : option WriteFailure;
  console : list Line;
  (** The calls made to [open], oldest first. *)
  opened : list (Value * OpenOptions);
  (** What the promise of [open] rejects with, if it rejects. *)
  openFailure : option string
}.

Inductive Outcome (A : Type) : Type :=
| Returns (a : A)
| Throws (e : Thrown)
| Exits (status : Z).
Arguments Returns {A} a.
Arguments Throws {A} e.
Arguments Exits {A} status.

Definition M (A : Type) : Type := World -> Outcome A * World.

Definition ret {A : Type} (a : A) : M A := fun w => (Returns a, w).

Definition bind {A B : Type} (m : M A) (k : A -> M B) : M B :=
  fun w =>
    match m w with
    | (Returns a, w') => k a w'
    | (Throws e, w') => (Throws e, w')
    | (Exits n, w') => (Exits n, w')
    end.

Definition throw {A : Type} (e : Thrown) : M A := fun w => (Throws e, w).

(** [process.exit(status)]: the process ends there; no [catch] runs. *)
Definition process_exit {A : Type} (status : Z) : M A := fun w => (Exits status, w).

(** [try { body } catch (error) { handler }]. *)
Definition tryCatch {A : Type} (body : M A) (handler : Thrown -> M A) : M A :=
  fun w =>
    match body w with
    | (Throws e, w') => handler e w'
    | r => r
    end.

Definition lift {A : Type} (r : Result A) : M A :=
  match r with
  | Ok a => ret a
  | Raise e => throw e
  end.

Declare Scope js_scope.
Delimit Scope js_scope with js.
Notation "x <- m ;; k" := (bind m (fun x => k))
  (at level 61, m at next level, right associativity) : js_scope.
Notation "m ;; k" := (bind m (fun _ => k))
  (at level 61, right associativity) : js_scope.
Local Open Scope js_scope.

Definition emit (l : Line) : M unit :=
  fun w => (Returns tt,
            mkWorld (configFile w) (writeFailure w) (console w ++ [l]) (opened w) (openFailure w)).

Definition console_log (text : string) : M unit := emit (Out text).
Definition console_error (text : string) : M unit := emit (Err text).

Definition existsSync : M bool :=
  fun w => (Returns match configFile w with Absent => false | _ => true end, w).

Definition msg_enoent : string := "ENOENT: no such file or directory".

Definition readFileSync : M Content :=
  fun w =>
    match configFile w with
    | Holds c => (Returns c, w)
    | Unreadable reason => (Throws (mkThrown SystemError reason), w)
    | Absent => (Throws (mkThrown SystemError msg_enoent), w)
    end.

Definition writeFileSync (c : Content) : M unit :=
  fun w =>
    match writeFailure w with
    | Some (CannotOpen reason) => (Throws (mkThrown SystemError reason), w)
    | Some (FailsAfterOpen reason remains) =>
        (Throws (mkThrown SystemError reason),
         mkWorld (Holds remains) (writeFailure w) (console w) (opened w) (openFailure w))
    | None => (Returns tt,
               mkWorld (Holds c) (writeFailure w) (console w) (opened w) (openFailure w))
    end.

Definition msg_json_syntax : string := "Unexpected token in JSON".

Definition JSON_parse (c : Content) : Result Value :=
  match c with
  | Json v => Ok v
  | NotJson => Raise (mkThrown SyntaxError msg_json_syntax)
  end.

(** [open(url, openOptions)], awaited. *)
Definition open (url : Value) (openOptions : OpenOptions) : M unit :=
  fun w =>
    let w' := mkWorld (configFile w) (writeFailure w) (console w)
                      (opened w ++ [(url, openOptions)]) (openFailure w) in
    match openFailure w with
    | Some reason => (Throws (newError reason), w')
    | None => (Returns tt, w')
    end.

(* ================================================================== *)
(** * Configuration store *)

Record Settings : Type := mkSettings { browser : Value }.

Record Config : Type := mkConfig { customShortcuts : Value; settings : Settings }.

Definition defaultConfig : Config := mkConfig (VObj []) (mkSettings (VStr "default")).

Definition warn_format : string := "Warning: Invalid config file format. Using defaults.".
Definition warn_read : string := "Warning: Could not read config file. Using defaults.".

(** [config.settings?.browser]: a property of a JSON value that is not an
    object or has no such own property is [undefined]; none of the names
    the program reads is a member of a built-in prototype. *)
Definition getProp (v : Value) (k : string) : option Value :=
  match v with
  | VObj ps => assoc k ps
  | VArr _ ex => assoc k ex
  | _ => None
  end.

(** [loadConfig()]. *)
Definition loadConfig : M Config :=
  present <- existsSync ;;
  if negb present then ret defaultConfig
  else
    tryCatch
      (fileContent <- readFileSync ;;
       config <- lift (JSON_parse fileContent) ;;
       if negb (Js.isObject config)
       then console_error warn_format ;; ret defaultConfig
       else
         ret (mkConfig
                (Js.orElse (getProp config "customShortcuts") (VObj []))
                (mkSettings
                   (Js.orElse
                      (match getProp config "settings" with
                       | Some s => getProp s "browser"
                       | None => None
                       end)
                      (VStr "default")))))
      (fun error => console_error warn_read ;; ret defaultConfig).

(** The object [JSON.stringify] is given. *)
Definition configValue (config : Config) : Value :=
  VObj [ ("customShortcuts", customShortcuts config);
         ("settings", VObj [ ("browser", browser (settings config)) ]) ].

(** [JSON.stringify(config, null, 2)], by what the text parses to. *)
Definition JSON_stringify (config : Config) : Content :=
  Json (Js.reparse (configValue config)).

(** [saveConfig(config)]. *)
Definition saveConfig (config : Config) : M unit :=
  tryCatch
    (let jsonContent := JSON_stringify config in
     writeFileSync jsonContent)
    (fun error => throw (newError ("Could not save config: " ++ message error))).

(* ================================================================== *)
(** * Shortcut table *)

Definition builtInProps : list (string * Value) :=
  map (fun kv => (fst kv, VStr (snd kv))) BUILT_IN_SHORTCUTS.

(** Object spread of [source] onto the properties [target]. *)
Definition spread (target : list (string * Value)) (source : Value) : list (string * Value) :=
  fold_left (fun acc kv => Js.defineProp acc (fst kv) (snd kv)) (Js.ownEntries source) target.

(** [getAllShortcuts()]: [{...BUILT_IN_SHORTCUTS, ...config.customShortcuts}]. *)
Definition getAllShortcuts : M (list (string * Value)) :=
  config <- loadConfig ;;
  ret (spread (spread [] (VObj builtInProps)) (customShortcuts config)).

(* ================================================================== *)
(** * Launch *)

(** The members of [Object.prototype], which every object literal
    inherits; each is a function or, for [__proto__], an object. *)
Definition objectPrototypeMembers : list string :=
  [ "constructor"; "__defineGetter__"; "__defineSetter__"; "hasOwnProperty";
    "__lookupGetter__"; "__lookupSetter__"; "isPrototypeOf"; "propertyIsEnumerable";
    "toString"; "valueOf"; "__proto__"; "toLocaleString" ].

(** [BROWSERS[key]]: an own property first, then the prototype; [None]
    is [undefined]. *)
Definition BROWSERS_at (key : string) : option AppName :=
  match assoc key BROWSERS with
  | Some (Some appId) => Some (NameString appId)
  | Some None => None
  | None =>
      if Str.includes objectPrototypeMembers key then Some (NameInherited key) else None
  end.

(** [BROWSERS[browserName]], the setting converted to a property key. *)
Definition BROWSERS_get (browserName : Value) : Result (option AppName) :=
  match Js.toString browserName with
  | Ok key => Ok (BROWSERS_at key)
  | Raise e => Raise e
  end.

Definition incognitoArgs : list (string * list string) :=
  [ ("chrome", ["--incognito"]);
    ("firefox", ["--private-window"]);
    ("safari", []);
    ("msedge", ["--inprivate"]);
    ("brave", ["--incognito"]);
    ("opera", ["--private"]) ].

(** [incognitoArgs[browserApp]]: a string of [BROWSERS] is an own key of
    the table; a member of [Object.prototype] converts to a key the table
    does not have. *)
Definition incognitoArgs_get (browserApp : AppName) : option (list string) :=
  match browserApp with
  | NameString s => assoc s incognitoArgs
  | NameInherited _ => None
  end.

Definition isSafari (browserApp : AppName) : bool :=
  match browserApp with
  | NameString s => String.eqb s "safari"
  | NameInherited _ => false
  end.

Definition note_safari : string :=
  "Note: Safari does not support opening in private mode from command line.".
Definition note_default : string :=
  "Note: Incognito mode may not work with the system default browser. Set a specific browser using: openapp config browser <browser>".

(** The options [openUrl] builds and the note it prints, before it calls
    [open]. *)
Definition buildOpenOptions (browserName : Value) (incognito : bool) : M OpenOptions :=
  found <- lift (BROWSERS_get browserName) ;;
  match found with
  | Some browserApp =>
      if incognito then
        match incognitoArgs_get browserApp with
        | Some (a :: r) => ret (mkOpenOptions (Some (mkApp browserApp (Some (a :: r)))))
        | _ =>
            (if isSafari browserApp then console_log note_safari else ret tt) ;;
            ret (mkOpenOptions (Some (mkApp browserApp None)))
        end
      else ret (mkOpenOptions (Some (mkApp browserApp None)))
  | None =>
      (if incognito then console_log note_default else ret tt) ;;
      ret (mkOpenOptions None)
  end.

(** [openUrl(url, { incognito })]. *)
Definition openUrl (url : Value) (incognito : bool) : M unit :=
  config <- loadConfig ;;
  let browserName := browser (settings config) in
  openOptions <- buildOpenOptions browserName incognito ;;
  tryCatch
    (open url openOptions)
    (fun error => throw (newError ("Could not open URL: " ++ message error))).

(* ================================================================== *)
(** * Table output *)

(** A row of [list]: name, URL and type. *)
Definition Row : Type := (string * Value * string)%type.

Definition rowName (r : Row) : string := fst (fst r).
Definition rowUrl (r : Row) : Value := snd (fst r).
Definition rowType (r : Row) : string := snd r.

Definition newline : string := String (ascii_of_nat 10) EmptyString.

Definition tableRule (nameWidth typeWidth : nat) : string :=
  Str.repeat "-" (nameWidth + typeWidth + 60).

(** [name.padEnd(nameWidth) + type.padEnd(typeWidth) + url]. *)
Definition tableLine (nameWidth typeWidth : nat) (r : Row) : Result string :=
  match Js.toString (rowUrl r) with
  | Ok url => Ok (Str.padEnd (rowName r) nameWidth ++ Str.padEnd (rowType r) typeWidth ++ url)
  | Raise e => Raise e
  end.

Fixpoint printRows (nameWidth typeWidth : nat) (rows : list Row) : M unit :=
  match rows with
  | [] => ret tt
  | r :: rest =>
      line <- lift (tableLine nameWidth typeWidth r) ;;
      console_log line ;;
      printRows nameWidth typeWidth rest
  end.

(** [printTable(rows)]. *)
Definition printTable (rows : list Row) : M unit :=
  match rows with
  | [] => console_log "No shortcuts found."
  | _ :: _ =>
      let nameWidth :=
        fold_left Nat.max (map (fun r => String.length (rowName r)) rows) 10 + 2 in
      let typeWidth := 10 in
      console_log (newline ++ tableRule nameWidth typeWidth) ;;
      console_log (Str.padEnd "Name" nameWidth ++ Str.padEnd "Type" typeWidth ++ "URL") ;;
      console_log (tableRule nameWidth typeWidth) ;;
      printRows nameWidth typeWidth rows ;;
      console_log (tableRule nameWidth typeWidth ++ newline)
  end.

(* ================================================================== *)
(** * Commands *)

Section Commands.

Variable host : Host.

(** The [catch] every command ends with. *)
Definition reportAndExit {A : Type} (error : Thrown) : M A :=
  console_error ("Error: " ++ message error) ;; process_exit 1.

(** [program.help()]: commander prints its usage text, which is left out
    here, and ends the process. *)
Definition program_help {A : Type} : M A := process_exit 0.

(** [openapp <shortcut> [-i]]. *)
Definition openCommand (shortcut : string) (incognito : bool) : M unit :=
  if String.eqb shortcut EmptyString then program_help
  else
    tryCatch
      (normalizedName <- lift (validateShortcutName shortcut) ;;
       shortcuts <- getAllShortcuts ;;
       match assoc normalizedName shortcuts with
       | None =>
           console_error ("Error: Shortcut " ++ Str.dq ++ shortcut ++ Str.dq ++ " not found.") ;;
           console_log ("Use " ++ Str.dq ++ "openapp list" ++ Str.dq ++ " to see available shortcuts.") ;;
           console_log ("Use " ++ Str.dq ++ "openapp add <name> <url>" ++ Str.dq ++ " to add a new shortcut.") ;;
           process_exit 1
       | Some url =>
           console_log ("Opening " ++ normalizedName ++ "...") ;;
           openUrl url incognito
       end)
      reportAndExit.

(** [openapp add <name> <url>]. *)
Definition addCommand (name url : string) : M unit :=
  tryCatch
    (validatedName <- lift (validateShortcutName name) ;;
     validatedUrl <- lift (validateUrl host url) ;;
     (if hasOwn BUILT_IN_SHORTCUTS validatedName
      then
        console_error ("Error: " ++ Str.dq ++ validatedName ++ Str.dq
                       ++ " is a built-in shortcut and cannot be overwritten.") ;;
        console_log "Please choose a different name for your custom shortcut." ;;
        process_exit 1
      else ret tt) ;;
     config <- loadConfig ;;
     shortcuts <- lift (Js.setProperty host (customShortcuts config) validatedName validatedUrl) ;;
     saveConfig (mkConfig shortcuts (settings config)) ;;
     console_log ("Successfully added shortcut " ++ Str.dq ++ validatedName ++ Str.dq
                  ++ " -> " ++ validatedUrl))
    reportAndExit.

(** [openapp remove <name>]. *)
Definition removeCommand (name : string) : M unit :=
  tryCatch
    (validatedName <- lift (validateShortcutName name) ;;
     (if hasOwn BUILT_IN_SHORTCUTS validatedName
      then
        console_error ("Error: " ++ Str.dq ++ validatedName ++ Str.dq
                       ++ " is a built-in shortcut and cannot be removed.") ;;
        process_exit 1
      else ret tt) ;;
     config <- loadConfig ;;
     own <- lift (Js.hasOwnProperty (customShortcuts config) validatedName) ;;
     (if negb own
      then
        console_error ("Error: Custom shortcut " ++ Str.dq ++ validatedName ++ Str.dq
                       ++ " not found.") ;;
        process_exit 1
      else ret tt) ;;
     shortcuts <- lift (Js.deleteProperty (customShortcuts config) validatedName) ;;
     saveConfig (mkConfig shortcuts (settings config)) ;;
     console_log ("Successfully removed shortcut " ++ Str.dq ++ validatedName ++ Str.dq))
    reportAndExit.

(** Where [Array.prototype.sort] puts a row among rows already in order:
    before the first row that does not come before it. *)
Fixpoint insertRow (r : Row) (sorted : list Row) : list Row :=
  match sorted with
  | [] => [r]
  | x :: rest =>
      if (0 <? localeCompare host (rowName r) (rowName x))%Z
      then x :: insertRow r rest
      else r :: sorted
  end.

(** [rows.sort((a, b) => a[0].localeCompare(b[0]))]: the stable sort. *)
Fixpoint sortRows (rows : list Row) : list Row :=
  match rows with
  | [] => []
  | r :: rest => insertRow r (sortRows rest)
  end.

Definition builtInRows : list Row :=
  map (fun kv => (fst kv, VStr (snd kv), "built-in")) BUILT_IN_SHORTCUTS.

Definition customRows (entries : list (string * Value)) : list Row :=
  map (fun kv => (fst kv, snd kv, "custom")) entries.

(** The rows [list] collects, before sorting. *)
Definition collectRows (config : Config) (builtin custom : bool) : M (list Row) :=
  let rows := if negb custom then builtInRows else [] in
  if negb builtin
  then
    entries <- lift (Js.Object_entries (customShortcuts config)) ;;
    ret (rows ++ customRows entries)%list
  else ret rows.

(** [openapp list [-b] [-c]]. *)
Definition listCommand (builtin custom : bool) : M unit :=
  tryCatch
    (config <- loadConfig ;;
     rows <- collectRows config builtin custom ;;
     let rows := sortRows rows in
     console_log (newline ++ "Total shortcuts: " ++ Str.ofNat (List.length rows)) ;;
     printTable rows)
    reportAndExit.

Definition searchEngines : list (string * string) :=
  [ ("google", "https://www.google.com/search?q=");
    ("bing", "https://www.bing.com/search?q=");
    ("duckduckgo", "https://duckduckgo.com/?q=") ].

(** Characters [encodeURIComponent] leaves as they are. *)
Definition uriUnreserved (c : ascii) : bool :=
  let n := Str.code c in
  Str.between 65 90 n || Str.between 97 122 n || Str.between 48 57 n
  || Str.includes ["-"; "_"; "."; "!"; "~"; "*"; "'"; "("; ")"] (String c EmptyString).

Definition hexDigit (n : N) : ascii :=
  if (n <? 10)%N then ascii_of_N (48 + n) else ascii_of_N (55 + n).

Definition percent (byte : N) : string :=
  String "%" (String (hexDigit (byte / 16)) (String (hexDigit (byte mod 16)) EmptyString)).

(** [encodeURIComponent], on the strings of this development, whose
    code units are U+0000 to U+00FF: the UTF-8 bytes of every other
    character, percent-escaped, which is one byte below U+0080 and two
    from there on.  (Code units above U+00FF, which take three bytes or
    pair up as surrogates, are outside these strings.) *)
Fixpoint encodeURIComponent (s : string) : string :=
  match s with
  | EmptyString => EmptyString
  | String c r =>
      let n := Str.code c in
      (if uriUnreserved c then String c EmptyString
       else if (n <? 128)%N then percent n
       else percent (192 + n / 64) ++ percent (128 + n mod 64))
      ++ encodeURIComponent r
  end.

Definition msg_query_empty : string := "Error: Search query cannot be empty.".
Definition msg_query_long : string := "Error: Search query is too long (max 500 characters).".

(** The URL [search] opens, from the engine's prefix and the query. *)
Definition searchUrl (prefix query : string) : string :=
  let encodedQuery := encodeURIComponent query in
  prefix ++ encodedQuery.

(** [openapp search <query...> [-i] [-e <engine>]]. *)
Definition searchCommand (queryParts : list string) (incognito : bool) (engineOption : string)
  : M unit :=
  tryCatch
    (let query := Str.trim (Str.join " " queryParts) in
     (if String.eqb query EmptyString
      then console_error msg_query_empty ;; process_exit 1
      else ret tt) ;;
     (if (500 <? String.length query)%nat
      then console_error msg_query_long ;; process_exit 1
      else ret tt) ;;
     let engine := Str.toLowerCase engineOption in
     match assoc engine searchEngines with
     | None =>
         console_error ("Error: Unknown search engine " ++ Str.dq ++ engineOption ++ Str.dq
                        ++ ". Supported: google, bing, duckduckgo") ;;
         process_exit 1
     | Some prefix =>
         let url := searchUrl prefix query in
         console_log ("Searching for " ++ Str.dq ++ query ++ Str.dq ++ " on " ++ engine ++ "...") ;;
         openUrl (VStr url) incognito
     end)
    reportAndExit.

(** [openapp config browser <browser>]. *)
Definition configBrowserCommand (browserArg : string) : M unit :=
  tryCatch
    (validatedBrowser <- lift (validateBrowser browserArg) ;;
     config <- loadConfig ;;
     saveConfig (mkConfig (customShortcuts config) (mkSettings (VStr validatedBrowser))) ;;
     if String.eqb validatedBrowser "default"
     then console_log "Default browser set to: system default"
     else console_log ("Default browser set to: " ++ validatedBrowser))
    reportAndExit.

(** [openapp config reset]. *)
Definition configResetCommand : M unit :=
  tryCatch
    (saveConfig defaultConfig ;;
     console_log "Configuration reset to defaults.")
    reportAndExit.

End Commands.

(** [openapp config show]; [CONFIG_FILE] is the path of the configuration
    file, which the program joins from the home directory. *)
Definition configShowCommand (CONFIG_FILE : string) : M unit :=
  tryCatch
    (config <- loadConfig ;;
     console_log (newline ++ "Current Configuration:") ;;
     console_log (Str.repeat "-" 40) ;;
     browserText <- lift (Js.toString (browser (settings config))) ;;
     console_log ("Browser: " ++ browserText) ;;
     console_log ("Config file: " ++ CONFIG_FILE) ;;
     keys <- lift (Js.Object_entries (customShortcuts config)) ;;
     console_log ("Custom shortcuts: " ++ Str.ofNat (List.length keys)) ;;
     console_log (Str.repeat "-" 40 ++ newline))
    reportAndExit.

(* ================================================================== *)
(** * A host instance *)

(** What Node's [URL] makes of the URLs used as examples below; every
    other string is rejected. *)
Definition sampleURLs : list (string * URL) :=
  [ ("ftp://x.com", mkURL "ftp:" "ftp://x.com/");
    ("https://Example.com/Path", mkURL "https:" "https://example.com/Path");
    ("https://example.com", mkURL "https:" "https://example.com/");
    ("https://evil.example", mkURL "https:" "https://evil.example/") ].

(** Comparison by code units. *)
Definition codeUnitCompare (a b : string) : Z :=
  match String.compare a b with
  | Lt => (-1)%Z
  | Eq => 0%Z
  | Gt => 1%Z
  end.

(** A host that knows the example URLs, orders strings by code units and
    finds no array length in a string. *)
Definition sampleHost : Host :=
  mkHost (fun s => assoc s sampleURLs) codeUnitCompare (fun _ => None).

(** A world with no configuration file, an empty console and a working
    file system and launcher. *)
Definition freshWorld : World := mkWorld Absent None [] [] None.

(* ================================================================== *)
(** * Notions of the specification *)

(** A character of the class [[a-z0-9_-]]. *)
Definition NameChar (c : ascii) : Prop :=
  (97 <= Str.code c <= 122)%N \/ (48 <= Str.code c <= 57)%N
  \/ c = "_"%char \/ c = "-"%char.

(** A string that matches [[a-z0-9_-]{1,50}]. *)
Definition MatchesNamePattern (t : string) : Prop :=
  1 <= String.length t <= 50 /\ Forall NameChar (list_ascii_of_string t).

(** [s] contains the marker [pat] in any case: a substring of [s] that
    lower-cases to [pat]. *)
Definition ContainsAnyCase (pat s : string) : Prop :=
  exists pre m post, s = pre ++ m ++ post /\ Str.toLowerCase m = pat.

(** The comparator answers consistently: when [a] comes after [b], [b]
    does not come after [a]. *)
Definition ConsistentCompare (cmp : string -> string -> Z) : Prop :=
  forall a b, (0 < cmp a b)%Z -> (cmp b a <= 0)%Z.

(** A JSON object, as against an array, a string, a number, a boolean
    and [null]. *)
Definition JsonObject (doc : Value) : Prop := exists props, doc = VObj props.

(** The console after one more line. *)
Definition printed (w : World) (lines : list Line) : World :=
  mkWorld (configFile w) (writeFailure w) (console w ++ lines) (opened w) (openFailure w).

(** The world after one more call to [open]. *)
Definition launched (w : World) (url : Value) (options : OpenOptions) : World :=
  mkWorld (configFile w) (writeFailure w) (console w) (opened w ++ [(url, options)])
          (openFailure w).

(* ================================================================== *)
(** * Derived descriptions used in the statements *)

(** The configuration [loadConfig] makes of a parsed document that is an
    object. *)
Definition configOfObject (doc : Value) : Config :=
  mkConfig
    (Js.orElse (getProp doc "customShortcuts") (VObj []))
    (mkSettings
       (Js.orElse
          (match getProp doc "settings" with
           | Some s => getProp s "browser"
           | None => None
           end)
          (VStr "default"))).

(** What [loadConfig] returns for each state of the file. *)
Definition readConfig (f : FileState) : Config :=
  match f with
  | Holds (Json doc) => if Js.isObject doc then configOfObject doc else defaultConfig
  | _ => defaultConfig
  end.

(** The world [loadConfig] leaves: at most one warning more. *)
Definition warned (w : World) : World :=
  match configFile w with
  | Absent => w
  | Unreadable _ | Holds NotJson => printed w [Err warn_read]
  | Holds (Json doc) => if Js.isObject doc then w else printed w [Err warn_format]
  end.

(** What [add] and [remove] print for a built-in name. *)
Definition msg_builtin_overwrite (n : string) : string :=
  "Error: " ++ Str.dq ++ n ++ Str.dq ++ " is a built-in shortcut and cannot be overwritten.".

Definition msg_builtin_choose : string :=
  "Please choose a different name for your custom shortcut.".

Definition msg_builtin_remove (n : string) : string :=
  "Error: " ++ Str.dq ++ n ++ Str.dq ++ " is a built-in shortcut and cannot be removed.".

(** How [openUrl] ends once the options are built: the call is made, and
    a rejection is thrown again under the program's own message. *)
Definition openResult (w : World) (url : Value) (options : OpenOptions)
  : Outcome unit * World :=
  match openFailure w with
  | Some reason => (Throws (newError ("Could not open URL: " ++ reason)), launched w url options)
  | None => (Returns tt, launched w url options)
  end.

(** The table of the specification: browser setting, app identifier,
    private-mode flag. *)
Definition privateFlags : list (string * string * string) :=
  [ ("chrome", "chrome", "--incognito");
    ("firefox", "firefox", "--private-window");
    ("edge", "msedge", "--inprivate");
    ("brave", "brave", "--incognito");
    ("opera", "opera", "--private") ].

(** A document that sets the browser to [b]. *)
(** A world whose configuration file holds the document [doc], with
    nothing printed yet. *)
Definition worldHolding (doc : Value) : World :=
  mkWorld (Holds (Json doc)) None [] [] None.

Definition worldWithBrowser (b : string) : World :=
  mkWorld (Holds (Json (VObj [("settings", VObj [("browser", VStr b)])]))) None [] [] None.

(** Row [a] does not come after row [b] in the order of
    [localeCompare]. *)
Definition RowLe (host : Host) (a b : Row) : Prop :=
  (localeCompare host (rowName a) (rowName b) <= 0)%Z.

Definition nameWidthOf (rows : list Row) : nat :=
  fold_left Nat.max (map (fun r => String.length (rowName r)) rows) 10 + 2.

(** The text of a value that converts to a string. *)
Definition urlText (v : Value) : string :=
  match Js.toString v with
  | Ok text => text
  | Raise _ => EmptyString
  end.

(** The value converts to a string: [ToString] does not throw. *)
Definition Printable (v : Value) : Prop := exists text, Js.toString v = Ok text.

Definition tableText (nameWidth typeWidth : nat) (r : Row) : string :=
  Str.padEnd (rowName r) nameWidth ++ Str.padEnd (rowType r) typeWidth
  ++ urlText (rowUrl r).

(** The lines [printTable] prints for rows that are not empty and whose
    URLs convert to strings: a rule, the header, a rule, one line for each
    row, a rule. *)
Definition tableLines (rows : list Row) : list Line :=
  [ Out (newline ++ tableRule (nameWidthOf rows) 10);
    Out (Str.padEnd "Name" (nameWidthOf rows) ++ Str.padEnd "Type" 10 ++ "URL");
    Out (tableRule (nameWidthOf rows) 10) ]
  ++ map (fun r => Out (tableText (nameWidthOf rows) 10 r)) rows
  ++ [ Out (tableRule (nameWidthOf rows) 10 ++ newline) ].

Definition totalLine (rows : list Row) : Line :=
  Out (newline ++ "Total shortcuts: " ++ Str.ofNat (List.length rows)).

(** The rows [list] sorts when no filter is given. *)
Definition allRows (host : Host) (customs : Value) : list Row :=
  sortRows host (builtInRows ++ customRows (Js.ownEntries customs)).

(** A document with one custom shortcut, [blog]. *)
Definition blogWorld : World :=
  mkWorld (Holds (Json (VObj [("customShortcuts",
                               VObj [("blog", VStr "https://example.com/")])])))
          None [] [] None.

(** The strings of a list are pairwise different. *)
Fixpoint distinctb (l : list string) : bool :=
  match l with
  | [] => true
  | x :: r => negb (Str.includes r x) && distinctb r
  end.

(** What [JSON.parse] makes of a serialized object: the same keys, each
    value serialized and parsed. *)
Definition reparseProps (ps : list (string * Value)) : list (string * Value) :=
  map (fun kv => (fst kv, Js.reparse (snd kv))) ps.

(** The world after [saveConfig(config)] succeeded. *)
Definition saved (w : World) (config : Config) : World :=
  mkWorld (Holds (JSON_stringify config)) (writeFailure w) (console w) (opened w)
          (openFailure w).

Definition msg_added (n u : string) : string :=
  "Successfully added shortcut " ++ Str.dq ++ n ++ Str.dq ++ " -> " ++ u.

(** What the open command prints for a shortcut it does not find. *)
Definition notFoundLines (shortcut : string) : list Line :=
  [ Err ("Error: Shortcut " ++ Str.dq ++ shortcut ++ Str.dq ++ " not found.");
    Out ("Use " ++ Str.dq ++ "openapp list" ++ Str.dq ++ " to see available shortcuts.");
    Out ("Use " ++ Str.dq ++ "openapp add <name> <url>" ++ Str.dq ++ " to add a new shortcut.") ].

(** The table [getAllShortcuts] builds from the custom shortcuts [v]. *)
Definition shortcutTable (v : Value) : list (string * Value) :=
  spread (spread [] (VObj builtInProps)) v.

(* ================================================================== *)
(** * Descriptions used in the further properties *)

(** The names [validateBrowser] accepts. *)
Definition supportedBrowsers : list string :=
  [ "chrome"; "firefox"; "safari"; "edge"; "brave"; "opera"; "default" ].

(** Every value of the property list is a string, as in the documents the
    program writes. *)
Definition StringValued (ps : list (string * Value)) : Prop :=
  Forall (fun kv => exists text, snd kv = VStr text) ps.

(** The command leaves the configuration file, and whether it can be
    written, as they were. *)
Definition KeepsFile {A : Type} (m : M A) : Prop :=
  forall w, configFile (snd (m w)) = configFile w
            /\ writeFailure (snd (m w)) = writeFailure w.

(** A character [encodeURIComponent] can produce: one it leaves as it is,
    the percent sign, or an upper-case hexadecimal digit. *)
Definition uriSafe (c : ascii) : bool :=
  uriUnreserved c || (Str.code c =? 37)%N || Str.between 48 57 (Str.code c)
  || Str.between 65 70 (Str.code c).

Fixpoint allChars (p : ascii -> bool) (s : string) : bool :=
  match s with
  | EmptyString => true
  | String c r => p c && allChars p r
  end.

(** What [remove] prints when it removed a shortcut, and when the custom
    shortcuts have none of that name. *)
Definition msg_removed (n : string) : string :=
  "Successfully removed shortcut " ++ Str.dq ++ n ++ Str.dq.

Definition msg_custom_not_found (n : string) : string :=
  "Error: Custom shortcut " ++ Str.dq ++ n ++ Str.dq ++ " not found.".

(** What a command prints when saving fails. *)
Definition msg_save_failed (reason : string) : string :=
  "Error: Could not save config: " ++ reason.

(** The world after an attempt to write the file that failed with [f]. *)
Definition unsaved (w : World) (f : WriteFailure) : World :=
  match f with
  | CannotOpen _ => w
  | FailsAfterOpen _ remains =>
      mkWorld (Holds remains) (writeFailure w) (console w) (opened w) (openFailure w)
  end.

(** A world where the disk fills up while the file, which holds the
    shortcut [blog], is written. *)
Definition fullDiskWorld : World :=
  mkWorld (Holds (Json (VObj [("customShortcuts",
                               VObj [("blog", VStr "https://example.com/")])])))
          (Some (FailsAfterOpen "ENOSPC: no space left on device" NotJson))
          [] [] None.

(** A write that failed after the file was opened has left its remains
    in the file of [w']. *)
Definition Damaged (w w' : World) : Prop :=
  exists reason remains,
    writeFailure w = Some (FailsAfterOpen reason remains) /\ configFile w' = Holds remains.

(** How a command that awaits [openUrl] ends after the call of [open] with
    [options], made in the world [w]: normally, or by the error line and
    exit status 1 when [open] rejects. *)
Definition openedOrReported (w : World) (url : Value) (options : OpenOptions)
  : Outcome unit * World :=
  match openFailure w with
  | None => (Returns tt, launched w url options)
  | Some reason =>
      (Exits 1, printed (launched w url options)
                        [Err ("Error: Could not open URL: " ++ reason)])
  end.

(** The app the options name, if any. *)
Definition appOf (options : OpenOptions) : option AppName :=
  match app options with
  | Some a => Some (app_name a)
  | None => None
  end.

(** What [encodeURIComponent] makes of one character. *)
Definition encodedChar (c : ascii) : string :=
  if uriUnreserved c then String c EmptyString
  else if (Str.code c <? 128)%N then percent (Str.code c)
  else percent (192 + Str.code c / 64) ++ percent (128 + Str.code c mod 64).

(** What [search] prints before it opens the URL, and for an engine it
    does not know. *)
Definition msg_searching (query engine : string) : string :=
  "Searching for " ++ Str.dq ++ query ++ Str.dq ++ " on " ++ engine ++ "...".

Definition msg_unknown_engine (engineOption : string) : string :=
  "Error: Unknown search engine " ++ Str.dq ++ engineOption ++ Str.dq
  ++ ". Supported: google, bing, duckduckgo".

(** A world whose configuration document holds the custom shortcuts [ps]
    and the browser setting [b]. *)
Definition worldWith (ps : list (string * Value)) (b : string) : World :=
  mkWorld (Holds (Json (VObj [("customShortcuts", VObj ps);
                              ("settings", VObj [("browser", VStr b)])])))
          None [] [] None.

(* ================================================================== *)
(** * Strings: lemmas *)

Unset Implicit Arguments.

Module StrFacts.
Import Str.

Lemma append_assoc (a b c : string) : (a ++ b) ++ c = a ++ (b ++ c).
Proof.
  induction a as [| x a IH]; simpl; [reflexivity | now rewrite IH].
Qed.

Lemma append_nil_r (a : string) : a ++ EmptyString = a.
Proof.
  induction a as [| x a IH]; simpl; [reflexivity | now rewrite IH].
Qed.

Lemma canonicalize_lowerChar (c : ascii) : canonicalize (lowerChar c) = canonicalize c.
Proof.
  destruct c as [[] [] [] [] [] [] [] []]; reflexivity.
Qed.

Lemma isWhiteSpace_lowerChar (c : ascii) : isWhiteSpace (lowerChar c) = isWhiteSpace c.
Proof.
  destruct c as [[] [] [] [] [] [] [] []]; reflexivity.
Qed.

Lemma noWhiteSpace_toLowerCase (m : string) :
  noWhiteSpace (toLowerCase m) = noWhiteSpace m.
Proof.
  induction m as [| c m IH]; simpl; [reflexivity |].
  now rewrite isWhiteSpace_lowerChar, IH.
Qed.

Lemma noWhiteSpace_app (a b : string) :
  noWhiteSpace (a ++ b) = noWhiteSpace a && noWhiteSpace b.
Proof.
  induction a as [| c a IH]; simpl; [reflexivity |].
  now rewrite IH, andb_assoc.
Qed.

Lemma matchHere_i_toLowerCase (m post : string) :
  matchHere_i (toLowerCase m) (m ++ post) = true.
Proof.
  induction m as [| c m IH]; simpl; [reflexivity |].
  now rewrite canonicalize_lowerChar, N.eqb_refl, IH.
Qed.

Lemma test_i_here (p s : string) : matchHere_i p s = true -> test_i p s = true.
Proof.
  intros H. destruct s; simpl in *; rewrite H; reflexivity.
Qed.

Lemma test_i_app (pre p rest : string) :
  matchHere_i p rest = true -> test_i p (pre ++ rest) = true.
Proof.
  intros H. induction pre as [| c pre IH]; simpl.
  - now apply test_i_here.
  - rewrite IH. apply orb_true_r.
Qed.

Lemma trimStart_app (pre : string) (c : ascii) (rest : string) :
  isWhiteSpace c = false ->
  exists pre', trimStart (pre ++ String c rest) = pre' ++ String c rest.
Proof.
  intros Hc. induction pre as [| x pre IH]; simpl.
  - rewrite Hc. now exists EmptyString.
  - destruct (isWhiteSpace x).
    + exact IH.
    + now exists (String x pre).
Qed.

Lemma trimEnd_app (a : string) (b : ascii) (post : string) :
  isWhiteSpace b = false ->
  trimEnd (a ++ String b post) = a ++ String b (trimEnd post).
Proof.
  intros Hb. induction a as [| x a IH]; simpl.
  - destruct (trimEnd post); [now rewrite Hb | reflexivity].
  - rewrite IH. destruct a; reflexivity.
Qed.

Lemma last_split (s : string) :
  s <> EmptyString -> exists a b, s = a ++ String b EmptyString.
Proof.
  induction s as [| c s IH]; intros Hs; [congruence |].
  destruct s as [| d s].
  - now exists EmptyString, c.
  - destruct IH as (a & b & E); [discriminate |].
    exists (String c a), b. simpl. now rewrite <- E.
Qed.

(** Trimming keeps a substring that has no white space in it. *)
Lemma trim_keeps (pre m post : string) :
  m <> EmptyString -> noWhiteSpace m = true ->
  exists pre' post', trim (pre ++ m ++ post) = pre' ++ m ++ post'.
Proof.
  intros Hm Hws.
  destruct (last_split _ Hm) as (a & b & E).
  assert (Hb : isWhiteSpace b = false).
  { rewrite E, noWhiteSpace_app in Hws. simpl in Hws.
    apply andb_true_iff in Hws as [_ Hws].
    destruct (isWhiteSpace b); [discriminate | reflexivity]. }
  destruct m as [| c m']; [congruence |].
  assert (Hc : isWhiteSpace c = false).
  { simpl in Hws. destruct (isWhiteSpace c); [discriminate | reflexivity]. }
  unfold trim. simpl.
  destruct (trimStart_app pre c (m' ++ post) Hc) as (pre' & E').
  rewrite E'. exists pre', (trimEnd post).
  change (String c (m' ++ post)) with (String c m' ++ post).
  change (String c (m' ++ trimEnd post)) with (String c m' ++ trimEnd post).
  rewrite E, !append_assoc. simpl.
  rewrite <- append_assoc. rewrite trimEnd_app by assumption.
  now rewrite append_assoc.
Qed.

Lemma toLowerCase_nonempty (m : string) :
  toLowerCase m <> EmptyString -> m <> EmptyString.
Proof.
  destruct m; simpl; congruence.
Qed.

(** The case-insensitive test finds a marker the trimmed string still
    contains. *)
Lemma test_i_contains (pat s : string) :
  pat <> EmptyString -> noWhiteSpace pat = true ->
  ContainsAnyCase pat s -> test_i pat (trim s) = true.
Proof.
  intros Hne Hws (pre & m & post & -> & Hm).
  assert (Hm' : m <> EmptyString) by (apply toLowerCase_nonempty; now rewrite Hm).
  assert (Hw : noWhiteSpace m = true) by (now rewrite <- noWhiteSpace_toLowerCase, Hm).
  destruct (trim_keeps pre m post Hm' Hw) as (pre' & post' & ->).
  apply test_i_app. rewrite <- Hm. apply matchHere_i_toLowerCase.
Qed.

Lemma includes_In (l : list string) (s : string) : includes l s = true <-> In s l.
Proof.
  induction l as [| x l IH]; simpl.
  - split; [discriminate | tauto].
  - rewrite orb_true_iff, IH, String.eqb_eq. tauto.
Qed.

Lemma isNameChar_spec (c : ascii) : isNameChar c = true <-> NameChar c.
Proof.
  unfold isNameChar, NameChar, between.
  rewrite !orb_true_iff, !andb_true_iff, !N.leb_le, !N.eqb_eq.
  assert (H95 : code c = 95%N <-> c = "_"%char).
  { split; [| now intros ->].
    intros H. rewrite <- (ascii_N_embedding c). unfold code in H. now rewrite H. }
  assert (H45 : code c = 45%N <-> c = "-"%char).
  { split; [| now intros ->].
    intros H. rewrite <- (ascii_N_embedding c). unfold code in H. now rewrite H. }
  rewrite H95, H45. tauto.
Qed.

Lemma allNameChars_spec (s : string) :
  allNameChars s = true <-> Forall NameChar (list_ascii_of_string s).
Proof.
  induction s as [| c s IH]; simpl.
  - split; [constructor | reflexivity].
  - rewrite andb_true_iff, isNameChar_spec, IH. split.
    + intros [H1 H2]. now constructor.
    + intros H. inversion H; subst. now split.
Qed.

End StrFacts.

(* ================================================================== *)
(** * Validators: properties *)

Lemma trim_empty_lower : Str.toLowerCase (Str.trim EmptyString) = EmptyString.
Proof. reflexivity. Qed.

(** When [validateShortcutName] returns, and what. *)
Lemma validateShortcutName_Ok_iff (s t : string) :
  validateShortcutName s = Ok t <->
  t = Str.toLowerCase (Str.trim s) /\ MatchesNamePattern t /\ ~ In t reservedNames.
Proof.
  unfold validateShortcutName, MatchesNamePattern.
  destruct (String.eqb_spec s EmptyString) as [-> | Hs].
  { split; [discriminate |].
    intros (-> & [[Hlen _] _] & _). rewrite trim_empty_lower in Hlen. simpl in Hlen. lia. }
  set (n := Str.toLowerCase (Str.trim s)).
  destruct (Nat.eqb_spec (String.length n) 0) as [E0 | E0]; cbn [orb].
  { split; [discriminate |]. intros (-> & [[Hlen _] _] & _). lia. }
  destruct (Nat.ltb_spec 50 (String.length n)) as [E50 | E50].
  { split; [discriminate |]. intros (-> & [[_ Hlen] _] & _). lia. }
  assert (Hpat : Str.test_name n = true <-> Forall NameChar (list_ascii_of_string n)).
  { unfold Str.test_name. destruct n as [| c r] eqn:En; [simpl in E0; congruence |].
    apply StrFacts.allNameChars_spec. }
  destruct (Str.test_name n) eqn:Et; cbn [negb].
  - destruct (Str.includes reservedNames n) eqn:Er.
    + split; [discriminate |]. intros (-> & _ & Hnot).
      exfalso. apply Hnot. now apply StrFacts.includes_In.
    + split.
      * intros [= <-]. split; [reflexivity |]. split.
        -- split; [lia | now apply Hpat].
        -- intros Hin. apply StrFacts.includes_In in Hin. congruence.
      * intros (-> & _ & _). reflexivity.
  - split; [discriminate |]. intros (-> & [_ Hall] & _).
    apply Hpat in Hall. discriminate.
Qed.

(** C1, as amended: [validateShortcutName] succeeds exactly on the strings
    whose trimmed, lower-cased form matches [[a-z0-9_-]{1,50}] and is not
    a reserved word, and it returns that form; on every other string it
    fails. *)
Theorem validateShortcutName_normalized (s : string) :
  let t := Str.toLowerCase (Str.trim s) in
  (MatchesNamePattern t /\ ~ In t reservedNames -> validateShortcutName s = Ok t) /\
  (~ (MatchesNamePattern t /\ ~ In t reservedNames) ->
   exists e, validateShortcutName s = Raise e).
Proof.
  intros t. split.
  - intros [Hm Hr]. apply validateShortcutName_Ok_iff. auto.
  - intros Hno. destruct (validateShortcutName s) as [t' | e] eqn:E.
    + apply validateShortcutName_Ok_iff in E as (-> & Hm & Hr).
      exfalso. apply Hno. split; assumption.
    + now exists e.
Qed.

(** C1, as stated, fails: ["GitHub"] does not match [[a-z0-9_-]{1,50}],
    yet [validateShortcutName] accepts it and returns ["github"]. *)
Lemma validateShortcutName_accepts_unmatched :
  validateShortcutName "GitHub" = Ok "github" /\ ~ MatchesNamePattern "GitHub".
Proof.
  split; [reflexivity |].
  intros [_ Hall]. simpl in Hall.
  inversion Hall as [| c l Hc _]; subst.
  unfold NameChar in Hc. vm_compute in Hc.
  destruct Hc as [[H _] | [[_ H] | [H | H]]];
    try discriminate; try (now apply H).
Qed.

Lemma dangerousPatterns_plain (pat : string) :
  In pat dangerousPatterns -> pat <> EmptyString /\ Str.noWhiteSpace pat = true.
Proof.
  unfold dangerousPatterns. simpl.
  intros [<- | [<- | [<- | [<- | [<- | [<- | []]]]]]];
    (split; [discriminate | reflexivity]).
Qed.

(** C2: a string that contains one of the markers [javascript:], [data:],
    [vbscript:], [file:], [about:], [blob:] in any case is rejected with
    the disallowed-protocol error, whatever the URL parser would make of
    it: the parser is not consulted. *)
Theorem validateUrl_rejects_marker (host : Host) (s pat : string) :
  In pat ["javascript:"; "data:"; "vbscript:"; "file:"; "about:"; "blob:"] ->
  ContainsAnyCase pat s ->
  validateUrl host s = Raise (newError msg_url_disallowed).
Proof.
  intros Hin Hc.
  destruct (dangerousPatterns_plain pat Hin) as [Hne Hws].
  assert (Hs : s <> EmptyString).
  { destruct Hc as (pre & m & post & -> & Hm).
    assert (m <> EmptyString) by (apply StrFacts.toLowerCase_nonempty; now rewrite Hm).
    destruct pre; [destruct m; [congruence | discriminate] | discriminate]. }
  unfold validateUrl.
  apply String.eqb_neq in Hs. rewrite Hs.
  assert (Hex : existsb (fun pattern => Str.test_i pattern (Str.trim s)) dangerousPatterns
                = true).
  { apply existsb_exists. exists pat. split; [assumption |].
    now apply StrFacts.test_i_contains. }
  now rewrite Hex.
Qed.

(** The marker check rejects a string a parser takes for an https URL. *)
Lemma validateUrl_rejects_marker_witness :
  validateUrl
    (mkHost (fun _ => Some (mkURL "https:" "https://example.com/"))
            codeUnitCompare (fun _ => None))
    "https://example.com/?next=JavaScript:alert(1)"
  = Raise (newError msg_url_disallowed).
Proof.
  apply (validateUrl_rejects_marker _ _ "javascript:").
  - simpl. auto.
  - exists "https://example.com/?next=", "JavaScript:", "alert(1)".
    split; reflexivity.
Defined.

(** Past the marker check, [validateUrl] is decided by the parser. *)
Lemma validateUrl_parsed (host : Host) (s : string) :
  s <> EmptyString ->
  existsb (fun pattern => Str.test_i pattern (Str.trim s)) dangerousPatterns = false ->
  validateUrl host s =
  match parseURL host (Str.trim s) with
  | None => Raise (newError msg_url_malformed)
  | Some url =>
      if String.eqb (protocol url) "http:" || String.eqb (protocol url) "https:"
      then Ok (href url)
      else Raise (newError msg_url_scheme)
  end.
Proof.
  intros Hs Hex. unfold validateUrl.
  apply String.eqb_neq in Hs. rewrite Hs, Hex.
  destruct (parseURL host (Str.trim s)) as [url |]; [| reflexivity].
  destruct (String.eqb (protocol url) "http:"), (String.eqb (protocol url) "https:");
    reflexivity.
Qed.

(** C3: when the parser rejects the input ([new URL("not a url")] throws)
    [validateUrl] fails with the invalid-format error; when the parsed
    scheme is not http or https ([ftp://x.com], scheme [ftp]) it fails
    with the only-http-and-https error; otherwise it returns [url.href],
    the parser's serialization, not the input.  The last part says the
    same of every input that passes the marker check. *)
Theorem validateUrl_follows_parser (host : Host) (ftp https : URL) :
  parseURL host "not a url" = None ->
  parseURL host "ftp://x.com" = Some ftp ->
  protocol ftp = "ftp:" ->
  parseURL host "https://Example.com/Path" = Some https ->
  protocol https = "https:" ->
  validateUrl host "not a url" = Raise (newError msg_url_malformed) /\
  validateUrl host "ftp://x.com" = Raise (newError msg_url_scheme) /\
  validateUrl host "https://Example.com/Path" = Ok (href https) /\
  (forall s : string,
      s <> EmptyString ->
      (forall pat, In pat dangerousPatterns -> Str.test_i pat (Str.trim s) = false) ->
      match parseURL host (Str.trim s) with
      | None => validateUrl host s = Raise (newError msg_url_malformed)
      | Some url =>
          (protocol url = "http:" \/ protocol url = "https:" ->
           validateUrl host s = Ok (href url)) /\
          (protocol url <> "http:" -> protocol url <> "https:" ->
           validateUrl host s = Raise (newError msg_url_scheme))
      end).
Proof.
  intros H1 H2 P2 H3 P3.
  repeat split.
  - rewrite validateUrl_parsed by (discriminate || reflexivity).
    change (Str.trim "not a url") with "not a url". now rewrite H1.
  - rewrite validateUrl_parsed by (discriminate || reflexivity).
    change (Str.trim "ftp://x.com") with "ftp://x.com". now rewrite H2, P2.
  - rewrite validateUrl_parsed by (discriminate || reflexivity).
    change (Str.trim "https://Example.com/Path") with "https://Example.com/Path".
    now rewrite H3, P3.
  - intros s Hs Hno.
    assert (Hex : existsb (fun pattern => Str.test_i pattern (Str.trim s)) dangerousPatterns
                  = false).
    { destruct (existsb _ dangerousPatterns) eqn:E; [| reflexivity].
      apply existsb_exists in E as (pat & Hin & Ht).
      rewrite (Hno pat Hin) in Ht. discriminate. }
    rewrite (validateUrl_parsed host s Hs Hex).
    destruct (parseURL host (Str.trim s)) as [url |]; [| reflexivity].
    split.
    + intros [-> | ->]; [reflexivity |].
      now rewrite orb_true_r.
    + intros Hn1 Hn2.
      apply String.eqb_neq in Hn1, Hn2. now rewrite Hn1, Hn2.
Qed.

(** The three examples, on the sample host: the URL returned for
    [https://Example.com/Path] has the host in lower case. *)
Lemma validateUrl_follows_parser_witness :
  validateUrl sampleHost "not a url" = Raise (newError msg_url_malformed) /\
  validateUrl sampleHost "ftp://x.com" = Raise (newError msg_url_scheme) /\
  validateUrl sampleHost "https://Example.com/Path" = Ok "https://example.com/Path".
Proof.
  destruct (validateUrl_follows_parser sampleHost
              (mkURL "ftp:" "ftp://x.com/")
              (mkURL "https:" "https://example.com/Path")) as (A & B & C & _);
    [reflexivity | reflexivity | reflexivity | reflexivity | reflexivity |].
  exact (conj A (conj B C)).
Defined.

(* ================================================================== *)
(** * Worlds and the configuration store: properties *)

Local Open Scope js_scope.

Lemma printed_nil (w : World) : printed w [] = w.
Proof.
  destruct w; unfold printed; simpl. now rewrite app_nil_r.
Qed.

Lemma printed_printed (w : World) (a b : list Line) :
  printed (printed w a) b = printed w (a ++ b).
Proof.
  unfold printed; simpl. now rewrite app_assoc.
Qed.

Lemma emit_run (l : Line) (w : World) : emit l w = (Returns tt, printed w [l]).
Proof. reflexivity. Qed.

(** Run the [console.log] and [console.error] calls at the head of the
    goal. *)
Ltac run_console :=
  repeat first [ rewrite emit_run | progress cbv beta iota ].

Lemma bind_run {A B : Type} (m : M A) (k : A -> M B) (w w' : World) (a : A) :
  m w = (Returns a, w') -> bind m k w = k a w'.
Proof.
  intros H. unfold bind. now rewrite H.
Qed.

Lemma loadConfig_run (w : World) :
  loadConfig w = (Returns (readConfig (configFile w)), warned w).
Proof.
  destruct w as [f wf out calls orej].
  unfold loadConfig, warned, readConfig, bind, existsSync, tryCatch, readFileSync.
  destruct f as [| reason | [| doc]]; simpl; try reflexivity.
  destruct (Js.isObject doc); reflexivity.
Qed.

Lemma warned_configFile (w : World) : configFile (warned w) = configFile w.
Proof.
  unfold warned. destruct (configFile w) as [| ? | [| doc]] eqn:E; try assumption.
  destruct (Js.isObject doc); assumption.
Qed.

Lemma warned_frame (w : World) :
  writeFailure (warned w) = writeFailure w /\ opened (warned w) = opened w
  /\ openFailure (warned w) = openFailure w.
Proof.
  unfold warned. destruct (configFile w) as [| ? | [| doc]]; try (repeat split; reflexivity).
  destruct (Js.isObject doc); repeat split; reflexivity.
Qed.

Lemma orElse_truthy (a : option Value) (b : Value) :
  Js.truthy b = true -> Js.truthy (Js.orElse a b) = true.
Proof.
  intros Hb. unfold Js.orElse. destruct a as [v |]; [| assumption].
  destruct (Js.truthy v) eqn:E; assumption.
Qed.

Lemma readConfig_truthy (f : FileState) :
  Js.truthy (customShortcuts (readConfig f)) = true
  /\ Js.truthy (browser (settings (readConfig f))) = true.
Proof.
  unfold readConfig. destruct f as [| ? | [| doc]]; try (split; reflexivity).
  destruct (Js.isObject doc); [| split; reflexivity].
  split; apply orElse_truthy; reflexivity.
Qed.

(** A document that is an array: the text [[1]] parses to a value that is
    not a JSON object, and [loadConfig] returns the defaults for it, but
    prints no warning.  The test [typeof config !== 'object'] lets arrays
    through. *)
Lemma loadConfig_array_without_warning :
  ~ JsonObject (VArr [Some (VNum "1")] []) /\
  loadConfig (worldHolding (VArr [Some (VNum "1")] []))
  = (Returns defaultConfig, worldHolding (VArr [Some (VNum "1")] [])) /\
  console (worldHolding (VArr [Some (VNum "1")] [])) = [].
Proof.
  split; [intros [props H]; discriminate H | split; reflexivity].
Qed.

(** C6 on the code: [loadConfig] always returns and never touches the
    file.  With no file it returns the defaults and prints nothing.  When
    the file cannot be read, its text is not JSON, or the text parses to
    [null], a boolean, a number or a string, it prints one warning on the
    error stream and returns the defaults.  When the text parses to an
    object, it prints nothing, and each of [customShortcuts] and
    [settings.browser] is the value the document has under that key when
    there is one and it is truthy, and is defaulted on its own otherwise;
    [settings] that is not an object counts as having no browser.  Where
    the code leaves the claim is the document that is an array: it is not
    rejected but read as an object, so the array [[1]] gives the defaults
    and no warning.  The second part evaluates the loader on documents
    with one sub-field, both, neither, falsy ones, on the array, and on
    the other states of the file. *)
Theorem loadConfig_never_fails :
  (forall w : World,
     exists cfg w',
       loadConfig w = (Returns cfg, w') /\
       configFile w' = configFile w /\ writeFailure w' = writeFailure w /\
       opened w' = opened w /\ openFailure w' = openFailure w /\
       match configFile w with
       | Absent => cfg = defaultConfig /\ w' = w
       | Unreadable _ | Holds NotJson =>
           cfg = defaultConfig /\ console w' = (console w ++ [Err warn_read])%list
       | Holds (Json doc) =>
           match doc with
           | VObj props | VArr _ props =>
               w' = w /\
               customShortcuts cfg =
                 match assoc "customShortcuts" props with
                 | Some v => if Js.truthy v then v else VObj []
                 | None => VObj []
                 end /\
               browser (settings cfg) =
                 match assoc "settings" props with
                 | Some (VObj sprops) | Some (VArr _ sprops) =>
                     match assoc "browser" sprops with
                     | Some b => if Js.truthy b then b else VStr "default"
                     | None => VStr "default"
                     end
                 | _ => VStr "default"
                 end
           | VNull | VBool _ | VNum _ | VStr _ =>
               cfg = defaultConfig /\
               console w' = (console w ++ [Err warn_format])%list
           end
       end) /\
  loadConfig (worldHolding (VObj [("settings", VObj [("browser", VStr "firefox")])]))
  = (Returns (mkConfig (VObj []) (mkSettings (VStr "firefox"))),
     worldHolding (VObj [("settings", VObj [("browser", VStr "firefox")])])) /\
  loadConfig (worldHolding (VObj [("customShortcuts",
                                   VObj [("blog", VStr "https://example.com/")])]))
  = (Returns (mkConfig (VObj [("blog", VStr "https://example.com/")])
                       (mkSettings (VStr "default"))),
     worldHolding (VObj [("customShortcuts",
                          VObj [("blog", VStr "https://example.com/")])])) /\
  fst (loadConfig (worldHolding
                     (VObj [("customShortcuts", VObj [("blog", VStr "https://example.com/")]);
                            ("settings", VObj [("browser", VStr "firefox")])])))
  = Returns (mkConfig (VObj [("blog", VStr "https://example.com/")])
                      (mkSettings (VStr "firefox"))) /\
  fst (loadConfig (worldHolding
                     (VObj [("customShortcuts", VObj [("blog", VStr "https://example.com/")]);
                            ("settings", VStr "firefox")])))
  = Returns (mkConfig (VObj [("blog", VStr "https://example.com/")])
                      (mkSettings (VStr "default"))) /\
  loadConfig (worldHolding (VObj [("customShortcuts", VNull);
                                  ("settings", VObj [("browser", VStr EmptyString)])]))
  = (Returns defaultConfig,
     worldHolding (VObj [("customShortcuts", VNull);
                         ("settings", VObj [("browser", VStr EmptyString)])])) /\
  loadConfig (worldHolding (VObj [])) = (Returns defaultConfig, worldHolding (VObj [])) /\
  loadConfig (worldHolding (VArr [Some (VNum "1")] []))
  = (Returns defaultConfig, worldHolding (VArr [Some (VNum "1")] [])) /\
  loadConfig (worldHolding (VNum "5"))
  = (Returns defaultConfig, printed (worldHolding (VNum "5")) [Err warn_format]) /\
  loadConfig (worldHolding VNull)
  = (Returns defaultConfig, printed (worldHolding VNull) [Err warn_format]) /\
  loadConfig (mkWorld (Holds NotJson) None [] [] None)
  = (Returns defaultConfig, mkWorld (Holds NotJson) None [Err warn_read] [] None) /\
  loadConfig (mkWorld (Unreadable "EACCES: permission denied") None [] [] None)
  = (Returns defaultConfig,
     mkWorld (Unreadable "EACCES: permission denied") None [Err warn_read] [] None) /\
  loadConfig freshWorld = (Returns defaultConfig, freshWorld).
Proof.
  split; [| repeat split].
  intros w. exists (readConfig (configFile w)), (warned w).
  split; [apply loadConfig_run |].
  split; [apply warned_configFile |].
  destruct (warned_frame w) as (Hw & Ho & Hf).
  repeat (split; [assumption |]).
  unfold readConfig, warned.
  destruct (configFile w) as [| reason | [| doc]]; try (split; reflexivity).
  destruct doc as [| b | r | t | els props | props]; try (split; reflexivity).
  all: cbn [Js.isObject configOfObject getProp customShortcuts settings browser].
  all: split; [reflexivity |]; split.
  all: unfold Js.orElse.
  all: try (destruct (assoc "customShortcuts" props); reflexivity).
  all: destruct (assoc "settings" props) as [[| b | r | t | els' sprops | sprops] |];
    try reflexivity.
  all: cbn [getProp]; destruct (assoc "browser" sprops); reflexivity.
Qed.

(* ================================================================== *)
(** * Commands: properties *)

Lemma reportAndExit_run {A : Type} (e : Thrown) (w : World) :
  @reportAndExit A e w = (Exits 1, printed w [Err ("Error: " ++ message e)]).
Proof. reflexivity. Qed.

Lemma addCommand_builtin (host : Host) (name url n u : string) (w : World) :
  validateShortcutName name = Ok n ->
  validateUrl host url = Ok u ->
  hasOwn BUILT_IN_SHORTCUTS n = true ->
  addCommand host name url w
  = (Exits 1, printed w [Err (msg_builtin_overwrite n); Out msg_builtin_choose]).
Proof.
  intros Hn Hu Hb. unfold addCommand, tryCatch, bind.
  rewrite Hn, Hu. cbn [lift ret]. rewrite Hb.
  unfold console_error, console_log. rewrite emit_run.
  unfold process_exit. rewrite emit_run, printed_printed. reflexivity.
Qed.

Lemma addCommand_bad_url (host : Host) (name url n : string) (e : Thrown) (w : World) :
  validateShortcutName name = Ok n ->
  validateUrl host url = Raise e ->
  addCommand host name url w = (Exits 1, printed w [Err ("Error: " ++ message e)]).
Proof.
  intros Hn Hu. unfold addCommand, tryCatch, bind.
  rewrite Hn, Hu. reflexivity.
Qed.

Lemma removeCommand_builtin (name n : string) (w : World) :
  validateShortcutName name = Ok n ->
  hasOwn BUILT_IN_SHORTCUTS n = true ->
  removeCommand name w = (Exits 1, printed w [Err (msg_builtin_remove n)]).
Proof.
  intros Hn Hb. unfold removeCommand, tryCatch, bind.
  rewrite Hn. cbn [lift ret]. rewrite Hb.
  unfold console_error. rewrite emit_run. reflexivity.
Qed.

(** C5: for a name that normalizes to a key of the built-in table, [add]
    with a valid URL ends with exit status 1 after the message that the
    shortcut is built-in and cannot be overwritten; whatever the URL, it
    exits with status 1 and leaves the configuration file as it was; and
    [remove] ends with exit status 1 after the message that the shortcut
    is built-in and cannot be removed, the file untouched. *)
Theorem builtins_cannot_be_changed (host : Host) (name n : string) (w : World) :
  validateShortcutName name = Ok n ->
  hasOwn BUILT_IN_SHORTCUTS n = true ->
  (forall url u : string,
      validateUrl host url = Ok u ->
      addCommand host name url w
      = (Exits 1, printed w [Err (msg_builtin_overwrite n); Out msg_builtin_choose])) /\
  (forall url : string,
      exists w', addCommand host name url w = (Exits 1, w')
                 /\ configFile w' = configFile w) /\
  removeCommand name w = (Exits 1, printed w [Err (msg_builtin_remove n)]).
Proof.
  intros Hn Hb. split; [| split].
  - intros url u Hu. now apply (addCommand_builtin host name url n u).
  - intros url. destruct (validateUrl host url) as [u | e] eqn:Hu.
    + eexists. split; [now apply (addCommand_builtin host name url n u) |]. reflexivity.
    + eexists. split; [now apply (addCommand_bad_url host name url n e) |]. reflexivity.
  - now apply removeCommand_builtin.
Qed.

(** [add github https://evil.example] and [remove youtube], with no
    configuration file: both exit with status 1 and no file appears. *)
Lemma builtins_cannot_be_changed_witness :
  addCommand sampleHost "github" "https://evil.example" freshWorld
  = (Exits 1, printed freshWorld [Err (msg_builtin_overwrite "github"); Out msg_builtin_choose])
  /\ removeCommand "youtube" freshWorld
     = (Exits 1, printed freshWorld [Err (msg_builtin_remove "youtube")]).
Proof.
  split.
  - exact (proj1 (builtins_cannot_be_changed sampleHost "github" "github" freshWorld
                    eq_refl eq_refl)
                 "https://evil.example" "https://evil.example/" eq_refl).
  - exact (proj2 (proj2 (builtins_cannot_be_changed sampleHost "youtube" "youtube" freshWorld
                           eq_refl eq_refl))).
Defined.

Lemma searchCommand_too_long (queryParts : list string) (incognito : bool)
      (engineOption : string) (w : World) :
  500 < String.length (Str.trim (Str.join " " queryParts)) ->
  searchCommand queryParts incognito engineOption w
  = (Exits 1, printed w [Err msg_query_long]).
Proof.
  intros Hlen. unfold searchCommand, tryCatch, bind.
  set (query := Str.trim (Str.join " " queryParts)) in *.
  assert (Hne : String.eqb query EmptyString = false).
  { apply String.eqb_neq. intros E. rewrite E in Hlen. simpl in Hlen. lia. }
  rewrite Hne. cbn [ret].
  apply Nat.ltb_lt in Hlen. rewrite Hlen.
  unfold console_error. rewrite emit_run. reflexivity.
Qed.

(** C8: when the joined, trimmed query is 600 characters long, [search]
    prints the too-long error and exits with status 1: it opens nothing,
    whatever the engine option, so no search URL is built. *)
Theorem search_rejects_600_characters (queryParts : list string)
        (incognito : bool) (engineOption : string) (w : World) :
  String.length (Str.trim (Str.join " " queryParts)) = 600 ->
  searchCommand queryParts incognito engineOption w
  = (Exits 1, printed w [Err msg_query_long])
  /\ opened (snd (searchCommand queryParts incognito engineOption w)) = opened w.
Proof.
  intros Hlen.
  assert (H : searchCommand queryParts incognito engineOption w
              = (Exits 1, printed w [Err msg_query_long])).
  { apply searchCommand_too_long. lia. }
  split; [exact H |]. now rewrite H.
Qed.

(** A query of 300 words [ab] joined without blanks, and an engine the
    program does not know: the error is the one about the length. *)
Lemma search_rejects_600_characters_witness :
  searchCommand [Str.repeat "ab" 300] true "nosuchengine" freshWorld
  = (Exits 1, printed freshWorld [Err msg_query_long]).
Proof.
  exact (proj1 (search_rejects_600_characters [Str.repeat "ab" 300] true
                  "nosuchengine" freshWorld eq_refl)).
Defined.

(* ================================================================== *)
(** * Launch: properties *)

Lemma open_caught (url : Value) (options : OpenOptions) (w : World) :
  tryCatch (open url options)
           (fun error => throw (newError ("Could not open URL: " ++ message error))) w
  = openResult w url options.
Proof.
  unfold tryCatch, open, openResult, launched.
  destruct (openFailure w); reflexivity.
Qed.

Lemma openUrl_run (url : Value) (incognito : bool) (w : World) :
  openUrl url incognito w
  = match buildOpenOptions (browser (settings (readConfig (configFile w)))) incognito
            (warned w) with
    | (Returns options, w') => openResult w' url options
    | (Throws e, w') => (Throws e, w')
    | (Exits n, w') => (Exits n, w')
    end.
Proof.
  unfold openUrl. rewrite (bind_run _ _ _ _ _ (loadConfig_run w)).
  unfold bind.
  destruct (buildOpenOptions _ incognito (warned w)) as [[options | e | n] w'];
    try reflexivity.
  apply open_caught.
Qed.

Lemma loadConfig_inv (w w1 : World) (cfg : Config) :
  loadConfig w = (Returns cfg, w1) -> cfg = readConfig (configFile w) /\ w1 = warned w.
Proof.
  rewrite loadConfig_run. intros [= <- <-]. split; reflexivity.
Qed.

(** Without an app: what [openUrl] does when [BROWSERS[browserName]] is
    [undefined]. *)
Lemma openUrl_no_app (url : Value) (incognito : bool) (w : World) :
  BROWSERS_get (browser (settings (readConfig (configFile w)))) = Ok None ->
  openUrl url incognito w
  = openResult (if incognito then printed (warned w) [Out note_default] else warned w)
               url (mkOpenOptions None).
Proof.
  intros H. rewrite openUrl_run. unfold buildOpenOptions, bind. rewrite H.
  destruct incognito; reflexivity.
Qed.

(** C9: with the browser setting [default] the options handed to [open]
    name no app, and asking for incognito only adds a note on the
    console.  With [chrome], [firefox], [edge], [brave] or [opera] the
    options name the browser's app and, when incognito is asked for, carry
    the flag of the table [--incognito], [--private-window],
    [--inprivate], [--incognito], [--private].  With [safari] and
    incognito the options carry no flag and a note is printed. *)
Theorem browser_launch_table (url : Value) (w w1 : World) (cfg : Config) :
  loadConfig w = (Returns cfg, w1) ->
  (browser (settings cfg) = VStr "default" ->
   openUrl url false w = openResult w1 url (mkOpenOptions None) /\
   openUrl url true w
   = openResult (printed w1 [Out note_default]) url (mkOpenOptions None)) /\
  (forall b appId flag : string,
      In (b, appId, flag) privateFlags ->
      browser (settings cfg) = VStr b ->
      openUrl url true w
      = openResult w1 url (mkOpenOptions (Some (mkApp (NameString appId) (Some [flag])))) /\
      openUrl url false w
      = openResult w1 url (mkOpenOptions (Some (mkApp (NameString appId) None)))) /\
  (browser (settings cfg) = VStr "safari" ->
   openUrl url true w
   = openResult (printed w1 [Out note_safari]) url
                (mkOpenOptions (Some (mkApp (NameString "safari") None))) /\
   openUrl url false w
   = openResult w1 url (mkOpenOptions (Some (mkApp (NameString "safari") None)))).
Proof.
  intros Hload. apply loadConfig_inv in Hload as [-> ->].
  split; [| split].
  - intros Hb. split; rewrite openUrl_no_app by (now rewrite Hb); reflexivity.
  - intros b appId flag Hin Hb. rewrite !openUrl_run, Hb.
    simpl in Hin.
    destruct Hin as [E | [E | [E | [E | [E | []]]]]]; injection E as <- <- <-;
      split; reflexivity.
  - intros Hb. rewrite !openUrl_run, Hb. split; reflexivity.
Qed.

(** With the setting [edge], an incognito launch names the app [msedge]
    with the flag [--inprivate]. *)
Lemma browser_launch_table_witness :
  openUrl (VStr "https://github.com") true (worldWithBrowser "edge")
  = openResult (worldWithBrowser "edge") (VStr "https://github.com")
               (mkOpenOptions (Some (mkApp (NameString "msedge") (Some ["--inprivate"])))).
Proof.
  refine (proj1 (proj1 (proj2 (browser_launch_table (VStr "https://github.com")
                                 (worldWithBrowser "edge") (worldWithBrowser "edge")
                                 (mkConfig (VObj []) (mkSettings (VStr "edge"))) eq_refl))
                       "edge" "msedge" "--inprivate" _ eq_refl)).
  simpl. auto.
Defined.

(** X25: a string setting that is neither a key of [BROWSERS] nor the name of
    a member of [Object.prototype] is launched as [default] is: no app,
    and the same note when incognito is asked for.  No error is raised on
    the way. *)
Lemma unknown_browser_like_default (url : Value) (incognito : bool) (w : World) (b : string) :
  browser (settings (readConfig (configFile w))) = VStr b ->
  assoc b BROWSERS = None ->
  Str.includes objectPrototypeMembers b = false ->
  openUrl url incognito w
  = openResult (if incognito then printed (warned w) [Out note_default] else warned w)
               url (mkOpenOptions None).
Proof.
  intros Hb Hown Hproto. apply openUrl_no_app.
  rewrite Hb. unfold BROWSERS_get, BROWSERS_at. cbn [Js.toString].
  now rewrite Hown, Hproto.
Qed.

(** The setting [lynx]: an incognito launch prints the note of the default
    browser and names no app. *)
Lemma unknown_browser_like_default_witness :
  openUrl (VStr "https://github.com") true (worldWithBrowser "lynx")
  = openResult (printed (worldWithBrowser "lynx") [Out note_default])
               (VStr "https://github.com") (mkOpenOptions None).
Proof.
  exact (unknown_browser_like_default (VStr "https://github.com") true
           (worldWithBrowser "lynx") "lynx" eq_refl eq_refl eq_refl).
Defined.

(** C10 on the code: the setting ["constructor"] is a truthy string
    outside the supported set ([validateBrowser] rejects it), and no error
    is raised for it at launch; but the options [openUrl] hands to [open]
    do name an app, the member [constructor] that [BROWSERS] inherits from
    [Object.prototype], where the setting [default] gives options without
    an app.  The setting ["lynx"] does launch as [default] does. *)
Theorem inherited_browser_name_launch :
  (exists e, validateBrowser "constructor" = Raise e) /\
  openUrl (VStr "https://github.com") false (worldWithBrowser "constructor")
  = (Returns tt,
     launched (worldWithBrowser "constructor") (VStr "https://github.com")
              (mkOpenOptions (Some (mkApp (NameInherited "constructor") None)))) /\
  openUrl (VStr "https://github.com") false (worldWithBrowser "default")
  = (Returns tt,
     launched (worldWithBrowser "default") (VStr "https://github.com") (mkOpenOptions None)) /\
  openUrl (VStr "https://github.com") false (worldWithBrowser "lynx")
  = (Returns tt,
     launched (worldWithBrowser "lynx") (VStr "https://github.com") (mkOpenOptions None)).
Proof.
  split; [eexists; reflexivity |].
  repeat split.
Qed.

(* ================================================================== *)
(** * The list command: properties *)

Section ListFacts.

Variable host : Host.

Lemma insertRow_perm (r : Row) (l : list Row) : Permutation (insertRow host r l) (r :: l).
Proof.
  induction l as [| x l IH]; simpl; [apply Permutation_refl |].
  destruct (0 <? localeCompare host (rowName r) (rowName x))%Z.
  - apply Permutation_trans with (x :: r :: l).
    + now apply perm_skip.
    + apply perm_swap.
  - apply Permutation_refl.
Qed.

Lemma sortRows_perm (l : list Row) : Permutation (sortRows host l) l.
Proof.
  induction l as [| r l IH]; simpl; [constructor |].
  apply Permutation_trans with (r :: sortRows host l).
  - apply insertRow_perm.
  - now apply perm_skip.
Qed.

Hypothesis consistent : ConsistentCompare (localeCompare host).

Lemma insertRow_sorted (r : Row) (l : list Row) :
  Sorted (RowLe host) l -> Sorted (RowLe host) (insertRow host r l).
Proof.
  induction l as [| x l IH]; intros Hs; simpl.
  - repeat constructor.
  - destruct (0 <? localeCompare host (rowName r) (rowName x))%Z eqn:E.
    + apply Z.ltb_lt in E. apply Sorted_inv in Hs as [Hs Hd].
      constructor; [now apply IH |].
      destruct l as [| y l']; simpl.
      * constructor. now apply consistent.
      * destruct (0 <? localeCompare host (rowName r) (rowName y))%Z.
        -- constructor. now apply HdRel_inv in Hd.
        -- constructor. now apply consistent.
    + apply Z.ltb_ge in E. constructor; [assumption |]. now constructor.
Qed.

Lemma sortRows_sorted (l : list Row) : Sorted (RowLe host) (sortRows host l).
Proof.
  induction l as [| r l IH]; simpl; [constructor |].
  now apply insertRow_sorted.
Qed.

End ListFacts.

Lemma tableLine_printable (nameWidth typeWidth : nat) (r : Row) :
  Printable (rowUrl r) ->
  tableLine nameWidth typeWidth r = Ok (tableText nameWidth typeWidth r).
Proof.
  intros [text E]. unfold tableLine, tableText, urlText. now rewrite E.
Qed.

Lemma printRows_run (nameWidth typeWidth : nat) (rows : list Row) (w : World) :
  Forall (fun r => Printable (rowUrl r)) rows ->
  printRows nameWidth typeWidth rows w
  = (Returns tt, printed w (map (fun r => Out (tableText nameWidth typeWidth r)) rows)).
Proof.
  intros Hall. revert w. induction Hall as [| r rows Hr _ IH]; intros w; cbn [printRows map].
  - now rewrite printed_nil.
  - rewrite (tableLine_printable nameWidth typeWidth r Hr).
    unfold bind, console_log. cbn [lift ret].
    rewrite emit_run, IH, printed_printed. reflexivity.
Qed.

(** Whatever happens, [printRows] only adds lines to the console. *)
Lemma printRows_appends (nameWidth typeWidth : nat) (rows : list Row) (w : World) :
  exists o lines, printRows nameWidth typeWidth rows w = (o, printed w lines).
Proof.
  revert w. induction rows as [| r rows IH]; intros w; cbn [printRows].
  - exists (Returns tt), []. now rewrite printed_nil.
  - unfold bind at 1. destruct (tableLine nameWidth typeWidth r) as [line | e]; cbn [lift].
    + unfold ret, bind, console_log. rewrite emit_run.
      destruct (IH (printed w [Out line])) as (o & lines & E).
      rewrite E, printed_printed. now exists o, ([Out line] ++ lines)%list.
    + exists (Throws e), []. unfold throw. now rewrite printed_nil.
Qed.

Lemma printTable_run (rows : list Row) (w : World) :
  rows <> [] ->
  Forall (fun r => Printable (rowUrl r)) rows ->
  printTable rows w = (Returns tt, printed w (tableLines rows)).
Proof.
  intros Hne Hall. destruct rows as [| r rest]; [congruence |].
  unfold printTable, tableLines.
  change (fold_left Nat.max (map (fun r0 => String.length (rowName r0)) (r :: rest)) 10 + 2)
    with (nameWidthOf (r :: rest)).
  revert Hall. generalize (r :: rest) as rows. intros rows Hall.
  unfold bind, console_log.
  repeat first [ rewrite emit_run | rewrite (printRows_run _ _ _ _ Hall)
               | progress cbv beta iota ].
  rewrite !printed_printed. reflexivity.
Qed.

Lemma printTable_appends (rows : list Row) (w : World) :
  exists o lines, printTable rows w = (o, printed w lines).
Proof.
  destruct rows as [| r rest]; unfold printTable.
  - eexists. eexists. unfold console_log. rewrite emit_run. reflexivity.
  - generalize (fold_left Nat.max (map (fun r0 => String.length (rowName r0)) (r :: rest)) 10 + 2).
    generalize (r :: rest) as rows. intros rows nameWidth.
    unfold bind, console_log.
    run_console.
    destruct (printRows_appends nameWidth 10 rows
                (printed (printed (printed w [Out (newline ++ tableRule nameWidth 10)])
                                  [Out (Str.padEnd "Name" nameWidth
                                        ++ Str.padEnd "Type" 10 ++ "URL")])
                         [Out (tableRule nameWidth 10)]))
      as ([[] | e | n] & lines & E); rewrite E; run_console;
      rewrite !printed_printed; eexists; eexists; reflexivity.
Qed.

Lemma Object_entries_truthy (v : Value) :
  Js.truthy v = true -> Js.Object_entries v = Ok (Js.ownEntries v).
Proof.
  destruct v; simpl; intros H; try reflexivity. discriminate.
Qed.

Lemma allRows_not_empty (host : Host) (customs : Value) : allRows host customs <> [].
Proof.
  intros E. pose proof (sortRows_perm host (builtInRows ++ customRows (Js.ownEntries customs)))
    as P.
  unfold allRows in E. rewrite E in P. apply Permutation_nil in P. discriminate P.
Qed.

(** [list] without filters, up to the call of [printTable]. *)
Lemma listCommand_unfold (host : Host) (w : World) :
  listCommand host false false w
  = match printTable (allRows host (customShortcuts (readConfig (configFile w))))
            (printed (warned w)
               [totalLine (allRows host (customShortcuts (readConfig (configFile w))))]) with
    | (Throws e, w') => reportAndExit e w'
    | r => r
    end.
Proof.
  unfold listCommand, tryCatch.
  rewrite (bind_run _ _ _ _ _ (loadConfig_run w)).
  unfold collectRows. cbn [negb].
  rewrite Object_entries_truthy by apply readConfig_truthy.
  unfold bind, lift, ret, console_log. cbv beta iota.
  rewrite emit_run. cbv beta iota. unfold allRows, totalLine.
  destruct (printTable _ _) as [[[] | e | n] w']; reflexivity.
Qed.

Lemma listCommand_all (host : Host) (w : World) :
  let rows := allRows host (customShortcuts (readConfig (configFile w))) in
  Forall (fun kv => Printable (snd kv))
         (Js.ownEntries (customShortcuts (readConfig (configFile w)))) ->
  listCommand host false false w
  = (Returns tt, printed (warned w) (totalLine rows :: tableLines rows)).
Proof.
  intros rows Hall. rewrite listCommand_unfold. fold rows.
  assert (Hrows : Forall (fun r => Printable (rowUrl r)) rows).
  { apply Forall_forall. intros r Hr.
    apply (Permutation_in _ (sortRows_perm host _)) in Hr.
    apply in_app_or in Hr as [Hr | Hr].
    - unfold builtInRows in Hr. apply in_map_iff in Hr as (kv & <- & _).
      now exists (snd kv).
    - unfold customRows in Hr. apply in_map_iff in Hr as (kv & <- & Hin).
      rewrite Forall_forall in Hall. exact (Hall kv Hin). }
  rewrite (printTable_run rows _ (allRows_not_empty host _) Hrows), printed_printed.
  reflexivity.
Qed.

Lemma listCommand_total_first (host : Host) (w : World) :
  let rows := allRows host (customShortcuts (readConfig (configFile w))) in
  exists o rest,
    listCommand host false false w = (o, printed (warned w) (totalLine rows :: rest)).
Proof.
  intros rows. rewrite listCommand_unfold. fold rows.
  destruct (printTable_appends rows (printed (warned w) [totalLine rows]))
    as ([[] | e | n] & lines & E); rewrite E.
  - rewrite printed_printed. now exists (Returns tt), lines.
  - rewrite reportAndExit_run, !printed_printed. eexists. eexists. reflexivity.
  - rewrite printed_printed. now exists (Exits n), lines.
Qed.

(** C7: with neither [--builtin] nor [--custom], the rows [list] builds
    are the built-in shortcuts and the own entries of the loaded
    [customShortcuts]: their number, which the total line shows, is the
    number of built-in shortcuts plus the number of custom ones, and they
    are in the order of the names under [localeCompare], the comparator
    the sort is given.  The total line is printed first in every case; when
    every custom URL converts to a string, as the strings [add] stores do,
    the command returns after printing one table line for each row. *)
Theorem list_counts_and_sorts (host : Host) (w w1 : World) (cfg : Config) :
  ConsistentCompare (localeCompare host) ->
  loadConfig w = (Returns cfg, w1) ->
  exists rows : list Row,
    List.length rows
    = List.length BUILT_IN_SHORTCUTS + List.length (Js.ownEntries (customShortcuts cfg)) /\
    Sorted (RowLe host) rows /\
    Permutation rows (builtInRows ++ customRows (Js.ownEntries (customShortcuts cfg))) /\
    (exists o rest,
        listCommand host false false w = (o, printed w1 (totalLine rows :: rest))) /\
    (Forall (fun kv => Printable (snd kv)) (Js.ownEntries (customShortcuts cfg)) ->
     listCommand host false false w
     = (Returns tt, printed w1 (totalLine rows :: tableLines rows))).
Proof.
  intros Hc Hload. apply loadConfig_inv in Hload as [-> ->].
  exists (allRows host (customShortcuts (readConfig (configFile w)))).
  split; [| split; [| split; [| split]]].
  - unfold allRows. rewrite (Permutation_length (sortRows_perm host _)).
    unfold builtInRows, customRows. now rewrite length_app, !length_map.
  - now apply sortRows_sorted.
  - apply sortRows_perm.
  - apply listCommand_total_first.
  - apply listCommand_all.
Qed.

(** A custom URL that does not convert to a string, an object with an own
    [toString] property, stops the table at its row: [list --custom]
    prints the total and the header, then the error, and exits with
    status 1. *)
Example list_stops_at_unprintable_url :
  listCommand sampleHost false true
    (mkWorld (Holds (Json (VObj [("customShortcuts",
                                  VObj [("a", VObj [("toString", VNum "1")])])])))
             None [] [] None)
  = (Exits 1,
     mkWorld (Holds (Json (VObj [("customShortcuts",
                                  VObj [("a", VObj [("toString", VNum "1")])])])))
             None
             [ Out (newline ++ "Total shortcuts: 1");
               Out (newline ++ tableRule 12 10);
               Out "Name        Type      URL";
               Out (tableRule 12 10);
               Err "Error: Cannot convert object to primitive value" ]
             [] None).
Proof. reflexivity. Qed.

Lemma codeUnitCompare_consistent : ConsistentCompare codeUnitCompare.
Proof.
  intros a b. unfold codeUnitCompare.
  rewrite (String.compare_antisym b a).
  destruct (String.compare a b); simpl; lia.
Qed.

(** With one custom shortcut among the 52 built-in ones, ordered by code
    units: 53 rows. *)
Lemma list_counts_and_sorts_witness :
  exists rows : list Row,
    List.length rows = 52 + 1 /\
    Sorted (RowLe sampleHost) rows /\
    Permutation rows
      (builtInRows ++ customRows [("blog", VStr "https://example.com/")]) /\
    (exists o rest,
        listCommand sampleHost false false blogWorld
        = (o, printed blogWorld (totalLine rows :: rest))) /\
    (Forall (fun kv => Printable (snd kv)) [("blog", VStr "https://example.com/")] ->
     listCommand sampleHost false false blogWorld
     = (Returns tt, printed blogWorld (totalLine rows :: tableLines rows))).
Proof.
  exact (list_counts_and_sorts sampleHost blogWorld blogWorld
           (mkConfig (VObj [("blog", VStr "https://example.com/")])
                     (mkSettings (VStr "default")))
           codeUnitCompare_consistent eq_refl).
Defined.

(* ================================================================== *)
(** * Property lists: lemmas *)

Module PropFacts.
Import Js.

Lemma hasOwn_false {A : Type} (ps : list (string * A)) (k : string) :
  hasOwn ps k = false <-> assoc k ps = None.
Proof.
  unfold hasOwn. destruct (assoc k ps); split; congruence.
Qed.

Lemma assoc_None_keys {A : Type} (ps : list (string * A)) (k : string) :
  assoc k ps = None <-> ~ In k (map fst ps).
Proof.
  induction ps as [| [k1 v1] ps IH]; simpl; [tauto |].
  destruct (String.eqb_spec k1 k) as [-> | Hne].
  - split; [discriminate | tauto].
  - rewrite IH. tauto.
Qed.

Lemma assoc_app_single {A : Type} (ps : list (string * A)) (k k' : string) (x : A) :
  assoc k' (ps ++ [(k, x)])
  = match assoc k' ps with
    | Some v => Some v
    | None => if String.eqb k k' then Some x else None
    end.
Proof.
  induction ps as [| [k1 v1] ps IH]; simpl; [reflexivity |].
  destruct (String.eqb k1 k'); [reflexivity | exact IH].
Qed.

Lemma assoc_replaceProp (ps : list (string * Value)) (k k' : string) (x : Value) :
  assoc k ps <> None ->
  assoc k' (replaceProp ps k x) = if String.eqb k k' then Some x else assoc k' ps.
Proof.
  induction ps as [| [k1 v1] ps IH]; simpl; [congruence |].
  destruct (String.eqb_spec k1 k) as [-> | Hne]; intros Hown; simpl.
  - destruct (String.eqb k k'); reflexivity.
  - rewrite (IH Hown).
    destruct (String.eqb_spec k1 k') as [<- | Hne'].
    + apply String.eqb_neq in Hne. rewrite String.eqb_sym in Hne. now rewrite Hne.
    + reflexivity.
Qed.

Lemma assoc_insertIndexProp (ps : list (string * Value)) (i : nat) (k k' : string)
      (x : Value) :
  assoc k ps = None ->
  assoc k' (insertIndexProp ps i k x) = if String.eqb k k' then Some x else assoc k' ps.
Proof.
  induction ps as [| [k1 v1] ps IH]; simpl; [reflexivity |].
  destruct (String.eqb_spec k1 k) as [-> | Hne]; [discriminate |].
  intros Hnone.
  destruct (arrayIndex k1) as [j |]; [| reflexivity].
  destruct (i <? j)%nat; [reflexivity |]. simpl. rewrite (IH Hnone).
  destruct (String.eqb_spec k1 k') as [<- | Hne'].
  - apply String.eqb_neq in Hne. rewrite String.eqb_sym in Hne. now rewrite Hne.
  - reflexivity.
Qed.

Lemma assoc_createProp (ps : list (string * Value)) (k k' : string) (x : Value) :
  assoc k ps = None ->
  assoc k' (createProp ps k x) = if String.eqb k k' then Some x else assoc k' ps.
Proof.
  intros Hnone. unfold createProp. destruct (arrayIndex k) as [i |].
  - now apply assoc_insertIndexProp.
  - rewrite assoc_app_single.
    destruct (String.eqb_spec k k') as [<- | Hne].
    + now rewrite Hnone.
    + destruct (assoc k' ps); reflexivity.
Qed.

Lemma assoc_defineProp (ps : list (string * Value)) (k k' : string) (x : Value) :
  assoc k' (defineProp ps k x) = if String.eqb k k' then Some x else assoc k' ps.
Proof.
  unfold defineProp, hasOwn. destruct (assoc k ps) as [v |] eqn:E.
  - apply assoc_replaceProp. congruence.
  - now apply assoc_createProp.
Qed.

Lemma assoc_assignProp (ps : list (string * Value)) (k k' : string) (x : Value) :
  k <> "__proto__" \/ hasOwn ps k = true ->
  assoc k' (assignProp ps k x) = if String.eqb k k' then Some x else assoc k' ps.
Proof.
  intros H. unfold assignProp, hasOwn in *. destruct (assoc k ps) as [v |] eqn:E.
  - apply assoc_replaceProp. congruence.
  - destruct H as [H | H]; [| discriminate].
    apply String.eqb_neq in H. rewrite H. now apply assoc_createProp.
Qed.

Lemma assignProp_proto (ps : list (string * Value)) (x : Value) :
  hasOwn ps "__proto__" = false -> assignProp ps "__proto__" x = ps.
Proof.
  intros H. unfold assignProp. now rewrite H.
Qed.

(** Object spread: the last entry of the source for a key wins over the
    target. *)
Lemma assoc_fold_defineProp (entries target : list (string * Value)) (k : string) :
  assoc k (fold_left (fun acc kv => defineProp acc (fst kv) (snd kv)) entries target)
  = match assoc k (rev entries) with
    | Some v => Some v
    | None => assoc k target
    end.
Proof.
  revert target. induction entries as [| [k1 v1] entries IH]; intros target; simpl.
  - reflexivity.
  - rewrite IH, assoc_app_single, assoc_defineProp. simpl.
    destruct (assoc k (rev entries)); [reflexivity |].
    destruct (String.eqb k1 k); reflexivity.
Qed.

Lemma assoc_rev_distinct {A : Type} (ps : list (string * A)) (k : string) :
  NoDup (map fst ps) -> assoc k (rev ps) = assoc k ps.
Proof.
  induction ps as [| [k1 v1] ps IH]; simpl; [reflexivity |].
  intros Hnd. inversion Hnd as [| ? ? Hnotin Hnd']; subst.
  rewrite assoc_app_single, (IH Hnd').
  destruct (String.eqb_spec k1 k) as [<- | Hne].
  - apply assoc_None_keys in Hnotin. now rewrite Hnotin.
  - destruct (assoc k ps); reflexivity.
Qed.

Lemma distinctb_NoDup (l : list string) : distinctb l = true -> NoDup l.
Proof.
  induction l as [| x l IH]; simpl; [constructor |].
  intros H. apply andb_true_iff in H as [Hx Hl].
  constructor; [| now apply IH].
  intros Hin. apply StrFacts.includes_In in Hin. rewrite Hin in Hx. discriminate.
Qed.

Lemma keys_replaceProp (ps : list (string * Value)) (k : string) (x : Value) :
  map fst (replaceProp ps k x) = map fst ps.
Proof.
  induction ps as [| [k1 v1] ps IH]; simpl; [reflexivity |].
  destruct (String.eqb k1 k); simpl; [reflexivity | now rewrite IH].
Qed.

Lemma insertIndexProp_perm (ps : list (string * Value)) (i : nat) (k : string) (x : Value) :
  Permutation (insertIndexProp ps i k x) ((k, x) :: ps).
Proof.
  induction ps as [| [k1 v1] ps IH]; simpl; [apply Permutation_refl |].
  destruct (arrayIndex k1) as [j |]; [| apply Permutation_refl].
  destruct (i <? j)%nat; [apply Permutation_refl |].
  apply Permutation_trans with ((k1, v1) :: (k, x) :: ps).
  - now apply perm_skip.
  - apply perm_swap.
Qed.

Lemma createProp_perm (ps : list (string * Value)) (k : string) (x : Value) :
  Permutation (createProp ps k x) ((k, x) :: ps).
Proof.
  unfold createProp. destruct (arrayIndex k).
  - apply insertIndexProp_perm.
  - apply Permutation_sym, Permutation_cons_append.
Qed.

Lemma distinct_assignProp (ps : list (string * Value)) (k : string) (x : Value) :
  NoDup (map fst ps) -> NoDup (map fst (assignProp ps k x)).
Proof.
  intros Hnd. unfold assignProp, hasOwn. destruct (assoc k ps) as [v |] eqn:E.
  - now rewrite keys_replaceProp.
  - destruct (String.eqb k "__proto__"); [assumption |].
    apply (Permutation_NoDup (l := k :: map fst ps)).
    + apply Permutation_sym.
      exact (Permutation_map fst (createProp_perm ps k x)).
    + constructor; [now apply assoc_None_keys | assumption].
Qed.

Lemma reparse_VObj (ps : list (string * Value)) :
  reparse (VObj ps) = VObj (reparseProps ps).
Proof.
  simpl. f_equal. induction ps as [| [k v] ps IH]; simpl; [reflexivity | now rewrite IH].
Qed.

Lemma keys_reparseProps (ps : list (string * Value)) :
  map fst (reparseProps ps) = map fst ps.
Proof.
  unfold reparseProps. rewrite map_map. reflexivity.
Qed.

Lemma assoc_reparseProps (ps : list (string * Value)) (k : string) :
  assoc k (reparseProps ps) = option_map reparse (assoc k ps).
Proof.
  induction ps as [| [k1 v1] ps IH]; simpl; [reflexivity |].
  destruct (String.eqb k1 k); [reflexivity | exact IH].
Qed.

End PropFacts.

(* ================================================================== *)
(** * Registering a shortcut and resolving it *)

Lemma saveConfig_run (config : Config) (w : World) :
  writeFailure w = None -> saveConfig config w = (Returns tt, saved w config).
Proof.
  intros Hw. unfold saveConfig, tryCatch, writeFileSync, saved. now rewrite Hw.
Qed.

Lemma warned_writeFailure (w : World) : writeFailure (warned w) = writeFailure w.
Proof. apply warned_frame. Qed.

Lemma addCommand_stores (host : Host) (name url n u : string) (w : World)
      (ps : list (string * Value)) :
  validateShortcutName name = Ok n ->
  validateUrl host url = Ok u ->
  hasOwn BUILT_IN_SHORTCUTS n = false ->
  customShortcuts (readConfig (configFile w)) = VObj ps ->
  writeFailure w = None ->
  addCommand host name url w
  = (Returns tt,
     printed (saved (warned w)
                    (mkConfig (VObj (Js.assignProp ps n (VStr u)))
                              (settings (readConfig (configFile w)))))
             [Out (msg_added n u)]).
Proof.
  intros Hn Hu Hb Hcs Hw. unfold addCommand, tryCatch.
  unfold bind at 1. rewrite Hn. cbn [lift ret].
  unfold bind at 1. rewrite Hu. cbn [lift ret].
  rewrite Hb. unfold bind at 1. cbn [ret].
  rewrite (bind_run _ _ _ _ _ (loadConfig_run w)).
  rewrite Hcs. unfold Js.setProperty. cbn [lift]. unfold bind at 1. cbn [ret].
  rewrite (bind_run _ _ _ _ _ (saveConfig_run _ _ (eq_trans (warned_writeFailure w) Hw))).
  unfold console_log. rewrite emit_run. reflexivity.
Qed.

Lemma readConfig_saved (config : Config) (ps : list (string * Value)) :
  customShortcuts config = VObj ps ->
  customShortcuts (readConfig (Holds (JSON_stringify config)))
  = VObj (reparseProps ps).
Proof.
  intros Hcs. unfold JSON_stringify, configValue. rewrite Hcs.
  rewrite PropFacts.reparse_VObj. cbn [reparseProps map fst snd].
  rewrite PropFacts.reparse_VObj. reflexivity.
Qed.

Lemma getAllShortcuts_run (w : World) :
  getAllShortcuts w
  = (Returns (shortcutTable (customShortcuts (readConfig (configFile w)))), warned w).
Proof.
  unfold getAllShortcuts. now rewrite (bind_run _ _ _ _ _ (loadConfig_run w)).
Qed.

Lemma assoc_shortcutTable (v : Value) (k : string) :
  assoc k (shortcutTable v)
  = match assoc k (rev (Js.ownEntries v)) with
    | Some x => Some x
    | None => assoc k builtInProps
    end.
Proof.
  unfold shortcutTable, spread at 1. rewrite PropFacts.assoc_fold_defineProp.
  destruct (assoc k (rev (Js.ownEntries v))); [reflexivity |].
  unfold spread. rewrite PropFacts.assoc_fold_defineProp.
  cbn [Js.ownEntries assoc].
  rewrite PropFacts.assoc_rev_distinct;
    [destruct (assoc k builtInProps); reflexivity |].
  apply PropFacts.distinctb_NoDup. reflexivity.
Qed.

Lemma openCommand_not_found (shortcut n : string) (incognito : bool) (w : World) :
  shortcut <> EmptyString ->
  validateShortcutName shortcut = Ok n ->
  assoc n (shortcutTable (customShortcuts (readConfig (configFile w)))) = None ->
  openCommand shortcut incognito w = (Exits 1, printed (warned w) (notFoundLines shortcut)).
Proof.
  intros Hne Hn Hnone. unfold openCommand.
  apply String.eqb_neq in Hne. rewrite Hne.
  unfold tryCatch. unfold bind at 1. rewrite Hn. cbn [lift ret].
  rewrite (bind_run _ _ _ _ _ (getAllShortcuts_run w)), Hnone.
  unfold bind, console_error, console_log, process_exit.
  run_console.
  rewrite !printed_printed. reflexivity.
Qed.

(** Round trip, for every name but [__proto__]: when the loaded
    [customShortcuts] is an object with distinct keys and the file can be
    written, [add] stores the validated URL and the shortcut table has it
    under the validated name. *)
Lemma registered_shortcut_resolves (host : Host) (name url n u : string) (w w1 : World)
      (cfg : Config) (ps : list (string * Value)) :
  validateShortcutName name = Ok n ->
  hasOwn BUILT_IN_SHORTCUTS n = false ->
  validateUrl host url = Ok u ->
  loadConfig w = (Returns cfg, w1) ->
  customShortcuts cfg = VObj ps ->
  NoDup (map fst ps) ->
  writeFailure w = None ->
  n <> "__proto__" ->
  exists w' shortcuts w'',
    addCommand host name url w = (Returns tt, w') /\
    getAllShortcuts w' = (Returns shortcuts, w'') /\
    assoc n shortcuts = Some (VStr u).
Proof.
  intros Hn Hb Hu Hload Hcs Hnd Hw Hproto.
  apply loadConfig_inv in Hload as [-> ->].
  eexists. eexists. eexists.
  split; [exact (addCommand_stores host name url n u w ps Hn Hu Hb Hcs Hw) |].
  split; [apply getAllShortcuts_run |].
  cbn [printed saved configFile].
  rewrite (readConfig_saved
             (mkConfig (VObj (Js.assignProp ps n (VStr u)))
                       (settings (readConfig (configFile w))))
             (Js.assignProp ps n (VStr u)) eq_refl).
  rewrite assoc_shortcutTable. cbn [Js.ownEntries].
  rewrite PropFacts.assoc_rev_distinct
    by (rewrite PropFacts.keys_reparseProps; now apply PropFacts.distinct_assignProp).
  rewrite PropFacts.assoc_reparseProps, PropFacts.assoc_assignProp by (now left).
  now rewrite String.eqb_refl.
Qed.

(** [add blog https://example.com] with no configuration file, then
    [openapp "Blog "]: the canonical URL is opened. *)
Example registered_shortcut_opens :
  openCommand "Blog " false
    (snd (addCommand sampleHost "blog" "https://example.com" freshWorld))
  = (Returns tt,
     mkWorld (Holds (Json (VObj [("customShortcuts",
                                  VObj [("blog", VStr "https://example.com/")]);
                                 ("settings", VObj [("browser", VStr "default")])])))
             None
             [ Out (msg_added "blog" "https://example.com/"); Out "Opening blog..." ]
             [ (VStr "https://example.com/", mkOpenOptions None) ]
             None).
Proof. reflexivity. Qed.

(** C4 on the code: [__proto__] is a valid shortcut name and not a
    built-in key.  With a valid URL, a loaded [customShortcuts] object
    that has no own [__proto__] property and a writable file, [add]
    returns normally and prints that it added the shortcut, but the
    assignment reaches the setter that [Object.prototype] has for
    [__proto__], which ignores a string: the shortcut table read back has
    no such entry and the open command answers "not found". *)
Theorem proto_shortcut_not_stored (host : Host) (url u : string) (w w1 : World)
        (cfg : Config) (ps : list (string * Value)) :
  validateUrl host url = Ok u ->
  loadConfig w = (Returns cfg, w1) ->
  customShortcuts cfg = VObj ps ->
  hasOwn ps "__proto__" = false ->
  writeFailure w = None ->
  validateShortcutName "__proto__" = Ok "__proto__" /\
  hasOwn BUILT_IN_SHORTCUTS "__proto__" = false /\
  exists w',
    addCommand host "__proto__" url w = (Returns tt, w') /\
    console w' = (console w1 ++ [Out (msg_added "__proto__" u)])%list /\
    (exists shortcuts w'',
        getAllShortcuts w' = (Returns shortcuts, w'') /\
        assoc "__proto__" shortcuts = None) /\
    (forall incognito : bool,
        openCommand "__proto__" incognito w'
        = (Exits 1, printed w' (notFoundLines "__proto__"))).
Proof.
  intros Hu Hload Hcs Hown Hw.
  apply loadConfig_inv in Hload as [-> ->].
  split; [reflexivity |]. split; [reflexivity |].
  pose proof (addCommand_stores host "__proto__" url "__proto__" u w ps
                eq_refl Hu eq_refl Hcs Hw) as Hadd.
  rewrite (PropFacts.assignProp_proto ps (VStr u) Hown) in Hadd.
  eexists. split; [exact Hadd |].
  assert (Hnone :
    assoc "__proto__"
      (shortcutTable
         (customShortcuts
            (readConfig
               (configFile
                  (printed (saved (warned w)
                                  (mkConfig (VObj ps) (settings (readConfig (configFile w)))))
                           [Out (msg_added "__proto__" u)])))))
    = None).
  { cbn [printed saved configFile].
    rewrite (readConfig_saved (mkConfig (VObj ps) (settings (readConfig (configFile w))))
                              ps eq_refl), assoc_shortcutTable.
    cbn [Js.ownEntries].
    assert (E : assoc "__proto__" (rev (reparseProps ps)) = None).
    { apply PropFacts.assoc_None_keys.
      rewrite map_rev, <- in_rev, PropFacts.keys_reparseProps.
      now apply PropFacts.assoc_None_keys, PropFacts.hasOwn_false. }
    rewrite E. reflexivity. }
  split; [reflexivity |]. split.
  - eexists. eexists. split; [apply getAllShortcuts_run | exact Hnone].
  - intros incognito.
    rewrite (openCommand_not_found "__proto__" "__proto__" incognito _
               ltac:(discriminate) eq_refl Hnone).
    reflexivity.
Qed.

(** [add __proto__ https://example.com] with no configuration file. *)
Lemma proto_shortcut_not_stored_witness :
  exists w',
    addCommand sampleHost "__proto__" "https://example.com" freshWorld = (Returns tt, w') /\
    console w' = [Out (msg_added "__proto__" "https://example.com/")] /\
    (exists shortcuts w'',
        getAllShortcuts w' = (Returns shortcuts, w'') /\
        assoc "__proto__" shortcuts = None) /\
    (forall incognito : bool,
        openCommand "__proto__" incognito w'
        = (Exits 1, printed w' (notFoundLines "__proto__"))).
Proof.
  exact (proj2 (proj2 (proto_shortcut_not_stored sampleHost "https://example.com"
                         "https://example.com/" freshWorld freshWorld defaultConfig []
                         eq_refl eq_refl eq_refl eq_refl eq_refl))).
Defined.

(* ================================================================== *)
(** * Further properties: validators *)

Lemma nameChar_plain (c : ascii) :
  Str.isNameChar c = true -> Str.isWhiteSpace c = false /\ Str.lowerChar c = c.
Proof.
  destruct c as [[] [] [] [] [] [] [] []]; vm_compute; intros H;
    try discriminate H; split; reflexivity.
Qed.

Lemma allNameChars_plain (t : string) :
  Str.allNameChars t = true -> Str.noWhiteSpace t = true /\ Str.toLowerCase t = t.
Proof.
  induction t as [| c t IH]; simpl; [split; reflexivity |].
  intros H. apply andb_true_iff in H as [Hc Ht].
  destruct (nameChar_plain c Hc) as [Hw Hl]. destruct (IH Ht) as [IH1 IH2].
  rewrite Hw, Hl, IH1, IH2. split; reflexivity.
Qed.

Lemma trimEnd_noWhiteSpace (t : string) : Str.noWhiteSpace t = true -> Str.trimEnd t = t.
Proof.
  induction t as [| c t IH]; simpl; [reflexivity |].
  intros H. apply andb_true_iff in H as [Hc Ht]. rewrite (IH Ht).
  destruct t; [| reflexivity].
  destruct (Str.isWhiteSpace c); [discriminate | reflexivity].
Qed.

Lemma trim_noWhiteSpace (t : string) : Str.noWhiteSpace t = true -> Str.trim t = t.
Proof.
  intros H. unfold Str.trim.
  assert (E : Str.trimStart t = t).
  { destruct t as [| c t]; [reflexivity |]. simpl in *.
    destruct (Str.isWhiteSpace c); [discriminate | reflexivity]. }
  rewrite E. now apply trimEnd_noWhiteSpace.
Qed.

(** X1: a name [validateShortcutName] returns is a fixed point of it:
    validating the stored form again gives the same name, so the names in
    the configuration and on the command line compare as equal. *)
Theorem validateShortcutName_idempotent (s t : string) :
  validateShortcutName s = Ok t -> validateShortcutName t = Ok t.
Proof.
  intros H. apply validateShortcutName_Ok_iff in H as (E & Hm & Hr).
  apply validateShortcutName_Ok_iff. split; [| split; assumption].
  destruct Hm as [_ Hall]. apply StrFacts.allNameChars_spec in Hall.
  destruct (allNameChars_plain t Hall) as [Hw Hl].
  now rewrite (trim_noWhiteSpace t Hw), Hl.
Qed.

Lemma validateShortcutName_idempotent_witness :
  validateShortcutName "my_site-1" = Ok "my_site-1".
Proof.
  exact (validateShortcutName_idempotent "  My_Site-1 " "my_site-1" eq_refl).
Defined.

(** X2: whatever [validateUrl] returns is the serialization of a URL the
    parser produced from the trimmed input, with the scheme http or https;
    the input was not empty and held none of the markers.  So it never
    returns a URL of another scheme, and what it returns is the parser's
    text, which is the input as typed only when the input is already in
    the parser's form. *)
Theorem validateUrl_sound (host : Host) (s u : string) :
  validateUrl host s = Ok u ->
  s <> EmptyString /\
  (forall pat, In pat dangerousPatterns -> Str.test_i pat (Str.trim s) = false) /\
  exists url,
    parseURL host (Str.trim s) = Some url /\
    (protocol url = "http:" \/ protocol url = "https:") /\
    u = href url.
Proof.
  unfold validateUrl.
  destruct (String.eqb_spec s EmptyString) as [-> | Hs]; [discriminate |].
  destruct (existsb _ dangerousPatterns) eqn:Hex; [discriminate |].
  destruct (parseURL host (Str.trim s)) as [url |]; [| discriminate].
  destruct (String.eqb_spec (protocol url) "http:") as [E1 | E1];
    destruct (String.eqb_spec (protocol url) "https:") as [E2 | E2];
    cbn [negb andb]; intros [= <-];
    (split; [assumption |]);
    (split;
     [ intros pat Hin;
       destruct (Str.test_i pat (Str.trim s)) eqn:Ht; [| reflexivity];
       assert (existsb (fun pattern => Str.test_i pattern (Str.trim s)) dangerousPatterns
               = true) as Habs
         by (apply existsb_exists; exists pat; split; assumption);
       rewrite Habs in Hex; discriminate
     | exists url; split; [reflexivity |]; split; [tauto | reflexivity] ]).
Qed.

Lemma validateUrl_sound_witness :
  exists url,
    parseURL sampleHost (Str.trim "  https://Example.com/Path ") = Some url /\
    (protocol url = "http:" \/ protocol url = "https:") /\
    "https://example.com/Path" = href url.
Proof.
  exact (proj2 (proj2 (validateUrl_sound sampleHost "  https://Example.com/Path "
                         "https://example.com/Path" eq_refl))).
Defined.

Lemma hasOwn_BROWSERS (n : string) : hasOwn BROWSERS n = true <-> In n supportedBrowsers.
Proof.
  unfold hasOwn, BROWSERS, supportedBrowsers. cbn [assoc In].
  repeat match goal with
         | |- context [String.eqb ?a n] => destruct (String.eqb_spec a n); [subst; tauto |]
         end.
  split; [discriminate |]. intuition congruence.
Qed.

(** X3: [validateBrowser] accepts exactly the strings whose trimmed,
    lower-cased form is one of chrome, firefox, safari, edge, brave, opera
    and default, and returns that form; every other string is refused, the
    empty one as empty and the others with a message that quotes the input
    and lists the seven supported names. *)
Theorem validateBrowser_supported (b : string) :
  let n := Str.toLowerCase (Str.trim b) in
  (In n supportedBrowsers -> validateBrowser b = Ok n) /\
  (b = EmptyString -> validateBrowser b = Raise (newError msg_browser_empty)) /\
  (b <> EmptyString -> ~ In n supportedBrowsers ->
   validateBrowser b
   = Raise (newError ("Unsupported browser: " ++ Str.dq ++ b ++ Str.dq
                      ++ ". Supported browsers: "
                      ++ "chrome, firefox, safari, edge, brave, opera, default"))).
Proof.
  intros n. unfold validateBrowser. fold n.
  destruct (String.eqb_spec b EmptyString) as [-> | Hb].
  - split; [| split; [reflexivity | congruence]].
    intros Hin. exfalso. subst n. vm_compute in Hin. intuition discriminate.
  - destruct (hasOwn BROWSERS n) eqn:Hown; cbn [negb].
    + split; [reflexivity |]. split; [congruence |].
      intros _ Hn. exfalso. apply Hn. now apply hasOwn_BROWSERS.
    + split; [| split; [congruence | reflexivity]].
      intros Hin. apply hasOwn_BROWSERS in Hin. congruence.
Qed.

(** X4: a name [validateBrowser] returns never reaches the prototype of
    [BROWSERS]: looking it up gives the app identifier of the table, or
    nothing for [default]. *)
Theorem validated_browser_in_table (b n : string) :
  validateBrowser b = Ok n ->
  match BROWSERS_at n with
  | None => n = "default"
  | Some (NameString appId) => assoc n BROWSERS = Some (Some appId)
  | Some (NameInherited _) => False
  end.
Proof.
  unfold validateBrowser.
  destruct (String.eqb b EmptyString); [discriminate |].
  destruct (hasOwn BROWSERS (Str.toLowerCase (Str.trim b))) eqn:Hown; [| discriminate].
  cbn [negb]. intros [= <-].
  apply hasOwn_BROWSERS in Hown. unfold supportedBrowsers in Hown. cbn [In] in Hown.
  destruct Hown as [<- | [<- | [<- | [<- | [<- | [<- | [<- | []]]]]]]]; reflexivity.
Qed.

Lemma validated_browser_in_table_witness :
  assoc "edge" BROWSERS = Some (Some "msedge").
Proof.
  exact (validated_browser_in_table " Edge" "edge" eq_refl).
Defined.

(* ================================================================== *)
(** * Further properties: saving and loading *)

Lemma reparseProps_StringValued (ps : list (string * Value)) :
  StringValued ps -> reparseProps ps = ps.
Proof.
  unfold StringValued, reparseProps.
  induction 1 as [| [k v] ps [text Hv] _ IH]; cbn [map fst snd] in *; [reflexivity |].
  subst v. now rewrite IH.
Qed.

Lemma readConfig_saved_object (config : Config) (ps : list (string * Value)) :
  customShortcuts config = VObj ps ->
  readConfig (Holds (JSON_stringify config))
  = mkConfig (VObj (reparseProps ps))
             (mkSettings (Js.orElse (Some (Js.reparse (browser (settings config))))
                                    (VStr "default"))).
Proof.
  intros Hcs. unfold JSON_stringify, configValue. rewrite Hcs.
  rewrite PropFacts.reparse_VObj. cbn [reparseProps map fst snd].
  rewrite !PropFacts.reparse_VObj. reflexivity.
Qed.

Lemma warned_saved (w : World) (config : Config) : warned (saved w config) = saved w config.
Proof.
  unfold warned, saved, JSON_stringify, configValue. cbn [configFile].
  rewrite PropFacts.reparse_VObj. reflexivity.
Qed.

Lemma loadConfig_saved (w : World) (config : Config) :
  loadConfig (saved w config)
  = (Returns (readConfig (Holds (JSON_stringify config))), saved w config).
Proof.
  rewrite loadConfig_run, warned_saved. reflexivity.
Qed.

(** X5: a configuration of the shape the program writes, string-valued
    custom shortcuts and a non-empty browser string, comes back from
    [loadConfig] exactly as [saveConfig] stored it, without a warning. *)
Theorem saveConfig_then_loadConfig (w : World) (ps : list (string * Value)) (b : string) :
  writeFailure w = None ->
  StringValued ps ->
  b <> EmptyString ->
  exists w',
    saveConfig (mkConfig (VObj ps) (mkSettings (VStr b))) w = (Returns tt, w') /\
    loadConfig w' = (Returns (mkConfig (VObj ps) (mkSettings (VStr b))), w') /\
    console w' = console w.
Proof.
  intros Hw Hs Hb.
  exists (saved w (mkConfig (VObj ps) (mkSettings (VStr b)))).
  split; [now apply saveConfig_run |]. split; [| reflexivity].
  rewrite loadConfig_saved,
    (readConfig_saved_object (mkConfig (VObj ps) (mkSettings (VStr b))) ps eq_refl).
  rewrite (reparseProps_StringValued ps Hs).
  cbn [settings browser Js.reparse Js.orElse Js.truthy].
  apply String.eqb_neq in Hb. now rewrite Hb.
Qed.

Lemma saveConfig_then_loadConfig_witness :
  exists w',
    saveConfig (mkConfig (VObj [("blog", VStr "https://example.com/")])
                         (mkSettings (VStr "firefox")))
               (mkWorld (Holds NotJson) None [] [] None)
    = (Returns tt, w') /\
    loadConfig w'
    = (Returns (mkConfig (VObj [("blog", VStr "https://example.com/")])
                         (mkSettings (VStr "firefox"))), w') /\
    console w' = [].
Proof.
  refine (saveConfig_then_loadConfig (mkWorld (Holds NotJson) None [] [] None)
            [("blog", VStr "https://example.com/")] "firefox" eq_refl _ _).
  - repeat constructor. now exists "https://example.com/".
  - discriminate.
Defined.

Lemma saveConfig_fails (w : World) (config : Config) (f : WriteFailure) :
  writeFailure w = Some f ->
  saveConfig config w
  = (Throws (newError ("Could not save config: " ++ failureReason f)), unsaved w f).
Proof.
  intros Hw. destruct w as [file failure lines calls rejection].
  cbn [writeFailure] in Hw. subst failure.
  unfold saveConfig, tryCatch, writeFileSync. destruct f; reflexivity.
Qed.

Lemma configResetCommand_fails (w : World) (f : WriteFailure) :
  writeFailure w = Some f ->
  configResetCommand w
  = (Exits 1, printed (unsaved w f) [Err (msg_save_failed (failureReason f))]).
Proof.
  intros Hw. unfold configResetCommand, tryCatch, bind.
  now rewrite (saveConfig_fails w defaultConfig f Hw).
Qed.

Lemma unsaved_kept_or_damaged (w : World) (f : WriteFailure) (lines : list Line) :
  writeFailure w = Some f ->
  configFile (printed (unsaved w f) lines) = configFile w
  \/ Damaged w (printed (unsaved w f) lines).
Proof.
  intros Hw. destruct f as [reason | reason remains]; [left; reflexivity |].
  right. exists reason, remains. split; [assumption | reflexivity].
Qed.

Lemma unsaved_warned_kept_or_damaged (w : World) (f : WriteFailure) (lines : list Line) :
  writeFailure w = Some f ->
  configFile (printed (unsaved (warned w) f) lines) = configFile w
  \/ Damaged w (printed (unsaved (warned w) f) lines).
Proof.
  intros Hw. destruct f as [reason | reason remains].
  - left. apply warned_configFile.
  - right. exists reason, remains. split; [assumption | reflexivity].
Qed.

Lemma configResetCommand_ok (w : World) :
  writeFailure w = None ->
  configResetCommand w
  = (Returns tt, printed (saved w defaultConfig) [Out "Configuration reset to defaults."]).
Proof.
  intros Hw. unfold configResetCommand, tryCatch.
  rewrite (bind_run _ _ _ _ _ (saveConfig_run defaultConfig w Hw)).
  unfold console_log. now rewrite emit_run.
Qed.

(** X6: a failed write surfaces, and what it does to the file depends
    on where it failed.  When the file cannot be written, [saveConfig]
    throws the error [Could not save config: <reason>], and [config reset]
    prints that error and exits with status 1.  The file is as it was
    when it could not be opened; when the write failed after the file was
    opened, the old content is lost and the file holds what the failed
    write left. *)
Theorem saveConfig_failure_surfaces (w : World) (config : Config) (f : WriteFailure) :
  writeFailure w = Some f ->
  (exists w',
     saveConfig config w
     = (Throws (newError ("Could not save config: " ++ failureReason f)), w') /\
     configResetCommand w
     = (Exits 1, printed w' [Err ("Error: Could not save config: " ++ failureReason f)]) /\
     console w' = console w /\ opened w' = opened w /\
     configFile w' = match f with
                     | CannotOpen _ => configFile w
                     | FailsAfterOpen _ remains => Holds remains
                     end).
Proof.
  intros Hw. exists (unsaved w f). split; [| split].
  - now apply saveConfig_fails.
  - now apply configResetCommand_fails.
  - destruct f; repeat split; reflexivity.
Qed.

(** A disk that fills up while the file is written: the shortcut [blog]
    the file held is gone. *)
Lemma saveConfig_failure_surfaces_witness :
  exists w',
    saveConfig defaultConfig fullDiskWorld
    = (Throws (newError "Could not save config: ENOSPC: no space left on device"), w') /\
    configResetCommand fullDiskWorld
    = (Exits 1, printed w' [Err "Error: Could not save config: ENOSPC: no space left on device"]) /\
    console w' = [] /\ opened w' = [] /\ configFile w' = Holds NotJson.
Proof.
  exact (saveConfig_failure_surfaces fullDiskWorld defaultConfig
           (FailsAfterOpen "ENOSPC: no space left on device" NotJson) eq_refl).
Defined.

(** X7: after [config reset] on a writable file, whatever the file held
    before (nothing, text that is not JSON, any document), [loadConfig]
    returns the default configuration and prints no warning. *)
Theorem configReset_then_loadConfig (w : World) :
  writeFailure w = None ->
  exists w',
    configResetCommand w = (Returns tt, w') /\
    console w' = (console w ++ [Out "Configuration reset to defaults."])%list /\
    loadConfig w' = (Returns defaultConfig, w').
Proof.
  intros Hw.
  exists (printed (saved w defaultConfig) [Out "Configuration reset to defaults."]).
  split; [now apply configResetCommand_ok |].
  split; [reflexivity |]. now rewrite loadConfig_run.
Qed.

Lemma configReset_then_loadConfig_witness :
  exists w',
    configResetCommand (mkWorld (Holds NotJson) None [] [] None) = (Returns tt, w') /\
    console w' = [Out "Configuration reset to defaults."] /\
    loadConfig w' = (Returns defaultConfig, w').
Proof.
  exact (configReset_then_loadConfig (mkWorld (Holds NotJson) None [] [] None) eq_refl).
Defined.

Lemma supported_not_empty (n : string) : In n supportedBrowsers -> n <> EmptyString.
Proof.
  unfold supportedBrowsers. cbn [In]. intuition (subst; discriminate).
Qed.

Lemma validateBrowser_Ok (b n : string) :
  validateBrowser b = Ok n -> In n supportedBrowsers.
Proof.
  unfold validateBrowser.
  destruct (String.eqb b EmptyString); [discriminate |].
  destruct (hasOwn BROWSERS (Str.toLowerCase (Str.trim b))) eqn:Hown; [| discriminate].
  cbn [negb]. intros [= <-]. now apply hasOwn_BROWSERS.
Qed.

(** X8: [config browser <b>] with a supported name stores the normalized
    name and keeps the custom shortcuts: the next [loadConfig] returns the
    same string-valued shortcuts with the new browser setting. *)
Theorem configBrowser_then_loadConfig (b n : string) (w : World)
        (ps : list (string * Value)) :
  validateBrowser b = Ok n ->
  writeFailure w = None ->
  customShortcuts (readConfig (configFile w)) = VObj ps ->
  StringValued ps ->
  exists w',
    configBrowserCommand b w = (Returns tt, w') /\
    fst (loadConfig w') = Returns (mkConfig (VObj ps) (mkSettings (VStr n))) /\
    console (snd (loadConfig w')) = console w'.
Proof.
  intros Hb Hw Hcs Hs.
  pose proof (supported_not_empty n (validateBrowser_Ok b n Hb)) as Hne.
  set (cfg := mkConfig (customShortcuts (readConfig (configFile w))) (mkSettings (VStr n))).
  set (line := if String.eqb n "default"
               then "Default browser set to: system default"
               else "Default browser set to: " ++ n).
  exists (printed (saved (warned w) cfg) [Out line]).
  assert (Hrun : configBrowserCommand b w
                 = (Returns tt, printed (saved (warned w) cfg) [Out line])).
  { unfold configBrowserCommand, tryCatch. unfold bind at 1. rewrite Hb. cbn [lift ret].
    rewrite (bind_run _ _ _ _ _ (loadConfig_run w)).
    rewrite (bind_run _ _ _ _ _
               (saveConfig_run _ _ (eq_trans (warned_writeFailure w) Hw))).
    fold cfg. unfold line, console_log.
    destruct (String.eqb n "default"); now rewrite emit_run. }
  split; [exact Hrun |].
  rewrite loadConfig_run. cbn [fst snd printed saved configFile].
  assert (Hrc : readConfig (Holds (JSON_stringify cfg))
                = mkConfig (VObj ps) (mkSettings (VStr n))).
  { rewrite (readConfig_saved_object cfg ps Hcs), (reparseProps_StringValued ps Hs).
    unfold cfg. cbn [settings browser Js.reparse Js.orElse Js.truthy].
    apply String.eqb_neq in Hne. now rewrite Hne. }
  split; [now rewrite Hrc |].
  unfold warned. cbn [configFile printed saved]. unfold JSON_stringify, configValue.
  rewrite PropFacts.reparse_VObj. reflexivity.
Qed.

Lemma configBrowser_then_loadConfig_witness :
  exists w',
    configBrowserCommand " Firefox" (worldWith [("blog", VStr "https://example.com/")] "chrome")
    = (Returns tt, w') /\
    fst (loadConfig w')
    = Returns (mkConfig (VObj [("blog", VStr "https://example.com/")])
                        (mkSettings (VStr "firefox"))) /\
    console (snd (loadConfig w')) = console w'.
Proof.
  refine (configBrowser_then_loadConfig " Firefox" "firefox"
            (worldWith [("blog", VStr "https://example.com/")] "chrome")
            [("blog", VStr "https://example.com/")] eq_refl eq_refl eq_refl _).
  repeat constructor. now exists "https://example.com/".
Defined.

(* ================================================================== *)
(** * Further properties: adding and removing shortcuts *)


(** [add] past the validations and the built-in test. *)
Lemma addCommand_valid (host : Host) (name url n u : string) (w : World) :
  validateShortcutName name = Ok n ->
  validateUrl host url = Ok u ->
  hasOwn BUILT_IN_SHORTCUTS n = false ->
  addCommand host name url w
  = match Js.setProperty host (customShortcuts (readConfig (configFile w))) n u with
    | Raise e => (Exits 1, printed (warned w) [Err ("Error: " ++ message e)])
    | Ok shortcuts =>
        match writeFailure w with
        | None =>
            (Returns tt,
             printed (saved (warned w)
                            (mkConfig shortcuts (settings (readConfig (configFile w)))))
                     [Out (msg_added n u)])
        | Some f =>
            (Exits 1, printed (unsaved (warned w) f) [Err (msg_save_failed (failureReason f))])
        end
    end.
Proof.
  intros Hn Hu Hb. unfold addCommand, tryCatch.
  unfold bind at 1. rewrite Hn. cbn [lift ret].
  unfold bind at 1. rewrite Hu. cbn [lift ret].
  rewrite Hb. unfold bind at 1. cbn [ret].
  rewrite (bind_run _ _ _ _ _ (loadConfig_run w)).
  unfold bind at 1.
  destruct (Js.setProperty host _ n u) as [shortcuts | e]; cbn [lift ret throw];
    [| reflexivity].
  destruct (writeFailure w) as [f |] eqn:Hw.
  - pose proof (saveConfig_fails (warned w)
                (mkConfig shortcuts (settings (readConfig (configFile w)))) f
                (eq_trans (warned_writeFailure w) Hw)) as E.
    unfold bind. rewrite E. reflexivity.
  - rewrite (bind_run _ _ _ _ _
               (saveConfig_run _ _ (eq_trans (warned_writeFailure w) Hw))).
    unfold console_log. now rewrite emit_run.
Qed.

(** [remove] past the validation and the built-in test. *)
Lemma removeCommand_valid (name n : string) (w : World) :
  validateShortcutName name = Ok n ->
  hasOwn BUILT_IN_SHORTCUTS n = false ->
  removeCommand name w
  = match Js.hasOwnProperty (customShortcuts (readConfig (configFile w))) n with
    | Raise e => (Exits 1, printed (warned w) [Err ("Error: " ++ message e)])
    | Ok false => (Exits 1, printed (warned w) [Err (msg_custom_not_found n)])
    | Ok true =>
        match Js.deleteProperty (customShortcuts (readConfig (configFile w))) n with
        | Raise e => (Exits 1, printed (warned w) [Err ("Error: " ++ message e)])
        | Ok shortcuts =>
            match writeFailure w with
            | None =>
                (Returns tt,
                 printed (saved (warned w)
                                (mkConfig shortcuts (settings (readConfig (configFile w)))))
                         [Out (msg_removed n)])
            | Some f =>
                (Exits 1,
                 printed (unsaved (warned w) f) [Err (msg_save_failed (failureReason f))])
            end
        end
    end.
Proof.
  intros Hn Hb. unfold removeCommand, tryCatch.
  unfold bind at 1. rewrite Hn. cbn [lift ret].
  rewrite Hb. unfold bind at 1. cbn [ret].
  rewrite (bind_run _ _ _ _ _ (loadConfig_run w)).
  unfold bind at 1.
  destruct (Js.hasOwnProperty _ n) as [[|] | e]; cbn [lift ret throw negb];
    [| unfold bind, console_error; rewrite emit_run; reflexivity | reflexivity].
  unfold bind at 1. cbn [ret]. unfold bind at 1.
  destruct (Js.deleteProperty _ n) as [shortcuts | e]; cbn [lift ret throw];
    [| reflexivity].
  destruct (writeFailure w) as [f |] eqn:Hw.
  - pose proof (saveConfig_fails (warned w)
                (mkConfig shortcuts (settings (readConfig (configFile w)))) f
                (eq_trans (warned_writeFailure w) Hw)) as E.
    unfold bind. rewrite E. reflexivity.
  - rewrite (bind_run _ _ _ _ _
               (saveConfig_run _ _ (eq_trans (warned_writeFailure w) Hw))).
    unfold console_log. now rewrite emit_run.
Qed.

Lemma printed_warned_configFile (w : World) (lines : list Line) :
  configFile (printed (warned w) lines) = configFile w.
Proof. apply warned_configFile. Qed.


Lemma removeCommand_bad_name (name : string) (e : Thrown) (w : World) :
  validateShortcutName name = Raise e ->
  removeCommand name w = (Exits 1, printed w [Err ("Error: " ++ message e)]).
Proof.
  intros Hn. unfold removeCommand, tryCatch, bind. now rewrite Hn.
Qed.

(** X10: [remove], [config browser] and [config reset] never throw, and
    when they end by [process.exit] the status is 1.  The file is then as
    it was, with one exception: the command got as far as writing it
    ([remove] after it found the shortcut among the custom ones, [config
    browser] after it accepted the name, [config reset] always) and the
    write failed after the file had been opened.  Then the file holds
    what that write left, and the shortcuts it had are lost: so it is for
    every [config reset] in such a world. *)
Theorem failed_command_exit (name browserArg : string) (w : World) :
  (match removeCommand name w with
   | (Returns _, _) => True
   | (Throws _, _) => False
   | (Exits status, w') =>
       status = 1%Z /\
       (configFile w' = configFile w \/
        Damaged w w' /\
        exists n,
          validateShortcutName name = Ok n /\ hasOwn BUILT_IN_SHORTCUTS n = false /\
          Js.hasOwnProperty (customShortcuts (readConfig (configFile w))) n = Ok true)
   end) /\
  (match configBrowserCommand browserArg w with
   | (Returns _, _) => True
   | (Throws _, _) => False
   | (Exits status, w') =>
       status = 1%Z /\
       (configFile w' = configFile w \/
        Damaged w w' /\ exists b, validateBrowser browserArg = Ok b)
   end) /\
  (match configResetCommand w with
   | (Returns _, _) => True
   | (Throws _, _) => False
   | (Exits status, w') =>
       status = 1%Z /\ (configFile w' = configFile w \/ Damaged w w')
   end) /\
  (forall reason remains,
     writeFailure w = Some (FailsAfterOpen reason remains) ->
     configResetCommand w
     = (Exits 1,
        mkWorld (Holds remains) (writeFailure w)
                (console w ++ [Err (msg_save_failed reason)]) (opened w) (openFailure w))).
Proof.
  split; [| split; [| split]].
  - destruct (validateShortcutName name) as [n | e] eqn:Hn.
    2: { rewrite (removeCommand_bad_name name e w Hn).
         split; [reflexivity | left; reflexivity]. }
    destruct (hasOwn BUILT_IN_SHORTCUTS n) eqn:Hb.
    { rewrite (removeCommand_builtin name n w Hn Hb).
      split; [reflexivity | left; reflexivity]. }
    rewrite (removeCommand_valid name n w Hn Hb).
    destruct (Js.hasOwnProperty _ n) as [[|] | e] eqn:Hown;
      try (split; [reflexivity | left; apply printed_warned_configFile]).
    destruct (Js.deleteProperty _ n) as [shortcuts | e];
      try (split; [reflexivity | left; apply printed_warned_configFile]).
    destruct (writeFailure w) as [f |] eqn:Hw; [| exact I].
    split; [reflexivity |].
    destruct (unsaved_warned_kept_or_damaged w f
                [Err (msg_save_failed (failureReason f))] Hw) as [H | H];
      [left; exact H | right].
    split; [exact H |]. exists n. repeat split; assumption.
  - unfold configBrowserCommand, tryCatch. unfold bind at 1.
    destruct (validateBrowser browserArg) as [n | e] eqn:Hv; cbn [lift ret throw].
    2: { split; [reflexivity | left; reflexivity]. }
    rewrite (bind_run _ _ _ _ _ (loadConfig_run w)).
    destruct (writeFailure w) as [f |] eqn:Hw.
    + pose proof (saveConfig_fails (warned w)
                  (mkConfig (customShortcuts (readConfig (configFile w)))
                            (mkSettings (VStr n))) f
                  (eq_trans (warned_writeFailure w) Hw)) as E.
      unfold bind. rewrite E.
      split; [reflexivity |].
      destruct (unsaved_warned_kept_or_damaged w f
                  [Err ("Error: " ++ message (newError ("Could not save config: "
                                                         ++ failureReason f)))] Hw)
        as [H | H]; [left; exact H | right].
      split; [exact H |]. now exists n.
    + rewrite (bind_run _ _ _ _ _
                 (saveConfig_run _ _ (eq_trans (warned_writeFailure w) Hw))).
      unfold console_log. destruct (String.eqb n "default"); rewrite emit_run; exact I.
  - destruct (writeFailure w) as [f |] eqn:Hw.
    + rewrite (configResetCommand_fails w f Hw).
      split; [reflexivity | now apply unsaved_kept_or_damaged].
    + now rewrite (configResetCommand_ok w Hw).
  - intros reason remains Hw.
    now rewrite (configResetCommand_fails w _ Hw).
Qed.

Lemma StringValued_replaceProp (ps : list (string * Value)) (k x : string) :
  StringValued ps -> StringValued (Js.replaceProp ps k (VStr x)).
Proof.
  unfold StringValued. induction 1 as [| [k1 v1] ps Hv Hall IH]; cbn [Js.replaceProp].
  - constructor.
  - destruct (String.eqb k1 k); constructor; try assumption. now exists x.
Qed.

Lemma StringValued_assignProp (ps : list (string * Value)) (k x : string) :
  StringValued ps -> StringValued (Js.assignProp ps k (VStr x)).
Proof.
  intros Hs. unfold Js.assignProp.
  destruct (hasOwn ps k); [now apply StringValued_replaceProp |].
  destruct (String.eqb k "__proto__"); [assumption |].
  unfold StringValued.
  apply (Permutation_Forall (Permutation_sym (PropFacts.createProp_perm ps k (VStr x)))).
  constructor; [now exists x | assumption].
Qed.

Lemma StringValued_removeProp (ps : list (string * Value)) (k : string) :
  StringValued ps -> StringValued (Js.removeProp ps k).
Proof.
  unfold StringValued. induction 1 as [| [k1 v1] ps Hv Hall IH]; cbn [Js.removeProp].
  - constructor.
  - destruct (String.eqb k1 k); [assumption | now constructor].
Qed.

Lemma length_replaceProp (ps : list (string * Value)) (k : string) (x : Value) :
  List.length (Js.replaceProp ps k x) = List.length ps.
Proof.
  induction ps as [| [k1 v1] ps IH]; cbn [Js.replaceProp]; [reflexivity |].
  destruct (String.eqb k1 k); simpl; [reflexivity | now rewrite IH].
Qed.

Lemma length_assignProp (ps : list (string * Value)) (k : string) (x : Value) :
  k <> "__proto__" ->
  List.length (Js.assignProp ps k x)
  = if hasOwn ps k then List.length ps else S (List.length ps).
Proof.
  intros Hk. unfold Js.assignProp. destruct (hasOwn ps k).
  - apply length_replaceProp.
  - apply String.eqb_neq in Hk. rewrite Hk.
    exact (Permutation_length (PropFacts.createProp_perm ps k x)).
Qed.

Lemma removeProp_insertIndexProp (ps : list (string * Value)) (i : nat) (k : string)
      (x : Value) :
  assoc k ps = None -> Js.removeProp (Js.insertIndexProp ps i k x) k = ps.
Proof.
  induction ps as [| [k1 v1] ps IH]; cbn [Js.insertIndexProp assoc].
  - intros _. cbn [Js.removeProp]. now rewrite String.eqb_refl.
  - destruct (String.eqb k1 k) eqn:E; [discriminate |]. intros Hnone.
    destruct (Js.arrayIndex k1) as [j |].
    + destruct (i <? j)%nat; cbn [Js.removeProp].
      * now rewrite String.eqb_refl.
      * rewrite E. now rewrite (IH Hnone).
    + cbn [Js.removeProp]. now rewrite String.eqb_refl.
Qed.

Lemma removeProp_app_single (ps : list (string * Value)) (k : string) (x : Value) :
  assoc k ps = None -> Js.removeProp (ps ++ [(k, x)]) k = ps.
Proof.
  induction ps as [| [k1 v1] ps IH]; cbn [List.app Js.removeProp assoc].
  - intros _. now rewrite String.eqb_refl.
  - destruct (String.eqb k1 k); [discriminate |]. intros Hnone. now rewrite (IH Hnone).
Qed.

Lemma removeProp_assignProp (ps : list (string * Value)) (k : string) (x : Value) :
  assoc k ps = None -> k <> "__proto__" -> Js.removeProp (Js.assignProp ps k x) k = ps.
Proof.
  intros Hnone Hk. unfold Js.assignProp, hasOwn. rewrite Hnone.
  apply String.eqb_neq in Hk. rewrite Hk. unfold Js.createProp.
  destruct (Js.arrayIndex k).
  - now apply removeProp_insertIndexProp.
  - now apply removeProp_app_single.
Qed.

Lemma assoc_removeProp (ps : list (string * Value)) (n k : string) :
  NoDup (map fst ps) ->
  assoc k (Js.removeProp ps n) = if String.eqb n k then None else assoc k ps.
Proof.
  induction ps as [| [k1 v1] ps IH]; cbn [Js.removeProp assoc map fst].
  - intros _. now destruct (String.eqb n k).
  - intros Hnd. inversion Hnd as [| ? ? Hnotin Hnd']; subst.
    destruct (String.eqb k1 n) eqn:E1.
    + apply String.eqb_eq in E1. subst k1.
      destruct (String.eqb n k) eqn:E2; [| reflexivity].
      apply String.eqb_eq in E2. subst k.
      now apply PropFacts.assoc_None_keys.
    + cbn [assoc]. rewrite (IH Hnd').
      destruct (String.eqb k1 k) eqn:E2; [| reflexivity].
      apply String.eqb_eq in E2. subst k.
      rewrite String.eqb_sym in E1. now rewrite E1.
Qed.

Lemma length_removeProp (ps : list (string * Value)) (n : string) :
  hasOwn ps n = true -> S (List.length (Js.removeProp ps n)) = List.length ps.
Proof.
  unfold hasOwn. induction ps as [| [k1 v1] ps IH]; cbn [Js.removeProp assoc].
  - discriminate.
  - destruct (String.eqb k1 n); [reflexivity |]. intros H. simpl. now rewrite (IH H).
Qed.

Lemma truthy_VStr (b : string) : Js.truthy (VStr b) = true -> b <> EmptyString.
Proof.
  cbn [Js.truthy]. intros H ->. discriminate H.
Qed.

(** The configuration read back after a save, for string-valued custom
    shortcuts and a string browser setting. *)
Lemma readConfig_saved_strings (shortcuts : list (string * Value)) (b : string) :
  StringValued shortcuts ->
  b <> EmptyString ->
  readConfig (Holds (JSON_stringify (mkConfig (VObj shortcuts) (mkSettings (VStr b)))))
  = mkConfig (VObj shortcuts) (mkSettings (VStr b)).
Proof.
  intros Hs Hb.
  rewrite (readConfig_saved_object (mkConfig (VObj shortcuts) (mkSettings (VStr b)))
                                   shortcuts eq_refl).
  rewrite (reparseProps_StringValued shortcuts Hs).
  cbn [settings browser Js.reparse Js.orElse Js.truthy].
  apply String.eqb_neq in Hb. now rewrite Hb.
Qed.

(** X11: [add] changes one entry.  On a document with string-valued
    custom shortcuts and a string browser setting, adding a valid name
    other than [__proto__] stores the validated URL under the validated
    name, leaves every other custom shortcut and the browser setting as
    they were, and makes the table one entry longer unless the name was
    there already. *)
Theorem add_changes_one_entry (host : Host) (name url n u b : string) (w : World)
        (ps : list (string * Value)) :
  validateShortcutName name = Ok n ->
  hasOwn BUILT_IN_SHORTCUTS n = false ->
  validateUrl host url = Ok u ->
  readConfig (configFile w) = mkConfig (VObj ps) (mkSettings (VStr b)) ->
  StringValued ps ->
  writeFailure w = None ->
  n <> "__proto__" ->
  exists w' ps',
    addCommand host name url w = (Returns tt, w') /\
    readConfig (configFile w') = mkConfig (VObj ps') (mkSettings (VStr b)) /\
    assoc n ps' = Some (VStr u) /\
    (forall k, k <> n -> assoc k ps' = assoc k ps) /\
    List.length ps' = (if hasOwn ps n then List.length ps else S (List.length ps)).
Proof.
  intros Hn Hb Hu Hrc Hs Hw Hproto.
  assert (Hne : b <> EmptyString).
  { apply truthy_VStr. pose proof (readConfig_truthy (configFile w)) as [_ Ht].
    now rewrite Hrc in Ht. }
  exists (printed (saved (warned w) (mkConfig (VObj (Js.assignProp ps n (VStr u)))
                                             (mkSettings (VStr b))))
                  [Out (msg_added n u)]),
         (Js.assignProp ps n (VStr u)).
  split.
  - rewrite (addCommand_valid host name url n u w Hn Hu Hb), Hrc.
    cbn [customShortcuts settings Js.setProperty]. now rewrite Hw.
  - split.
    + cbn [printed saved configFile].
      apply readConfig_saved_strings; [now apply StringValued_assignProp | assumption].
    + split; [| split].
      * rewrite PropFacts.assoc_assignProp by (now left). now rewrite String.eqb_refl.
      * intros k Hk. rewrite PropFacts.assoc_assignProp by (now left).
        apply not_eq_sym, String.eqb_neq in Hk. now rewrite Hk.
      * now apply length_assignProp.
Qed.

Lemma add_changes_one_entry_witness :
  exists w' ps',
    addCommand sampleHost "Docs2" "https://example.com"
               (worldWith [("blog", VStr "https://evil.example/")] "firefox")
    = (Returns tt, w') /\
    readConfig (configFile w') = mkConfig (VObj ps') (mkSettings (VStr "firefox")) /\
    assoc "docs2" ps' = Some (VStr "https://example.com/") /\
    (forall k, k <> "docs2" ->
               assoc k ps' = assoc k [("blog", VStr "https://evil.example/")]) /\
    List.length ps' = 2.
Proof.
  refine (add_changes_one_entry sampleHost "Docs2" "https://example.com" "docs2"
            "https://example.com/" "firefox"
            (worldWith [("blog", VStr "https://evil.example/")] "firefox")
            [("blog", VStr "https://evil.example/")]
            eq_refl eq_refl eq_refl eq_refl _ eq_refl _).
  - repeat constructor. now exists "https://evil.example/".
  - discriminate.
Defined.

Lemma warned_printed_saved (w : World) (config : Config) (lines : list Line) :
  warned (printed (saved w config) lines) = printed (saved w config) lines.
Proof.
  unfold warned. cbn [configFile printed saved]. unfold JSON_stringify, configValue.
  rewrite PropFacts.reparse_VObj. reflexivity.
Qed.

Lemma assoc_builtInProps (k : string) :
  assoc k builtInProps = option_map VStr (assoc k BUILT_IN_SHORTCUTS).
Proof.
  unfold builtInProps.
  induction BUILT_IN_SHORTCUTS as [| [k1 v1] l IH]; cbn [map assoc fst snd];
    [reflexivity |].
  destruct (String.eqb k1 k); [reflexivity | exact IH].
Qed.

Lemma validateShortcutName_not_empty (name n : string) :
  validateShortcutName name = Ok n -> name <> EmptyString.
Proof.
  intros H ->. discriminate H.
Qed.

(** [remove] when the custom shortcuts are an object that has the name and
    the file can be written. *)
Lemma removeCommand_stores (name n : string) (w : World) (ps : list (string * Value)) :
  validateShortcutName name = Ok n ->
  hasOwn BUILT_IN_SHORTCUTS n = false ->
  customShortcuts (readConfig (configFile w)) = VObj ps ->
  hasOwn ps n = true ->
  writeFailure w = None ->
  removeCommand name w
  = (Returns tt,
     printed (saved (warned w)
                    (mkConfig (VObj (Js.removeProp ps n))
                              (settings (readConfig (configFile w)))))
             [Out (msg_removed n)]).
Proof.
  intros Hn Hb Hcs Hown Hw.
  rewrite (removeCommand_valid name n w Hn Hb), Hcs.
  cbn [Js.hasOwnProperty Js.deleteProperty]. now rewrite Hown, Hw.
Qed.

(** X12: [add] followed by [remove] of the same name gives back the
    configuration there was: for a valid name that is not built-in, not
    [__proto__] and not among the string-valued custom shortcuts, both
    commands return normally and the configuration read afterwards is the
    one read before. *)
Theorem add_then_remove_restores (host : Host) (name url n u b : string) (w : World)
        (ps : list (string * Value)) :
  validateShortcutName name = Ok n ->
  hasOwn BUILT_IN_SHORTCUTS n = false ->
  validateUrl host url = Ok u ->
  readConfig (configFile w) = mkConfig (VObj ps) (mkSettings (VStr b)) ->
  StringValued ps ->
  assoc n ps = None ->
  writeFailure w = None ->
  n <> "__proto__" ->
  exists w1 w2,
    addCommand host name url w = (Returns tt, w1) /\
    removeCommand name w1 = (Returns tt, w2) /\
    readConfig (configFile w2) = readConfig (configFile w).
Proof.
  intros Hn Hb Hu Hrc Hs Hnone Hw Hproto.
  assert (Hne : b <> EmptyString).
  { apply truthy_VStr. pose proof (readConfig_truthy (configFile w)) as [_ Ht].
    now rewrite Hrc in Ht. }
  set (ps1 := Js.assignProp ps n (VStr u)).
  set (w1 := printed (saved (warned w) (mkConfig (VObj ps1) (mkSettings (VStr b))))
                     [Out (msg_added n u)]).
  assert (Hadd : addCommand host name url w = (Returns tt, w1)).
  { rewrite (addCommand_valid host name url n u w Hn Hu Hb), Hrc.
    cbn [customShortcuts settings Js.setProperty]. now rewrite Hw. }
  assert (Hrc1 : readConfig (configFile w1) = mkConfig (VObj ps1) (mkSettings (VStr b))).
  { unfold w1. cbn [printed saved configFile].
    apply readConfig_saved_strings; [now apply StringValued_assignProp | assumption]. }
  assert (Hown1 : hasOwn ps1 n = true).
  { unfold hasOwn, ps1. rewrite PropFacts.assoc_assignProp by (now left).
    now rewrite String.eqb_refl. }
  assert (Hw1 : writeFailure w1 = None).
  { unfold w1. cbn [printed saved writeFailure].
    now rewrite warned_writeFailure. }
  exists w1,
         (printed (saved (warned w1)
                         (mkConfig (VObj (Js.removeProp ps1 n))
                                   (settings (readConfig (configFile w1)))))
                  [Out (msg_removed n)]).
  split; [exact Hadd |]. split.
  - apply removeCommand_stores; try assumption. now rewrite Hrc1.
  - cbn [printed saved configFile]. rewrite Hrc1. cbn [settings].
    unfold ps1. rewrite (removeProp_assignProp ps n (VStr u) Hnone Hproto), Hrc.
    now apply readConfig_saved_strings.
Qed.

Lemma add_then_remove_restores_witness :
  exists w1 w2,
    addCommand sampleHost "Docs2" "https://example.com"
               (worldWith [("blog", VStr "https://evil.example/")] "firefox")
    = (Returns tt, w1) /\
    removeCommand "Docs2" w1 = (Returns tt, w2) /\
    readConfig (configFile w2)
    = readConfig (configFile (worldWith [("blog", VStr "https://evil.example/")] "firefox")).
Proof.
  refine (add_then_remove_restores sampleHost "Docs2" "https://example.com" "docs2"
            "https://example.com/" "firefox"
            (worldWith [("blog", VStr "https://evil.example/")] "firefox")
            [("blog", VStr "https://evil.example/")]
            eq_refl eq_refl eq_refl eq_refl _ eq_refl eq_refl _).
  - repeat constructor. now exists "https://evil.example/".
  - discriminate.
Defined.

(** X13: [remove] deletes one entry.  On a document with string-valued
    custom shortcuts under distinct names, removing a name it has leaves
    every other custom shortcut and the browser setting as they were, makes
    the table one entry shorter, and the open command then answers that
    the shortcut is not found. *)
Theorem remove_deletes_one_entry (name n b : string) (w : World)
        (ps : list (string * Value)) :
  validateShortcutName name = Ok n ->
  hasOwn BUILT_IN_SHORTCUTS n = false ->
  readConfig (configFile w) = mkConfig (VObj ps) (mkSettings (VStr b)) ->
  StringValued ps ->
  NoDup (map fst ps) ->
  hasOwn ps n = true ->
  writeFailure w = None ->
  exists w' ps',
    removeCommand name w = (Returns tt, w') /\
    readConfig (configFile w') = mkConfig (VObj ps') (mkSettings (VStr b)) /\
    assoc n ps' = None /\
    (forall k, k <> n -> assoc k ps' = assoc k ps) /\
    S (List.length ps') = List.length ps /\
    (forall incognito,
        openCommand name incognito w' = (Exits 1, printed w' (notFoundLines name))).
Proof.
  intros Hn Hb Hrc Hs Hnd Hown Hw.
  assert (Hne : b <> EmptyString).
  { apply truthy_VStr. pose proof (readConfig_truthy (configFile w)) as [_ Ht].
    now rewrite Hrc in Ht. }
  set (w' := printed (saved (warned w) (mkConfig (VObj (Js.removeProp ps n))
                                                 (mkSettings (VStr b))))
                     [Out (msg_removed n)]).
  assert (Hrc' : readConfig (configFile w')
                 = mkConfig (VObj (Js.removeProp ps n)) (mkSettings (VStr b))).
  { unfold w'. cbn [printed saved configFile].
    apply readConfig_saved_strings; [now apply StringValued_removeProp | assumption]. }
  assert (Hgone : assoc n (Js.removeProp ps n) = None).
  { rewrite (assoc_removeProp ps n n Hnd). now rewrite String.eqb_refl. }
  exists w', (Js.removeProp ps n).
  split.
  - rewrite (removeCommand_stores name n w ps Hn Hb); try assumption.
    + now rewrite Hrc.
    + now rewrite Hrc.
  - split; [exact Hrc' |]. split; [exact Hgone |]. split; [| split].
    + intros k Hk. rewrite (assoc_removeProp ps n k Hnd).
      apply not_eq_sym, String.eqb_neq in Hk. now rewrite Hk.
    + now apply length_removeProp.
    + intros incognito.
      rewrite (openCommand_not_found name n incognito w'
                 (validateShortcutName_not_empty name n Hn) Hn).
      * unfold w'. now rewrite warned_printed_saved.
      * rewrite Hrc'. cbn [customShortcuts].
        rewrite assoc_shortcutTable. cbn [Js.ownEntries].
        assert (E : assoc n (rev (Js.removeProp ps n)) = None).
        { apply PropFacts.assoc_None_keys. rewrite map_rev, <- in_rev.
          now apply PropFacts.assoc_None_keys. }
        rewrite E, assoc_builtInProps.
        apply PropFacts.hasOwn_false in Hb. now rewrite Hb.
Qed.

Lemma remove_deletes_one_entry_witness :
  exists w' ps',
    removeCommand " Blog"
      (worldWith [("blog", VStr "https://evil.example/");
                  ("docs2", VStr "https://example.com/")] "default")
    = (Returns tt, w') /\
    readConfig (configFile w') = mkConfig (VObj ps') (mkSettings (VStr "default")) /\
    assoc "blog" ps' = None /\
    (forall k, k <> "blog" ->
               assoc k ps' = assoc k [("blog", VStr "https://evil.example/");
                                      ("docs2", VStr "https://example.com/")]) /\
    S (List.length ps') = 2 /\
    (forall incognito,
        openCommand " Blog" incognito w' = (Exits 1, printed w' (notFoundLines " Blog"))).
Proof.
  refine (remove_deletes_one_entry " Blog" "blog" "default"
            (worldWith [("blog", VStr "https://evil.example/");
                        ("docs2", VStr "https://example.com/")] "default")
            [("blog", VStr "https://evil.example/"); ("docs2", VStr "https://example.com/")]
            eq_refl eq_refl eq_refl _ _ eq_refl eq_refl).
  - repeat constructor; eexists; reflexivity.
  - apply PropFacts.distinctb_NoDup. reflexivity.
Defined.

(** X14: [remove] of a valid name that is neither built-in nor an own
    property of the custom shortcuts prints that the custom shortcut was
    not found and exits with status 1; nothing is written. *)
Theorem remove_missing_shortcut (name n : string) (w : World) :
  validateShortcutName name = Ok n ->
  hasOwn BUILT_IN_SHORTCUTS n = false ->
  Js.hasOwnProperty (customShortcuts (readConfig (configFile w))) n = Ok false ->
  removeCommand name w = (Exits 1, printed (warned w) [Err (msg_custom_not_found n)])
  /\ configFile (snd (removeCommand name w)) = configFile w.
Proof.
  intros Hn Hb Hown.
  assert (E : removeCommand name w
              = (Exits 1, printed (warned w) [Err (msg_custom_not_found n)])).
  { rewrite (removeCommand_valid name n w Hn Hb). now rewrite Hown. }
  split; [exact E |]. rewrite E. apply printed_warned_configFile.
Qed.

Lemma remove_missing_shortcut_witness :
  removeCommand "Blog" freshWorld
  = (Exits 1, printed (warned freshWorld) [Err (msg_custom_not_found "blog")])
  /\ configFile (snd (removeCommand "Blog" freshWorld)) = configFile freshWorld.
Proof.
  exact (remove_missing_shortcut "Blog" "blog" freshWorld eq_refl eq_refl eq_refl).
Defined.


(* ================================================================== *)
(** * Further properties: opening shortcuts *)

(** With a string as browser setting the options are always built: they
    name the app [BROWSERS] gives for the string, and only notes are
    printed. *)
Lemma buildOpenOptions_string (b : string) (incognito : bool) (w : World) :
  exists options notes,
    buildOpenOptions (VStr b) incognito w = (Returns options, printed w notes) /\
    appOf options = BROWSERS_at b.
Proof.
  unfold buildOpenOptions, bind, BROWSERS_get. cbn [Js.toString lift ret].
  destruct (BROWSERS_at b) as [browserApp |].
  - destruct incognito.
    + destruct (incognitoArgs_get browserApp) as [[| a r] |].
      * destruct (isSafari browserApp); unfold console_log; run_console.
        -- eexists. exists [Out note_safari]. split; reflexivity.
        -- eexists. exists []. rewrite printed_nil. split; reflexivity.
      * eexists. exists []. rewrite printed_nil. split; reflexivity.
      * destruct (isSafari browserApp); unfold console_log; run_console.
        -- eexists. exists [Out note_safari]. split; reflexivity.
        -- eexists. exists []. rewrite printed_nil. split; reflexivity.
    + eexists. exists []. rewrite printed_nil. split; reflexivity.
  - destruct incognito; unfold console_log; run_console.
    + eexists. exists [Out note_default]. split; reflexivity.
    + eexists. exists []. rewrite printed_nil. split; reflexivity.
Qed.

(** A command that awaits [openUrl] inside its [try]. *)
Lemma awaited_openUrl (url : Value) (incognito : bool) (w : World) (b : string) :
  browser (settings (readConfig (configFile w))) = VStr b ->
  exists options notes,
    tryCatch (openUrl url incognito) reportAndExit w
    = openedOrReported (printed (warned w) notes) url options /\
    appOf options = BROWSERS_at b.
Proof.
  intros Hb. unfold tryCatch. rewrite openUrl_run, Hb.
  destruct (buildOpenOptions_string b incognito (warned w)) as (options & notes & E & Happ).
  rewrite E. exists options, notes. split; [| exact Happ].
  unfold openResult, openedOrReported. cbn [openFailure printed launched].
  destruct (openFailure (warned w)); reflexivity.
Qed.

(** The open command for a shortcut the table has. *)
Lemma openCommand_found (shortcut n : string) (incognito : bool) (w : World) (url : Value) :
  validateShortcutName shortcut = Ok n ->
  assoc n (shortcutTable (customShortcuts (readConfig (configFile w)))) = Some url ->
  openCommand shortcut incognito w
  = tryCatch (openUrl url incognito) reportAndExit
             (printed (warned w) [Out ("Opening " ++ n ++ "...")]).
Proof.
  intros Hn Hfound. unfold openCommand.
  pose proof (validateShortcutName_not_empty shortcut n Hn) as Hne.
  apply String.eqb_neq in Hne. rewrite Hne.
  unfold tryCatch. unfold bind at 1. rewrite Hn. cbn [lift ret].
  rewrite (bind_run _ _ _ _ _ (getAllShortcuts_run w)), Hfound.
  unfold bind, console_log. rewrite emit_run. reflexivity.
Qed.

(** X15: a shortcut that [add] stored is the one the open command
    launches.  On a document with string-valued custom shortcuts under
    distinct names, after [add] of a valid name other than [__proto__] the
    open command calls [open] with the validated URL and the app of the
    configured browser; it returns normally, or reports the launcher's
    rejection and exits with status 1. *)
Theorem added_shortcut_opens (host : Host) (name url n u b : string) (incognito : bool)
        (w : World) (ps : list (string * Value)) :
  validateShortcutName name = Ok n ->
  hasOwn BUILT_IN_SHORTCUTS n = false ->
  validateUrl host url = Ok u ->
  readConfig (configFile w) = mkConfig (VObj ps) (mkSettings (VStr b)) ->
  StringValued ps ->
  NoDup (map fst ps) ->
  writeFailure w = None ->
  n <> "__proto__" ->
  exists w1 options notes,
    addCommand host name url w = (Returns tt, w1) /\
    openCommand name incognito w1
    = openedOrReported (printed w1 (Out ("Opening " ++ n ++ "...") :: notes))
                       (VStr u) options /\
    appOf options = BROWSERS_at b.
Proof.
  intros Hn Hb Hu Hrc Hs Hnd Hw Hproto.
  assert (Hne : b <> EmptyString).
  { apply truthy_VStr. pose proof (readConfig_truthy (configFile w)) as [_ Ht].
    now rewrite Hrc in Ht. }
  set (ps1 := Js.assignProp ps n (VStr u)).
  set (cfg1 := mkConfig (VObj ps1) (mkSettings (VStr b))).
  set (w1 := printed (saved (warned w) cfg1) [Out (msg_added n u)]).
  assert (Hadd : addCommand host name url w = (Returns tt, w1)).
  { rewrite (addCommand_valid host name url n u w Hn Hu Hb), Hrc.
    cbn [customShortcuts settings Js.setProperty]. now rewrite Hw. }
  assert (Hrc1 : readConfig (configFile w1) = cfg1).
  { unfold w1. cbn [printed saved configFile].
    apply readConfig_saved_strings; [now apply StringValued_assignProp | assumption]. }
  assert (Hwarn1 : warned w1 = w1) by apply warned_printed_saved.
  assert (Hfound : assoc n (shortcutTable (customShortcuts (readConfig (configFile w1))))
                   = Some (VStr u)).
  { rewrite Hrc1. cbn [cfg1 customShortcuts]. rewrite assoc_shortcutTable.
    cbn [Js.ownEntries].
    rewrite PropFacts.assoc_rev_distinct by (now apply PropFacts.distinct_assignProp).
    unfold ps1. rewrite PropFacts.assoc_assignProp by (now left).
    now rewrite String.eqb_refl. }
  set (w2 := printed w1 [Out ("Opening " ++ n ++ "...")]).
  assert (Hb2 : browser (settings (readConfig (configFile w2))) = VStr b).
  { unfold w2. cbn [printed configFile]. now rewrite Hrc1. }
  assert (Hwarn2 : warned w2 = w2).
  { unfold w2, w1. rewrite printed_printed. apply warned_printed_saved. }
  destruct (awaited_openUrl (VStr u) incognito w2 b Hb2) as (options & notes & E & Happ).
  exists w1, options, notes. split; [exact Hadd |]. split; [| exact Happ].
  rewrite (openCommand_found name n incognito w1 (VStr u) Hn Hfound), Hwarn1.
  fold w2. rewrite E, Hwarn2. unfold w2. now rewrite printed_printed.
Qed.

Lemma added_shortcut_opens_witness :
  exists w1 options notes,
    addCommand sampleHost "Docs2" "https://example.com"
               (worldWith [("blog", VStr "https://evil.example/")] "firefox")
    = (Returns tt, w1) /\
    openCommand "Docs2" true w1
    = openedOrReported (printed w1 (Out ("Opening " ++ "docs2" ++ "...") :: notes))
                       (VStr "https://example.com/") options /\
    appOf options = BROWSERS_at "firefox".
Proof.
  refine (added_shortcut_opens sampleHost "Docs2" "https://example.com" "docs2"
            "https://example.com/" "firefox" true
            (worldWith [("blog", VStr "https://evil.example/")] "firefox")
            [("blog", VStr "https://evil.example/")]
            eq_refl eq_refl eq_refl eq_refl _ _ eq_refl _).
  - repeat constructor. now exists "https://evil.example/".
  - apply PropFacts.distinctb_NoDup. reflexivity.
  - discriminate.
Defined.

Lemma builtin_names_valid (name url : string) :
  In (name, url) BUILT_IN_SHORTCUTS ->
  validateShortcutName name = Ok name /\ assoc name BUILT_IN_SHORTCUTS = Some url.
Proof.
  unfold BUILT_IN_SHORTCUTS. cbn [In]. intros H.
  repeat (destruct H as [H | H]; [injection H as <- <-; split; reflexivity |]).
  contradiction.
Qed.

(** X16: every built-in shortcut can be opened by its own name.  The
    name passes validation unchanged, and unless the custom shortcuts have
    an entry of that name the open command calls [open] with the built-in
    URL and the app of the configured browser. *)
Theorem builtin_shortcut_opens (name url b : string) (incognito : bool) (w : World) :
  In (name, url) BUILT_IN_SHORTCUTS ->
  ~ In name (map fst (Js.ownEntries (customShortcuts (readConfig (configFile w))))) ->
  browser (settings (readConfig (configFile w))) = VStr b ->
  exists options notes,
    openCommand name incognito w
    = openedOrReported
        (printed (warned (printed (warned w) [Out ("Opening " ++ name ++ "...")])) notes)
        (VStr url) options /\
    appOf options = BROWSERS_at b.
Proof.
  intros Hin Hfree Hb.
  destruct (builtin_names_valid name url Hin) as [Hn Hurl].
  assert (Hfound : assoc name (shortcutTable (customShortcuts (readConfig (configFile w))))
                   = Some (VStr url)).
  { rewrite assoc_shortcutTable.
    assert (E : assoc name
                  (rev (Js.ownEntries (customShortcuts (readConfig (configFile w)))))
                = None).
    { apply PropFacts.assoc_None_keys. now rewrite map_rev, <- in_rev. }
    rewrite E, assoc_builtInProps. now rewrite Hurl. }
  rewrite (openCommand_found name name incognito w (VStr url) Hn Hfound).
  apply awaited_openUrl.
  now rewrite printed_warned_configFile.
Qed.

Lemma builtin_shortcut_opens_witness :
  exists options notes,
    openCommand "github" true (worldWith [("blog", VStr "https://evil.example/")] "brave")
    = openedOrReported
        (printed (warned (printed (warned (worldWith [("blog", VStr "https://evil.example/")]
                                                     "brave"))
                                  [Out ("Opening " ++ "github" ++ "...")])) notes)
        (VStr "https://github.com") options /\
    appOf options = BROWSERS_at "brave".
Proof.
  refine (builtin_shortcut_opens "github" "https://github.com" "brave" true
            (worldWith [("blog", VStr "https://evil.example/")] "brave") _ _ eq_refl).
  - unfold BUILT_IN_SHORTCUTS. cbn [In]. do 24 right. left. reflexivity.
  - cbn. intros [H | []]. discriminate H.
Defined.

(** X17: in the table [getAllShortcuts] builds, a custom entry hides the
    built-in shortcut of the same name, and a name without a custom entry
    gives the built-in URL if there is one.  The built-in test of [add]
    is the only thing that keeps a custom entry from replacing a built-in
    one: a document edited by hand is not checked when it is read. *)
Theorem custom_entry_hides_builtin (customs : Value) (k : string) :
  NoDup (map fst (Js.ownEntries customs)) ->
  assoc k (shortcutTable customs)
  = match assoc k (Js.ownEntries customs) with
    | Some url => Some url
    | None => option_map VStr (assoc k BUILT_IN_SHORTCUTS)
    end.
Proof.
  intros Hnd. rewrite assoc_shortcutTable, (PropFacts.assoc_rev_distinct _ k Hnd).
  destruct (assoc k (Js.ownEntries customs)); [reflexivity | apply assoc_builtInProps].
Qed.

Lemma custom_entry_hides_builtin_witness :
  assoc "github" (shortcutTable (VObj [("github", VStr "https://evil.example/")]))
  = Some (VStr "https://evil.example/").
Proof.
  refine (custom_entry_hides_builtin (VObj [("github", VStr "https://evil.example/")])
            "github" _).
  apply PropFacts.distinctb_NoDup. reflexivity.
Defined.

(* ================================================================== *)
(** * Further properties: commands that only read *)

Section Keeps.

Lemma keeps_ret {A : Type} (a : A) : KeepsFile (ret a).
Proof. intros w. split; reflexivity. Qed.

Lemma keeps_throw {A : Type} (e : Thrown) : KeepsFile (@throw A e).
Proof. intros w. split; reflexivity. Qed.

Lemma keeps_exit {A : Type} (status : Z) : KeepsFile (@process_exit A status).
Proof. intros w. split; reflexivity. Qed.

Lemma keeps_emit (l : Line) : KeepsFile (emit l).
Proof. intros w. split; reflexivity. Qed.

Lemma keeps_lift {A : Type} (r : Result A) : KeepsFile (lift r).
Proof. destruct r; [apply keeps_ret | apply keeps_throw]. Qed.

Lemma keeps_bind {A B : Type} (m : M A) (k : A -> M B) :
  KeepsFile m -> (forall a, KeepsFile (k a)) -> KeepsFile (bind m k).
Proof.
  intros Hm Hk w. unfold bind. specialize (Hm w).
  destruct (m w) as [[a | e | n] w1]; cbn [snd] in *; try exact Hm.
  specialize (Hk a w1). destruct Hk as [H1 H2], Hm as [H3 H4].
  split; congruence.
Qed.

Lemma keeps_tryCatch {A : Type} (body : M A) (handler : Thrown -> M A) :
  KeepsFile body -> (forall e, KeepsFile (handler e)) -> KeepsFile (tryCatch body handler).
Proof.
  intros Hb Hh w. unfold tryCatch. specialize (Hb w).
  destruct (body w) as [[a | e | n] w1]; cbn [snd] in *; try exact Hb.
  specialize (Hh e w1). destruct Hh as [H1 H2], Hb as [H3 H4].
  split; congruence.
Qed.

Lemma keeps_loadConfig : KeepsFile loadConfig.
Proof.
  intros w. rewrite loadConfig_run. cbn [snd].
  split; [apply warned_configFile | apply warned_frame].
Qed.

Lemma keeps_open (url : Value) (options : OpenOptions) : KeepsFile (open url options).
Proof.
  intros w. unfold open. destruct (openFailure w); split; reflexivity.
Qed.

Lemma keeps_reportAndExit {A : Type} (e : Thrown) : KeepsFile (@reportAndExit A e).
Proof. intros w. split; reflexivity. Qed.

End Keeps.

Create HintDb keeps.
#[export] Hint Resolve keeps_ret keeps_throw keeps_exit keeps_emit keeps_lift
  keeps_loadConfig keeps_open keeps_reportAndExit : keeps.

(** Take a command apart along its sequencing, [try] and branches. *)
Ltac keeps_file :=
  repeat first
    [ solve [auto with keeps]
    | apply keeps_bind; [| intro]
    | apply keeps_tryCatch; [| intro]
    | match goal with
      | |- KeepsFile (if ?b then _ else _) => destruct b
      | |- KeepsFile (match ?x with _ => _ end) => destruct x
      end ].

Lemma keeps_console_log (text : string) : KeepsFile (console_log text).
Proof. apply keeps_emit. Qed.

Lemma keeps_console_error (text : string) : KeepsFile (console_error text).
Proof. apply keeps_emit. Qed.

#[export] Hint Resolve keeps_console_log keeps_console_error : keeps.

Lemma keeps_getAllShortcuts : KeepsFile getAllShortcuts.
Proof. unfold getAllShortcuts. keeps_file. Qed.

Lemma keeps_buildOpenOptions (browserName : Value) (incognito : bool) :
  KeepsFile (buildOpenOptions browserName incognito).
Proof. unfold buildOpenOptions. keeps_file. Qed.

Lemma keeps_openUrl (url : Value) (incognito : bool) : KeepsFile (openUrl url incognito).
Proof.
  unfold openUrl. apply keeps_bind; [apply keeps_loadConfig | intro config].
  apply keeps_bind; [apply keeps_buildOpenOptions | intro options].
  keeps_file.
Qed.

Lemma keeps_printRows (nameWidth typeWidth : nat) (rows : list Row) :
  KeepsFile (printRows nameWidth typeWidth rows).
Proof.
  induction rows as [| r rows IH]; cbn [printRows]; [apply keeps_ret |].
  apply keeps_bind; [apply keeps_lift | intro line].
  apply keeps_bind; [apply keeps_console_log | intros _; exact IH].
Qed.

Lemma keeps_printTable (rows : list Row) : KeepsFile (printTable rows).
Proof.
  unfold printTable. destruct rows as [| r rest]; [apply keeps_console_log |].
  repeat (apply keeps_bind; [first [apply keeps_console_log | apply keeps_printRows] | intro]).
  apply keeps_console_log.
Qed.

#[export] Hint Resolve keeps_getAllShortcuts keeps_openUrl keeps_printTable : keeps.

(** X18: the commands that only read never change the configuration
    file: whatever its state and whatever the arguments, after the open
    command, [list], [search] and [config show] the file is as it was, and
    so is every later attempt to write it. *)
Theorem reading_commands_keep_file (host : Host) :
  (forall shortcut incognito, KeepsFile (openCommand shortcut incognito)) /\
  (forall builtin custom, KeepsFile (listCommand host builtin custom)) /\
  (forall queryParts incognito engineOption,
      KeepsFile (searchCommand queryParts incognito engineOption)) /\
  (forall CONFIG_FILE, KeepsFile (configShowCommand CONFIG_FILE)).
Proof.
  split; [| split; [| split]].
  - intros shortcut incognito. unfold openCommand, program_help. keeps_file.
  - intros builtin custom. unfold listCommand, collectRows. keeps_file.
  - intros queryParts incognito engineOption. unfold searchCommand. keeps_file.
  - intros CONFIG_FILE. unfold configShowCommand. keeps_file.
Qed.

(* ================================================================== *)
(** * Further properties: list, search and config show *)

Lemma sortRows_length (host : Host) (rows : list Row) :
  List.length (sortRows host rows) = List.length rows.
Proof. exact (Permutation_length (sortRows_perm host rows)). Qed.

Lemma builtInRows_printable : Forall (fun r => Printable (rowUrl r)) builtInRows.
Proof.
  unfold builtInRows. apply Forall_forall. intros r Hr.
  apply in_map_iff in Hr as (kv & <- & _). now exists (snd kv).
Qed.

(** [list] up to the call of [printTable], for each choice of filters. *)
Lemma listCommand_rows (host : Host) (builtin custom : bool) (w : World) :
  let rows :=
    sortRows host
      ((if custom then [] else builtInRows)
       ++ (if builtin then []
           else customRows (Js.ownEntries (customShortcuts (readConfig (configFile w))))))
  in
  listCommand host builtin custom w
  = match printTable rows (printed (warned w) [totalLine rows]) with
    | (Throws e, w') => reportAndExit e w'
    | r => r
    end.
Proof.
  intros rows. unfold listCommand, tryCatch.
  rewrite (bind_run _ _ _ _ _ (loadConfig_run w)).
  unfold collectRows.
  assert (E : (if builtin then []
               else customRows (Js.ownEntries (customShortcuts (readConfig (configFile w)))))
              = if negb builtin
                then customRows (Js.ownEntries (customShortcuts (readConfig (configFile w))))
                else []) by (now destruct builtin).
  unfold rows. rewrite E. clear E rows.
  destruct builtin, custom; cbn [negb];
    rewrite ?Object_entries_truthy by apply readConfig_truthy;
    unfold bind, lift, ret, console_log; cbv beta iota.
  all: rewrite ?app_nil_r.
  all: rewrite emit_run; cbv beta iota; unfold totalLine.
  all: match goal with
       | |- context [printTable ?r ?x] => destruct (printTable r x) as [[[] | e | n] w']
       end; reflexivity.
Qed.

(** X19: the filters of [list].  With both [--builtin] and [--custom]
    nothing is listed: the total is 0 and the table is replaced by the
    line [No shortcuts found.].  With [--builtin] alone the table has the
    built-in shortcuts whatever the configuration file holds.  With
    [--custom] alone the total is the number of custom entries. *)
Theorem list_filters (host : Host) (w : World) :
  listCommand host true true w
  = (Returns tt, printed (warned w) [ Out (newline ++ "Total shortcuts: 0");
                                      Out "No shortcuts found." ]) /\
  listCommand host true false w
  = (Returns tt, printed (warned w) (totalLine (sortRows host builtInRows)
                                     :: tableLines (sortRows host builtInRows))) /\
  List.length (sortRows host builtInRows) = List.length BUILT_IN_SHORTCUTS /\
  exists o rest,
    listCommand host false true w
    = (o, printed (warned w)
            (Out (newline ++ "Total shortcuts: "
                  ++ Str.ofNat (List.length
                                  (Js.ownEntries (customShortcuts (readConfig (configFile w))))))
             :: rest)).
Proof.
  split; [| split; [| split]].
  - rewrite listCommand_rows. cbn [List.app sortRows].
    unfold printTable, console_log, totalLine. rewrite emit_run, printed_printed.
    reflexivity.
  - rewrite listCommand_rows. rewrite app_nil_r.
    assert (Hne : sortRows host builtInRows <> []).
    { intros E. pose proof (sortRows_length host builtInRows) as L. rewrite E in L.
      discriminate L. }
    assert (Hp : Forall (fun r => Printable (rowUrl r)) (sortRows host builtInRows)).
    { apply (Permutation_Forall (Permutation_sym (sortRows_perm host builtInRows))).
      apply builtInRows_printable. }
    rewrite (printTable_run _ _ Hne Hp), printed_printed. reflexivity.
  - rewrite sortRows_length. unfold builtInRows. apply length_map.
  - rewrite listCommand_rows. cbn [List.app].
    set (rows := sortRows host
                   (customRows (Js.ownEntries (customShortcuts (readConfig (configFile w)))))).
    assert (L : List.length rows
                = List.length (Js.ownEntries (customShortcuts (readConfig (configFile w))))).
    { unfold rows. rewrite sortRows_length. unfold customRows. apply length_map. }
    rewrite <- L.
    destruct (printTable_appends rows (printed (warned w) [totalLine rows]))
      as ([[] | e | n] & lines & E); rewrite E.
    + rewrite printed_printed. now exists (Returns tt), lines.
    + rewrite reportAndExit_run, !printed_printed. eexists. eexists. reflexivity.
    + rewrite printed_printed. now exists (Exits n), lines.
Qed.

Lemma length_append (a b : string) :
  String.length (a ++ b) = String.length a + String.length b.
Proof.
  induction a as [| c a IH]; simpl; [reflexivity | now rewrite IH].
Qed.

Lemma length_repeat_char (c : string) (n : nat) :
  String.length (Str.repeat c n) = n * String.length c.
Proof.
  induction n as [| n IH]; simpl; [reflexivity |]. now rewrite length_append, IH.
Qed.

Lemma length_padEnd (s : string) (width : nat) :
  String.length (Str.padEnd s width) = Nat.max (String.length s) width.
Proof.
  unfold Str.padEnd. rewrite length_append, length_repeat_char. simpl. lia.
Qed.

Lemma fold_max_ge (l : list nat) (a : nat) :
  a <= fold_left Nat.max l a /\ forall x, In x l -> x <= fold_left Nat.max l a.
Proof.
  revert a. induction l as [| y l IH]; intros a; simpl.
  - split; [lia | tauto].
  - destruct (IH (Nat.max a y)) as [H1 H2]. split; [lia |].
    intros x [<- | Hx]; [lia | now apply H2].
Qed.

(** X20: the columns of the table line up.  The name column is as wide
    as the longest name plus two, and at least twelve characters; in the
    line of every row the URL starts after the name padded to that width
    and the type padded to ten characters. *)
Theorem table_columns_align (rows : list Row) (r : Row) :
  In r rows ->
  String.length (rowType r) <= 10 ->
  12 <= nameWidthOf rows /\
  String.length (rowName r) + 2 <= nameWidthOf rows /\
  exists columns,
    tableText (nameWidthOf rows) 10 r = columns ++ urlText (rowUrl r) /\
    String.length columns = nameWidthOf rows + 10.
Proof.
  intros Hin Hty.
  destruct (fold_max_ge (map (fun r0 => String.length (rowName r0)) rows) 10) as [H10 Hall].
  assert (Hr : String.length (rowName r)
               <= fold_left Nat.max (map (fun r0 => String.length (rowName r0)) rows) 10).
  { apply Hall. apply in_map_iff. now exists r. }
  unfold nameWidthOf.
  split; [lia |]. split; [lia |].
  exists (Str.padEnd (rowName r)
                     (fold_left Nat.max (map (fun r0 => String.length (rowName r0)) rows) 10 + 2)
          ++ Str.padEnd (rowType r) 10).
  split.
  - unfold tableText. now rewrite StrFacts.append_assoc.
  - rewrite length_append, !length_padEnd. lia.
Qed.

Lemma table_columns_align_witness :
  12 <= nameWidthOf [("stackoverflow", VStr "https://stackoverflow.com", "built-in");
                     ("x", VStr "https://www.x.com", "built-in")] /\
  String.length (rowName ("x", VStr "https://www.x.com", "built-in")) + 2
  <= nameWidthOf [("stackoverflow", VStr "https://stackoverflow.com", "built-in");
                  ("x", VStr "https://www.x.com", "built-in")] /\
  exists columns,
    tableText (nameWidthOf [("stackoverflow", VStr "https://stackoverflow.com", "built-in");
                            ("x", VStr "https://www.x.com", "built-in")]) 10
              ("x", VStr "https://www.x.com", "built-in")
    = columns ++ urlText (rowUrl ("x", VStr "https://www.x.com", "built-in")) /\
    String.length columns
    = nameWidthOf [("stackoverflow", VStr "https://stackoverflow.com", "built-in");
                   ("x", VStr "https://www.x.com", "built-in")] + 10.
Proof.
  refine (table_columns_align
            [("stackoverflow", VStr "https://stackoverflow.com", "built-in");
             ("x", VStr "https://www.x.com", "built-in")]
            ("x", VStr "https://www.x.com", "built-in") _ _).
  - right. left. reflexivity.
  - cbn. lia.
Defined.

Lemma encodeURIComponent_cons (c : ascii) (r : string) :
  encodeURIComponent (String c r) = encodedChar c ++ encodeURIComponent r.
Proof. reflexivity. Qed.

Lemma encodedChar_safe (c : ascii) :
  allChars uriSafe (encodedChar c) = true
  /\ (uriUnreserved c = true -> encodedChar c = String c EmptyString).
Proof.
  destruct c as [[] [] [] [] [] [] [] []]; vm_compute;
    (split; [reflexivity | intros H; try discriminate H; reflexivity]).
Qed.

Lemma allChars_app (p : ascii -> bool) (a b : string) :
  allChars p (a ++ b) = allChars p a && allChars p b.
Proof.
  induction a as [| c a IH]; simpl; [reflexivity |]. now rewrite IH, andb_assoc.
Qed.

Lemma encodeURIComponent_chars (s : string) :
  allChars uriSafe (encodeURIComponent s) = true /\
  (allChars uriUnreserved s = true -> encodeURIComponent s = s).
Proof.
  induction s as [| c s (IH1 & IH2)].
  - split; reflexivity.
  - rewrite encodeURIComponent_cons.
    destruct (encodedChar_safe c) as (H1 & H3).
    split.
    + now rewrite allChars_app, H1, IH1.
    + cbn [allChars]. intros H. apply andb_true_iff in H as [Hc Hs].
      now rewrite (H3 Hc), (IH2 Hs).
Qed.

Lemma searchCommand_valid (queryParts : list string) (incognito : bool)
      (engineOption prefix : string) (w : World) :
  Str.trim (Str.join " " queryParts) <> EmptyString ->
  String.length (Str.trim (Str.join " " queryParts)) <= 500 ->
  assoc (Str.toLowerCase engineOption) searchEngines = Some prefix ->
  searchCommand queryParts incognito engineOption w
  = tryCatch
      (openUrl (VStr (prefix ++ encodeURIComponent (Str.trim (Str.join " " queryParts))))
               incognito)
      reportAndExit
      (printed w [Out (msg_searching (Str.trim (Str.join " " queryParts))
                                     (Str.toLowerCase engineOption))]).
Proof.
  intros Hne Hlen Heng. unfold searchCommand.
  set (query := Str.trim (Str.join " " queryParts)) in *.
  apply String.eqb_neq in Hne.
  assert (Hl : (500 <? String.length query)%nat = false) by (apply Nat.ltb_ge; lia).
  unfold tryCatch. rewrite Hne, Hl, Heng.
  unfold bind, ret, console_log. cbv beta iota. rewrite emit_run.
  reflexivity.
Qed.

(** X22: [search] with a query that is not empty and has at most 500
    characters, and an engine it knows (in any case of letters), calls
    [open] with the engine's URL followed by the percent-encoded query
    and the app of the configured browser; it returns normally, or reports
    the launcher's rejection and exits with status 1. *)
Theorem search_opens_encoded_query (queryParts : list string) (incognito : bool)
        (engineOption prefix b : string) (w : World) :
  Str.trim (Str.join " " queryParts) <> EmptyString ->
  String.length (Str.trim (Str.join " " queryParts)) <= 500 ->
  assoc (Str.toLowerCase engineOption) searchEngines = Some prefix ->
  browser (settings (readConfig (configFile w))) = VStr b ->
  exists options notes,
    searchCommand queryParts incognito engineOption w
    = openedOrReported
        (printed (warned (printed w [Out (msg_searching (Str.trim (Str.join " " queryParts))
                                                       (Str.toLowerCase engineOption))]))
                 notes)
        (VStr (prefix ++ encodeURIComponent (Str.trim (Str.join " " queryParts))))
        options /\
    appOf options = BROWSERS_at b.
Proof.
  intros Hne Hlen Heng Hb.
  rewrite (searchCommand_valid queryParts incognito engineOption prefix w Hne Hlen Heng).
  apply awaited_openUrl. exact Hb.
Qed.

Lemma search_opens_encoded_query_witness :
  exists options notes,
    searchCommand ["rocq prover"; " a&b "] false "Bing" freshWorld
    = openedOrReported
        (printed (warned (printed freshWorld [Out (msg_searching "rocq prover  a&b" "bing")]))
                 notes)
        (VStr "https://www.bing.com/search?q=rocq%20prover%20%20a%26b")
        options /\
    appOf options = BROWSERS_at "default".
Proof.
  refine (search_opens_encoded_query ["rocq prover"; " a&b "] false "Bing"
            "https://www.bing.com/search?q=" "default" freshWorld _ _ eq_refl eq_refl).
  - discriminate.
  - cbn. lia.
Defined.

(** X23: [search] refuses an empty query and an unknown engine.  When the
    words joined and trimmed are empty, and when the engine option in
    lower case is none of google, bing and duckduckgo, it prints an error,
    exits with status 1 and opens nothing. *)
Theorem search_refuses (queryParts : list string) (incognito : bool)
        (engineOption : string) (w : World) :
  (Str.trim (Str.join " " queryParts) = EmptyString ->
   searchCommand queryParts incognito engineOption w
   = (Exits 1, printed w [Err msg_query_empty])) /\
  (Str.trim (Str.join " " queryParts) <> EmptyString ->
   String.length (Str.trim (Str.join " " queryParts)) <= 500 ->
   ~ In (Str.toLowerCase engineOption) ["google"; "bing"; "duckduckgo"] ->
   searchCommand queryParts incognito engineOption w
   = (Exits 1, printed w [Err (msg_unknown_engine engineOption)])).
Proof.
  unfold searchCommand, tryCatch.
  set (query := Str.trim (Str.join " " queryParts)).
  split.
  - intros E. rewrite E. cbn [String.eqb]. unfold bind, console_error.
    rewrite emit_run. reflexivity.
  - intros Hne Hlen Heng.
    apply String.eqb_neq in Hne.
    assert (Hl : (500 <? String.length query)%nat = false) by (apply Nat.ltb_ge; lia).
    rewrite Hne, Hl.
    assert (Hnone : assoc (Str.toLowerCase engineOption) searchEngines = None).
    { unfold searchEngines. cbn [assoc In] in *.
      repeat match goal with
             | |- context [String.eqb ?a ?b] =>
                 destruct (String.eqb_spec a b); [exfalso; apply Heng; tauto |]
             end.
      reflexivity. }
    rewrite Hnone. unfold bind, ret, console_error. cbv beta iota.
    rewrite emit_run. reflexivity.
Qed.

Lemma buildOpenOptions_opened (b : Value) (incognito : bool) (w : World) :
  opened (snd (buildOpenOptions b incognito w)) = opened w.
Proof.
  unfold buildOpenOptions, bind.
  destruct (BROWSERS_get b) as [[browserApp |] | e]; cbn [lift ret throw snd];
    try reflexivity.
  - destruct incognito; [| reflexivity].
    destruct (incognitoArgs_get browserApp) as [[| a r] |];
      try reflexivity;
      destruct (isSafari browserApp); unfold console_log; try rewrite emit_run;
      reflexivity.
  - destruct incognito; unfold console_log; try rewrite emit_run; reflexivity.
Qed.

Lemma openUrl_opened (url : Value) (incognito : bool) (w : World) :
  opened (snd (tryCatch (openUrl url incognito) reportAndExit w)) = opened w \/
  exists options,
    opened (snd (tryCatch (openUrl url incognito) reportAndExit w))
    = (opened w ++ [(url, options)])%list.
Proof.
  unfold tryCatch. rewrite openUrl_run.
  pose proof (buildOpenOptions_opened (browser (settings (readConfig (configFile w))))
                incognito (warned w)) as Hb.
  destruct (warned_frame w) as (_ & Ho & _). rewrite Ho in Hb.
  destruct (buildOpenOptions _ incognito (warned w)) as [[options | e | n] w1];
    cbn [snd] in Hb.
  - right. exists options. unfold openResult.
    destruct (openFailure w1); cbn [snd launched opened reportAndExit];
      try rewrite reportAndExit_run; cbn [snd printed launched opened];
      now rewrite Hb.
  - left. rewrite reportAndExit_run. exact Hb.
  - left. exact Hb.
Qed.

Lemma assoc_In_values {A : Type} (k : string) (l : list (string * A)) (v : A) :
  assoc k l = Some v -> In v (map snd l).
Proof.
  induction l as [| [k' v'] l IH]; cbn [assoc map snd In]; [discriminate |].
  destruct (String.eqb k' k); [intros [= ->]; now left | intros H; right; auto].
Qed.

(** X21: whatever its arguments, [search] calls [open] at most once, and
    only with the URL of one of its three engines followed by characters
    that [encodeURIComponent] leaves alone, percent signs and upper-case
    hexadecimal digits.  So no blank, [&], [#], [=], [?] or [/] of the
    query reaches the URL: the query cannot leave the parameter [q]. *)
Theorem search_opens_only_encoded (queryParts : list string) (incognito : bool)
        (engineOption : string) (w : World) :
  opened (snd (searchCommand queryParts incognito engineOption w)) = opened w \/
  exists prefix rest options,
    In prefix (map snd searchEngines) /\
    allChars uriSafe rest = true /\
    opened (snd (searchCommand queryParts incognito engineOption w))
    = (opened w ++ [(VStr (prefix ++ rest), options)])%list.
Proof.
  destruct (String.eqb (Str.trim (Str.join " " queryParts)) EmptyString) eqn:Hq.
  { left. unfold searchCommand, tryCatch. rewrite Hq.
    unfold bind, console_error. rewrite emit_run. reflexivity. }
  destruct (500 <? String.length (Str.trim (Str.join " " queryParts)))%nat eqn:Hl.
  { left. rewrite searchCommand_too_long by (now apply Nat.ltb_lt). reflexivity. }
  apply String.eqb_neq in Hq. 
  destruct (assoc (Str.toLowerCase engineOption) searchEngines) as [prefix |] eqn:He.
  - apply Nat.ltb_ge in Hl.
    rewrite (searchCommand_valid queryParts incognito engineOption prefix w Hq Hl He).
    destruct (openUrl_opened
                (VStr (prefix ++ encodeURIComponent (Str.trim (Str.join " " queryParts))))
                incognito
                (printed w [Out (msg_searching (Str.trim (Str.join " " queryParts))
                                               (Str.toLowerCase engineOption))]))
      as [H | [options H]].
    + left. exact H.
    + right. exists prefix, (encodeURIComponent (Str.trim (Str.join " " queryParts))), options.
      split; [exact (assoc_In_values _ _ _ He) |].
      split; [apply encodeURIComponent_chars | exact H].
  - left. unfold searchCommand, tryCatch.
    apply String.eqb_neq in Hq. rewrite Hq, Hl, He.
    unfold bind, ret, console_error. cbv beta iota. rewrite emit_run. reflexivity.
Qed.

(** X24: [config show] with a string as browser setting prints that
    string and the number of own entries of the custom shortcuts, the
    number [list --custom] gives as its total, and returns normally. *)
Theorem configShow_prints (CONFIG_FILE b : string) (w : World) :
  browser (settings (readConfig (configFile w))) = VStr b ->
  configShowCommand CONFIG_FILE w
  = (Returns tt,
     printed (warned w)
       [ Out (newline ++ "Current Configuration:");
         Out (Str.repeat "-" 40);
         Out ("Browser: " ++ b);
         Out ("Config file: " ++ CONFIG_FILE);
         Out ("Custom shortcuts: "
              ++ Str.ofNat (List.length
                              (Js.ownEntries (customShortcuts (readConfig (configFile w))))));
         Out (Str.repeat "-" 40 ++ newline) ]).
Proof.
  intros Hb. unfold configShowCommand, tryCatch.
  rewrite (bind_run _ _ _ _ _ (loadConfig_run w)).
  rewrite Hb, Object_entries_truthy by apply readConfig_truthy.
  cbn [Js.toString lift]. unfold bind, ret, console_log.
  run_console. rewrite !printed_printed. reflexivity.
Qed.

Lemma configShow_prints_witness :
  configShowCommand "/home/u/.openapprc.json"
                    (worldWith [("blog", VStr "https://example.com/")] "firefox")
  = (Returns tt,
     printed (worldWith [("blog", VStr "https://example.com/")] "firefox")
       [ Out (newline ++ "Current Configuration:");
         Out (Str.repeat "-" 40);
         Out "Browser: firefox";
         Out "Config file: /home/u/.openapprc.json";
         Out "Custom shortcuts: 1";
         Out (Str.repeat "-" 40 ++ newline) ]).
Proof.
  exact (configShow_prints "/home/u/.openapprc.json" "firefox"
           (worldWith [("blog", VStr "https://example.com/")] "firefox") eq_refl).
Defined.

(** X26: the default action launches nothing for a shortcut it cannot
    resolve.  For a name that is given, when the name is rejected the
    command prints the rejection and exits with status 1 before the
    configuration is read; when the name is valid but is no key of the
    shortcut table, it prints the three lines about the shortcut as it was
    typed and exits with status 1.  In both cases [open] is not called. *)
Theorem open_unresolved_launches_nothing (shortcut : string) (incognito : bool) (w : World) :
  shortcut <> EmptyString ->
  (forall n, validateShortcutName shortcut = Ok n ->
             assoc n (shortcutTable (customShortcuts (readConfig (configFile w)))) = None) ->
  openCommand shortcut incognito w
  = match validateShortcutName shortcut with
    | Raise e => (Exits 1, printed w [Err ("Error: " ++ message e)])
    | Ok _ => (Exits 1, printed (warned w) (notFoundLines shortcut))
    end /\
  opened (snd (openCommand shortcut incognito w)) = opened w.
Proof.
  intros Hne Hnone.
  assert (H : openCommand shortcut incognito w
              = match validateShortcutName shortcut with
                | Raise e => (Exits 1, printed w [Err ("Error: " ++ message e)])
                | Ok _ => (Exits 1, printed (warned w) (notFoundLines shortcut))
                end).
  { destruct (validateShortcutName shortcut) as [n | e] eqn:Hn.
    - exact (openCommand_not_found shortcut n incognito w Hne Hn (Hnone n eq_refl)).
    - unfold openCommand. apply String.eqb_neq in Hne. rewrite Hne.
      unfold tryCatch, bind. now rewrite Hn. }
  split; [exact H |]. rewrite H.
  destruct (validateShortcutName shortcut); [| reflexivity].
  apply (warned_frame w).
Qed.

Lemma open_unresolved_launches_nothing_witness :
  openCommand "No-Such" true freshWorld
  = (Exits 1, printed freshWorld (notFoundLines "No-Such")).
Proof.
  refine (proj1 (open_unresolved_launches_nothing "No-Such" true freshWorld _ _)).
  - discriminate.
  - intros n Hn. vm_compute in Hn. injection Hn as <-. vm_compute. reflexivity.
Defined.
